(** * America IPTV backend: the subscription due-date rules of [server.js]

    A shallow embedding of the three places where [server.js] derives a
    subscription end date from a plan name and the [updated_at] column
    (the [/get-users] handler, the [/update-status/:id] handler and the
    daily [sendReminderEmails] job), of the [users] table they read and
    write, and of the mail transport they call.

    Conventions.
    - An instant (a JavaScript [Date], a [moment]) is its time value: the
      number of milliseconds since the epoch, as a [Z].  The server's zone
      is taken to be UTC, so that local midnight is a multiple of
      [msPerDay]; daylight-saving shifts are outside the model.
    - Months are numbered from 0, as [Date.prototype.getMonth] does.
    - A row of [users] is the record [user]; the table is a finite map from
      the [id] column to rows. *)

From Stdlib Require Import ZArith QArith Qround String Ascii List Bool Lia DecimalString.
From stdpp Require Import base option list gmap sorting.

Local Open Scope Z_scope.

(** ** ECMAScript [Date] arithmetic *)

Module JsDate.

Definition msPerDay : Z := 86400000.

(** [Day(t)] and [TimeWithinDay(t)] of the language standard. *)
Definition Day (t : Z) : Z := t / msPerDay.
Definition TimeWithinDay (t : Z) : Z := t mod msPerDay.

Definition isLeapYear (y : Z) : bool :=
  ((y mod 4 =? 0) && negb (y mod 100 =? 0)) || (y mod 400 =? 0).

(** Number of the day on which month [m] (0 = January) of year [y]
    starts on its [d]-th day, counted from 1 January 1970. *)
Definition daysFromCivil (y m d : Z) : Z :=
  let y' := if m <? 2 then y - 1 else y in
  let era := y' / 400 in
  let yoe := y' - era * 400 in
  let mp := (m + 10) mod 12 in
  let doy := (153 * mp + 2) / 5 + d - 1 in
  let doe := yoe * 365 + yoe / 4 - yoe / 100 + doy in
  era * 146097 + doe - 719468.

(** [YearFromTime], [MonthFromTime] and [DateFromTime] at once, on a day
    number. *)
Definition civilFromDays (z : Z) : Z * Z * Z :=
  let z' := z + 719468 in
  let era := z' / 146097 in
  let doe := z' - era * 146097 in
  let yoe := (doe - doe / 1460 + doe / 36524 - doe / 146096) / 365 in
  let doy := doe - (365 * yoe + yoe / 4 - yoe / 100) in
  let mp := (5 * doy + 2) / 153 in
  let d := doy - (153 * mp + 2) / 5 + 1 in
  let m := if mp <? 10 then mp + 2 else mp - 10 in
  (yoe + era * 400 + (if m <? 2 then 1 else 0), m, d).

Definition getFullYear (t : Z) : Z := fst (fst (civilFromDays (Day t))).
Definition getMonth (t : Z) : Z := snd (fst (civilFromDays (Day t))).
Definition getDate (t : Z) : Z := snd (civilFromDays (Day t)).
Definition getTime (t : Z) : Z := t.

(** [MakeDay(year, month, date)]: the month may lie outside 0..11 and
    the date outside the month; both carry over. *)
Definition MakeDay (year month date : Z) : Z :=
  daysFromCivil (year + month / 12) (month mod 12) 1 + date - 1.

Definition MakeDate (day time : Z) : Z := day * msPerDay + time.

(** [d.setMonth(month)], [d.setMonth(month, date)], [d.setFullYear(year)],
    [d.setDate(date)]: the new time value of [d]. *)
Definition setMonth2 (t month date : Z) : Z :=
  MakeDate (MakeDay (getFullYear t) month date) (TimeWithinDay t).
Definition setMonth (t month : Z) : Z := setMonth2 t month (getDate t).
Definition setFullYear (t year : Z) : Z :=
  MakeDate (MakeDay year (getMonth t) (getDate t)) (TimeWithinDay t).
Definition setDate (t date : Z) : Z :=
  MakeDate (MakeDay (getFullYear t) (getMonth t) date) (TimeWithinDay t).

(** [d.setHours(0, 0, 0, 0)]. *)
Definition setHours0 (t : Z) : Z := MakeDate (Day t) 0.

(** [d.toDateString()] prints the weekday and the calendar date of [d];
    the calendar date (year, month from 0, day) stands for the text. *)
Definition toDateString (t : Z) : Z * Z * Z := civilFromDays (Day t).

(** [new Date(year, month, date)] at midnight. *)
Definition ymd (year month date : Z) : Z := MakeDate (MakeDay year month date) 0.

End JsDate.

(** ** The parts of [moment] that the listing handler calls *)

Module Moment.

(** [daysInMonth(year, month)] of moment, [month] possibly outside 0..11. *)
Definition daysInMonth (year month : Z) : Z :=
  let modMonth := month mod 12 in
  let year' := year + (month - modMonth) / 12 in
  if modMonth =? 1 then (if JsDate.isLeapYear year' then 29 else 28)
  else 31 - ((modMonth mod 7) mod 2).

(** [m.startOf("day")]. *)
Definition startOfDay (t : Z) : Z := JsDate.setHours0 t.

(** [m.add(n, "months")]: moment keeps the day of the month unless the
    target month is shorter, in which case it takes that month's last
    day. *)
Definition addMonths (t n : Z) : Z :=
  let value := JsDate.getMonth t + n in
  let dayOfMonth := Z.min (JsDate.getDate t) (daysInMonth (JsDate.getFullYear t) value) in
  JsDate.setMonth2 t value dayOfMonth.

(** [m.add(n, "years")]: a duration of [n] years is stored as [12 * n]
    months. *)
Definition addYears (t n : Z) : Z := addMonths t (12 * n).

(** [m.add(n, "days")]. *)
Definition addDays (t n : Z) : Z := JsDate.setDate t (JsDate.getDate t + n).

Definition isBefore (a b : Z) : bool := a <? b.

End Moment.

(** ** Strings *)

Module Str.

Local Open Scope string_scope.

(** [s.startsWith(pat)]. *)
Fixpoint startsWith (s pat : string) : bool :=
  match pat, s with
  | EmptyString, _ => true
  | String _ _, EmptyString => false
  | String c pat', String c' s' => Ascii.eqb c c' && startsWith s' pat'
  end.

(** [s.includes(pat)]: [pat] occurs somewhere in [s]. *)
Fixpoint includes (s pat : string) : bool :=
  startsWith s pat ||
  match s with
  | EmptyString => false
  | String _ s' => includes s' pat
  end.

(** [a === b] on strings. *)
Definition strictEq (a b : string) : bool := String.eqb a b.

(** A string in a condition: the empty string counts as false. *)
Definition truthy (s : string) : bool := negb (String.eqb s EmptyString).

End Str.

Notation "a === b" := (Str.strictEq a b) (at level 70, no associativity).

(** ** The [users] table *)

(** The columns of [users] that the source names, except [id], which is
    the key of the table. *)
Record user := mkUser {
  name : string;
  email : string;
  phone : string;
  plan : string;
  Price : string;
  invoice : string;
  invoice_status : string;
  updated_at : Z
}.

(** A result row: the [id] column and the rest of the row.  The column
    lists of the SELECT statements are not modelled; a row is carried
    whole. *)
Definition row : Type := Z * user.

(** Modelled from the spec: the declaration of the [users] table is not
    part of the source, and no statement of the source assigns
    [updated_at].  The spec reads [statusChangedAt] from this last-updated
    column and has an operator update reset it to the current time; [touch]
    is that refresh, which the store applies to every row that an UPDATE
    statement reaches. *)
Definition touch (now : Z) (u : user) : user :=
  mkUser (name u) (email u) (phone u) (plan u) (Price u) (invoice u)
         (invoice_status u) now.

(** [SET invoice_status = status] on one row. *)
Definition set_invoice_status (status : string) (u : user) : user :=
  mkUser (name u) (email u) (phone u) (plan u) (Price u) (invoice u)
         status (updated_at u).

(** [SELECT ... FROM users]. *)
Definition select_users (tbl : gmap Z user) : list row := map_to_list tbl.

(** [SELECT ... FROM users WHERE invoice_status = 'paid']; the comparison
    is taken to be exact, as [===] is. *)
Definition select_paid (tbl : gmap Z user) : list row :=
  filter (fun r : row => invoice_status (snd r) = "paid"%string) (map_to_list tbl).

(** [SELECT name, plan, email FROM users WHERE id = ?]. *)
Definition select_by_id (id : Z) (tbl : gmap Z user) : list user :=
  match tbl !! id with
  | Some u => [u]
  | None => []
  end.

(** [UPDATE users SET invoice_status = ? WHERE id IN (?)]: the new table
    and [affectedRows]. *)
Definition update_status_in (now : Z) (status : string) (ids : list Z)
    (tbl : gmap Z user) : gmap Z user * Z :=
  (map_imap (fun id u =>
     Some (if bool_decide (id ∈ ids) then touch now (set_invoice_status status u) else u)) tbl,
   Z.of_nat (length (filter (fun r : row => fst r ∈ ids) (map_to_list tbl)))).

(** [UPDATE users SET invoice_status = ? WHERE id = ?]: the new table and
    [affectedRows]. *)
Definition update_status_by_id (now : Z) (status : string) (id : Z)
    (tbl : gmap Z user) : gmap Z user * Z :=
  (alter (fun u => touch now (set_invoice_status status u)) id tbl,
   match tbl !! id with Some _ => 1 | None => 0 end).

(** ** The due-date rules, as each call site writes them *)

Import Str.

(** The listing handler, inside [results.forEach]: the value of [dueDate]
    after the two [if] statements; [None] is [undefined].  The source has
    no name for this block; [computeDueDate] and [hasLapsed] are the names
    the specification gives to it and to the condition that follows. *)
Definition computeDueDate (invoice_status plan : string) (updated_at : Z) : option Z :=
  let updatedAt := Moment.startOfDay updated_at in
  let dueDate : option Z := None in
  let dueDate :=
    if invoice_status === "paid" then
      if includes plan "Monthly" then Some (Moment.addMonths updatedAt 1)
      else if includes plan "6-Month" then Some (Moment.addMonths updatedAt 6)
      else if includes plan "Yearly" then Some (Moment.addYears updatedAt 1)
      else dueDate
    else dueDate in
  let dueDate :=
    if (invoice_status === "Free") && (plan === "Free Trial")
    then Some (Moment.addDays updatedAt 7)
    else dueDate in
  dueDate.

(** The condition [dueDate && dueDate.isBefore(currentDate)]; a moment is
    never falsy, so [dueDate &&] tests that it is defined. *)
Definition hasLapsed (invoice_status plan : string) (updated_at currentDate : Z) : bool :=
  match computeDueDate invoice_status plan updated_at with
  | Some dueDate => Moment.isBefore dueDate currentDate
  | None => false
  end.

(** The body of [results.forEach]: push the id of a lapsed user. *)
Definition lapse_step (currentDate : Z) (updates : list Z) (r : row) : list Z :=
  let '(id, user) := r in
  if hasLapsed (invoice_status user) (plan user) (updated_at user) currentDate
  then updates ++ [id]
  else updates.

Definition lapsed_ids (currentDate : Z) (results : list row) : list Z :=
  fold_left (lapse_step currentDate) results [].

(** [getPlanDuration] of the status-update handler; an absent property of
    the returned object is [None], and [return null] is [None]. *)
Record duration := mkDuration { months : option Z; years : option Z }.

Definition getPlanDuration (plan : string) : option duration :=
  if includes plan "Monthly" then Some (mkDuration (Some 1) None)
  else if includes plan "6-Month" then Some (mkDuration (Some 6) None)
  else if includes plan "Yearly" then Some (mkDuration None (Some 1))
  else None.

(** A number in a condition: [undefined] and 0 count as false. *)
Definition truthyNum (n : option Z) : bool :=
  match n with Some k => negb (k =? 0) | None => false end.

(** The status-update handler, step 3: [endDate] after the
    [if (status === "paid")] block, from [endDate = new Date()]. *)
Definition statusUpdateEndDate (status plan : string) (now : Z) : Z :=
  let endDate := now in
  if status === "paid" then
    match getPlanDuration plan with
    | Some duration =>
        let endDate :=
          if truthyNum (months duration)
          then JsDate.setMonth endDate (JsDate.getMonth endDate + default 0 (months duration))
          else endDate in
        let endDate :=
          if truthyNum (years duration)
          then JsDate.setFullYear endDate (JsDate.getFullYear endDate + default 0 (years duration))
          else endDate in
        endDate
    | None => endDate
    end
  else endDate.

(** The reminder job, inside the [for] loop: [endDate] after the
    [if / else if] chain, from [endDate = new Date(startDate)]. *)
Definition reminderEndDate (plan : string) (updated_at : Z) : Z :=
  let startDate := JsDate.setHours0 updated_at in
  let endDate := startDate in
  if includes plan "Monthly" then JsDate.setMonth endDate (JsDate.getMonth endDate + 1)
  else if includes plan "6-Month" then JsDate.setMonth endDate (JsDate.getMonth endDate + 6)
  else if includes plan "Yearly" then JsDate.setFullYear endDate (JsDate.getFullYear endDate + 1)
  else endDate.

(** The reminder job: [diffInDays], a quotient of two numbers, and the test
    [diffInDays === 2].  The quotient is taken exactly, in [Q]. *)
Definition diffInDays (endDate today : Z) : Q :=
  let diffInTime := JsDate.getTime endDate - JsDate.getTime today in
  Qdiv (inject_Z diffInTime) (inject_Z (1000 * 3600 * 24)).

Definition isReminderDue (plan : string) (updated_at today : Z) : bool :=
  Qeq_bool (diffInDays (reminderEndDate plan updated_at) today) (inject_Z 2).

(** ** Mail, console and HTTP responses *)

(** The three fixed subject lines of the source. *)
Inductive subject_line :=
  | PaymentConfirmedSubject   (* "Your Payment is Confirmed!" *)
  | RenewalReminderSubject    (* "... Subscription Renewal Reminder" *)
  | UpcomingPaymentsSubject.  (* "... Reminder: Upcoming Subscription Payments (in 2 days)" *)

(** An entry of [upcomingPayments]. *)
Record upcoming := mkUpcoming {
  up_name : string;
  up_email : string;
  up_plan : string;
  up_dueDate : Z * Z * Z;
  up_phone : string
}.

(** The three HTML templates of the source, each with the values it
    interpolates. *)
Inductive html_body :=
  | PaymentConfirmedHtml (name : string) (startDate endDate : Z * Z * Z)
  | RenewalReminderHtml (name : string) (endDate : Z * Z * Z)
  | UpcomingPaymentsHtml (items : list upcoming).

(** The argument of [transporter.sendMail]; [None] is [undefined]. *)
Record mail := mkMail {
  mail_from : string;
  mail_to : string;
  subject : option subject_line;
  html : option html_body
}.

Inductive log_line :=
  | LogEmailSent (response : string)
  | ErrEmailSending (emailErr : string)
  | ErrDB
  | LogReminderSent (email response : string)
  | ErrReminderFailed (email emailErr : string)
  | LogSummarySent (response : string)
  | ErrSummaryFailed (summaryErr : string).

Inductive json_body :=
  | JError (error : string)
  | JMessage (message : string)
  | JUsers (users : list row).

Record response := mkResponse { status_code : Z; json : json_body }.

(** ** Effects: the table, the connection, the mail transport, the console *)

Record world := mkWorld {
  users : gmap Z user;    (* the [users] table *)
  queries : nat;          (* statements sent on the connection so far *)
  outbox : list mail;     (* every message handed to [sendMail], in order *)
  console : list log_line
}.

Inductive outcome (A : Type) :=
  | Ret (a : A)
  | Throw (e : string).
Arguments Ret {A} a.
Arguments Throw {A} e.

(** A computation that may read and change the world and may throw. *)
Definition M (A : Type) : Type := world -> outcome A * world.

Definition ret {A} (a : A) : M A := fun w => (Ret a, w).

Definition bind {A B} (m : M A) (k : A -> M B) : M B :=
  fun w =>
    match m w with
    | (Ret a, w') => k a w'
    | (Throw e, w') => (Throw e, w')
    end.

(** [try { m } catch (e) { h e }]. *)
Definition try_catch {A} (m : M A) (h : string -> M A) : M A :=
  fun w =>
    match m w with
    | (Ret a, w') => (Ret a, w')
    | (Throw e, w') => h e w'
    end.

Notation "'let*' x := c 'in' k" := (bind c (fun x => k))
  (at level 10, x name, c at level 100, k at level 200).
Notation "c ;; k" := (bind c (fun _ => k))
  (at level 100, k at level 200, right associativity).

(** [for (const x of l) { ... }] over a loop-carried value; a throw in the
    body leaves the loop. *)
Fixpoint for_of {A S} (l : list A) (s : S) (body : S -> A -> M S) : M S :=
  match l with
  | [] => ret s
  | x :: l' => let* s' := body s x in for_of l' s' body
  end.

Definition console_log (l : log_line) : M unit :=
  fun w => (Ret tt, mkWorld (users w) (queries w) (outbox w) (console w ++ [l])).

Section Handlers.

(** [process.env.EMAIL_USER]. *)
Variable EMAIL_USER : string.

(** Whether the [n]-th statement sent on the connection comes back with
    an error. *)
Variable db_fails : nat -> bool.

(** The mail transport: given the messages handed over before, a message
    is either accepted, with the server's response, or refused, with an
    error. *)
Variable smtp : list mail -> mail -> string + string.

(** [connection.query] with a SELECT: [None] is a non-null [err]. *)
Definition query {A} (select : gmap Z user -> A) : M (option A) :=
  fun w =>
    let w' := mkWorld (users w) (S (queries w)) (outbox w) (console w) in
    if db_fails (queries w) then (Ret None, w')
    else (Ret (Some (select (users w))), w').

(** [connection.query] with an UPDATE: [None] is a non-null [err],
    otherwise [affectedRows]. *)
Definition exec (update : gmap Z user -> gmap Z user * Z) : M (option Z) :=
  fun w =>
    if db_fails (queries w)
    then (Ret None, mkWorld (users w) (S (queries w)) (outbox w) (console w))
    else
      let '(tbl, affectedRows) := update (users w) in
      (Ret (Some affectedRows), mkWorld tbl (S (queries w)) (outbox w) (console w)).

(** [await transporter.sendMail(m)]: the response, or a throw. *)
Definition sendMail (m : mail) : M string :=
  fun w =>
    let w' := mkWorld (users w) (queries w) (outbox w ++ [m]) (console w) in
    match smtp (outbox w) m with
    | inr info => (Ret info, w')
    | inl err => (Throw err, w')
    end.

(** *** [GET /get-users] *)
Definition get_users (now : Z) : M response :=
  let* r := query select_users in
  match r with
  | None => ret (mkResponse 500 (JError "Query error"))
  | Some results =>
      let currentDate := Moment.startOfDay now in
      let updates := lapsed_ids currentDate results in
      if (0 <? Z.of_nat (length updates)) then
        let* r2 := exec (update_status_in now "pending" updates) in
        match r2 with
        | None => ret (mkResponse 500 (JError "Update error"))
        | Some _ =>
            let* r3 := query select_users in
            match r3 with
            | None => ret (mkResponse 500 (JError "Final query error"))
            | Some updatedResults => ret (mkResponse 200 (JUsers updatedResults))
            end
        end
      else ret (mkResponse 200 (JUsers results))
  end.

(** *** [PUT /update-status/:id]

    [status] is [req.body.status]; [None] is [undefined]. *)
Definition update_status (now : Z) (id : Z) (status : option string) : M response :=
  match status with
  | None => ret (mkResponse 400 (JError "Invoice status required"))
  | Some status =>
    if negb (truthy status) then ret (mkResponse 400 (JError "Invoice status required"))
    else
      let* r := query (select_by_id id) in
      match r with
      | None => ret (mkResponse 500 (JError "Database error"))
      | Some [] => ret (mkResponse 404 (JError "User not found"))
      | Some (user :: _) =>
          let* r2 := exec (update_status_by_id now status id) in
          match r2 with
          | None => ret (mkResponse 500 (JError "Update failed"))
          | Some affectedRows =>
              if affectedRows =? 0 then ret (mkResponse 404 (JError "User not found"))
              else
                let startDate := now in
                let endDate := statusUpdateEndDate status (plan user) now in
                let '(subject, html) :=
                  if status === "paid" then
                    (Some PaymentConfirmedSubject,
                     Some (PaymentConfirmedHtml (name user)
                             (JsDate.toDateString startDate)
                             (JsDate.toDateString endDate)))
                  else (None, None) in
                try_catch
                  (let* info := sendMail (mkMail EMAIL_USER (email user) subject html) in
                   console_log (LogEmailSent info))
                  (fun emailErr => console_log (ErrEmailSending emailErr)) ;;
                ret (mkResponse 200 (JMessage "Status updated and email sent"))
          end
      end
  end.

(** *** [sendReminderEmails] *)

(** The body of the [for] loop, on the loop-carried [upcomingPayments]. *)
Definition reminder_step (today : Z) (upcomingPayments : list upcoming) (r : row)
    : M (list upcoming) :=
  let user := snd r in
  let endDate := reminderEndDate (plan user) (updated_at user) in
  if Qeq_bool (diffInDays endDate today) (inject_Z 2) then
    let upcomingPayments :=
      upcomingPayments ++
        [mkUpcoming (name user) (email user) (plan user)
                    (JsDate.toDateString endDate) (phone user)] in
    try_catch
      (let* info :=
         sendMail (mkMail EMAIL_USER (email user) (Some RenewalReminderSubject)
                     (Some (RenewalReminderHtml (name user) (JsDate.toDateString endDate)))) in
       console_log (LogReminderSent (email user) info))
      (fun emailErr => console_log (ErrReminderFailed (email user) emailErr)) ;;
    ret upcomingPayments
  else ret upcomingPayments.

Definition sendReminderEmails (now : Z) : M unit :=
  let* r := query select_paid in
  match r with
  | None => console_log ErrDB
  | Some users =>
      let today := JsDate.setHours0 now in
      let* upcomingPayments := for_of users [] (reminder_step today) in
      if (0 <? Z.of_nat (length upcomingPayments)) then
        try_catch
          (let* summaryInfo :=
             sendMail (mkMail EMAIL_USER EMAIL_USER (Some UpcomingPaymentsSubject)
                         (Some (UpcomingPaymentsHtml upcomingPayments))) in
           console_log (LogSummarySent summaryInfo))
          (fun summaryErr => console_log (ErrSummaryFailed summaryErr))
      else ret tt
  end.

(** *** The messages and worlds that the handlers produce, named for the
    statements below *)

(** The world after [n] more statements on the connection. *)
Definition bump (n : nat) (w : world) : world :=
  mkWorld (users w) (n + queries w) (outbox w) (console w).

Definition with_users (tbl : gmap Z user) (w : world) : world :=
  mkWorld tbl (queries w) (outbox w) (console w).

(** The message that the status-update handler hands to [sendMail]. *)
Definition confirmation_mail (status : string) (now : Z) (u : user) : mail :=
  if status === "paid" then
    mkMail EMAIL_USER (email u) (Some PaymentConfirmedSubject)
      (Some (PaymentConfirmedHtml (name u) (JsDate.toDateString now)
               (JsDate.toDateString (statusUpdateEndDate status (plan u) now))))
  else mkMail EMAIL_USER (email u) None None.

(** Whether the reminder job takes the branch [diffInDays === 2] on a row. *)
Definition reminder_due (today : Z) (r : row) : bool :=
  isReminderDue (plan r.2) (updated_at r.2) today.

(** The reminder that the job hands to [sendMail] for a row, and the
    entry it pushes on [upcomingPayments]. *)
Definition reminder_mail (r : row) : mail :=
  let endDate := reminderEndDate (plan r.2) (updated_at r.2) in
  mkMail EMAIL_USER (email r.2) (Some RenewalReminderSubject)
    (Some (RenewalReminderHtml (name r.2) (JsDate.toDateString endDate))).

Definition upcoming_of (r : row) : upcoming :=
  let endDate := reminderEndDate (plan r.2) (updated_at r.2) in
  mkUpcoming (name r.2) (email r.2) (plan r.2) (JsDate.toDateString endDate) (phone r.2).

(** The summary that the job sends to the operator. *)
Definition summary_mail (upcomingPayments : list upcoming) : mail :=
  mkMail EMAIL_USER EMAIL_USER (Some UpcomingPaymentsSubject)
    (Some (UpcomingPaymentsHtml upcomingPayments)).

End Handlers.

(** ** The plan durations as the specification words them

    The specification describes one operation for all three call sites:
    a plan name is mapped to a calendar duration by the first keyword it
    contains.  [planDurationSpec] follows those words; it is compared with
    the code below. *)
Inductive calendar_duration :=
  | CalendarMonths (n : Z)
  | CalendarYears (n : Z).

Definition planDurationSpec (plan : string) : option calendar_duration :=
  if includes plan "Monthly" then Some (CalendarMonths 1)
  else if includes plan "6-Month" then Some (CalendarMonths 6)
  else if includes plan "Yearly" then Some (CalendarYears 1)
  else None.

(** ** Sample data *)

Module Sample.
Import JsDate.
Local Open Scope string_scope.

(** 31 January 2024, 15:30. *)
Definition jan31 : Z := ymd 2024 0 31 + 55800000.

Definition ann : user :=
  mkUser "Ann" "ann@example.org" "5550001" "Monthly" "$10" "INV-1-1000" "paid" jan31.
Definition bob : user :=
  mkUser "Bob" "bob@example.org" "5550002" "Yearly" "$90" "INV-2-2000" "pending" jan31.

Definition table : gmap Z user := <[1 := ann]> (<[2 := bob]> ∅).
Definition world0 : world := mkWorld table 0 [] [].

(** Two subscribers who paid on 10 January 2024. *)
Definition carol : user :=
  mkUser "Carol" "carol@example.org" "5550003" "Monthly" "$10" "INV-3-3000" "paid"
         (ymd 2024 0 10 + 3600000).
Definition dave : user :=
  mkUser "Dave" "dave@example.org" "5550004" "Monthly Plus" "$15" "INV-4-4000" "paid"
         (ymd 2024 0 10 + 7200000).
Definition world1 : world := mkWorld (<[3 := carol]> (<[4 := dave]> ∅)) 0 [] [].

(** A paid subscriber on a plan with none of the three keywords, whose
    [updated_at] is 3 June 2024. *)
Definition erin : user :=
  mkUser "Erin" "erin@example.org" "5550005" "Basic" "$5" "INV-5-5000" "paid"
         (ymd 2024 5 3).
Definition world2 : world := mkWorld (<[5 := erin]> ∅) 0 [] [].

Definition db_up : nat -> bool := fun _ => false.
Definition smtp_down : list mail -> mail -> string + string :=
  fun _ _ => inl "ECONNREFUSED".
Definition smtp_up : list mail -> mail -> string + string :=
  fun _ _ => inr "250 OK".

End Sample.

(** * The rest of [server.js]

    The token check in front of the protected routes, the routes that
    create and delete subscribers, the administrator login and the blog
    routes.  Request values are taken after [bodyParser] and the
    validation chain have run; ids of rows and of the [:id] parameter are
    integers. *)

(** ** More strings *)

Module StrMore.

Local Open Scope string_scope.

(** [s.slice(n)]. *)
Fixpoint slice (n : nat) (s : string) : string :=
  match n, s with
  | O, _ => s
  | S n', String _ s' => slice n' s'
  | S _, EmptyString => EmptyString
  end.

(** [s.replace(pat, rep)] with a string pattern: the first occurrence of
    [pat] is replaced. *)
Fixpoint replace (s pat rep : string) : string :=
  if startsWith s pat then String.append rep (slice (String.length pat) s)
  else match s with
       | EmptyString => EmptyString
       | String c s' => String c (replace s' pat rep)
       end.

(** A number in a template literal. *)
Definition decimal (z : Z) : string := NilZero.string_of_int (Z.to_int z).

End StrMore.

(** ** [verifyToken] *)

(** [req.header("Authorization")?.replace("Bearer ", empty)], with the
    empty string as replacement; [None] is [undefined]. *)
Definition bearer_token (authorization : option string) : option string :=
  (fun h => StrMore.replace h "Bearer " EmptyString) <$> authorization.

Section VerifyToken.

(** The world and the answers of the route behind the check. *)
Context {W R : Type}.

(** [jwt.verify(token, process.env.JWT_SECRET)]: the decoded payload, or
    [None] when it throws. *)
Variable jwt_verify : string -> option string.

(** [res.status(code).json({ error })] in the answer type of the route. *)
Variable deny : Z -> string -> R.

(** [authorization] is [req.header("Authorization")], [None] when the
    header is absent; [next] is the route.  The payload stored in
    [req.user] is read by no route. *)
Definition verifyToken (authorization : option string)
    (next : W -> outcome R * W) : W -> outcome R * W :=
  let token := bearer_token authorization in
  match token with
  | None => fun w => (Ret (deny 401 "Access denied, token required"), w)
  | Some token =>
      if negb (truthy token)
      then fun w => (Ret (deny 401 "Access denied, token required"), w)
      else
        match jwt_verify token with
        | Some decoded => next
        | None => fun w => (Ret (deny 400 "Invalid token"), w)
        end
  end.

End VerifyToken.

(** The two protected routes modelled above, behind the check. *)
Definition get_users_route (jwt_verify : string -> option string)
    (db_fails : nat -> bool) (authorization : option string) (now : Z) : M response :=
  verifyToken jwt_verify (fun code error => mkResponse code (JError error))
    authorization (get_users db_fails now).

Definition update_status_route (jwt_verify : string -> option string)
    (EMAIL_USER : string) (db_fails : nat -> bool)
    (smtp : list mail -> mail -> string + string)
    (authorization : option string) (now id : Z) (status : option string) : M response :=
  verifyToken jwt_verify (fun code error => mkResponse code (JError error))
    authorization (update_status EMAIL_USER db_fails smtp now id status).

(** ** The other tables *)

(** A row of [admin]: the columns the login route reads. *)
Record admin := mkAdmin {
  admin_email : string;
  admin_password : string   (* the stored hash *)
}.

(** A row of [blogs] and a row of [blog_sections], without their ids; a
    column may hold NULL. *)
Record blog := mkBlog {
  title : option string;
  image_url : option string;
  intro : option string
}.

Record blog_section := mkSection {
  blog_id : Z;
  heading : option string;
  content : option string
}.

Record database := mkDatabase {
  db_users : gmap Z user;
  db_admin : gmap Z admin;
  db_blogs : gmap Z blog;
  db_sections : gmap Z blog_section
}.

Definition with_db_users (tbl : gmap Z user) (db : database) : database :=
  mkDatabase tbl (db_admin db) (db_blogs db) (db_sections db).
Definition with_db_blogs (tbl : gmap Z blog) (db : database) : database :=
  mkDatabase (db_users db) (db_admin db) tbl (db_sections db).
Definition with_db_sections (tbl : gmap Z blog_section) (db : database) : database :=
  mkDatabase (db_users db) (db_admin db) (db_blogs db) tbl.

(** ** Mail, console and answers of these routes *)

Inductive account_subject :=
  | PurchaseSubject     (* "Thank you for your purchase!" *)
  | CancelledSubject.   (* "Your Subscription is Cancelled" *)

Inductive account_html :=
  | PurchaseHtml (name invoiceNumber plan Price : string)
  | CancelledHtml (name : string).

Record account_mail := mkAccountMail {
  am_from : string;
  am_to : string;
  am_subject : account_subject;
  am_html : account_html
}.

Inductive site_line :=
  | LogSubmission (Price email name phone plan : string)
  | ErrInsert (failed : bool)           (* console.error("Insert Error:", err) *)
  | LogMailSent (response : string)
  | ErrMailSending (emailErr : string)
  | LogCancellationSent (response : string)
  | LogLoginErr (failed : bool)         (* console.log(err) *)
  | LogHELLOP
  | ErrBlogFetch
  | ErrStatement.                       (* console.error(err) *)

(** A section as the blog route returns it. *)
Record section_view := mkSectionView {
  sv_id : Z;
  sv_heading : option string;
  sv_content : option string
}.

(** The [blog] object of [GET /blogs/:id]. *)
Record blog_view := mkBlogView {
  bv_id : Z;
  bv_title : option string;
  bv_image : option string;
  bv_intro : option string;
  bv_sections : list section_view
}.

Inductive site_json :=
  | SError (error : string)
  | SErrorDetails (error : string)              (* { error, details: err } *)
  | SMessage (message : string)
  | SInvalidData                                (* { message: "Invalid data", errors } *)
  | SField (field message : string)
  | SInvoice (invoice message : string)
  | SToken (message token : string)
  | SBlogs (blogs : list (Z * blog))
  | SBlog (blog : blog_view)
  | SBlogAdded (message : string) (blogId : Z).

Record site_response := mkSiteResponse { site_status : Z; site_body : site_json }.

(** ** Effects of these routes *)

Record site := mkSite {
  site_db : database;
  site_queries : nat;               (* statements sent on the connection so far *)
  site_outbox : list account_mail;  (* every message handed to [sendMail] *)
  site_console : list site_line
}.

Definition Site (A : Type) : Type := site -> outcome A * site.

Definition site_ret {A} (a : A) : Site A := fun w => (Ret a, w).

Definition site_bind {A B} (m : Site A) (k : A -> Site B) : Site B :=
  fun w =>
    match m w with
    | (Ret a, w') => k a w'
    | (Throw e, w') => (Throw e, w')
    end.

Definition site_try {A} (m : Site A) (h : string -> Site A) : Site A :=
  fun w =>
    match m w with
    | (Ret a, w') => (Ret a, w')
    | (Throw e, w') => h e w'
    end.

Definition site_throw {A} (e : string) : Site A := fun w => (Throw e, w).

Notation "'let!' x := c 'in' k" := (site_bind c (fun x => k))
  (at level 10, x name, c at level 100, k at level 200).
Notation "c ;;; k" := (site_bind c (fun _ => k))
  (at level 100, k at level 200, right associativity).

Definition site_log (l : site_line) : Site unit :=
  fun w => (Ret tt, mkSite (site_db w) (site_queries w) (site_outbox w)
                      (site_console w ++ [l])).

Definition respond (code : Z) (body : site_json) : Site site_response :=
  site_ret (mkSiteResponse code body).

(** ** Statements on the other tables *)

(** [SELECT email, phone FROM users WHERE email = ? OR phone = ?]. *)
Definition select_email_or_phone (email' phone' : string) (tbl : gmap Z user) : list row :=
  filter (fun r : row => email r.2 = email' \/ phone r.2 = phone') (map_to_list tbl).

(** [SELECT * FROM admin WHERE email = ?]. *)
Definition select_admin (email' : string) (tbl : gmap Z admin) : list (Z * admin) :=
  filter (fun r : Z * admin => admin_email r.2 = email') (map_to_list tbl).

(** [ORDER BY id DESC]. *)
Definition id_desc {A} (r1 r2 : Z * A) : Prop := r2.1 <= r1.1.

#[global] Instance id_desc_dec {A} : RelDecision (@id_desc A).
Proof. intros r1 r2. unfold id_desc. apply _. Defined.

(** [SELECT id, title, image_url, intro FROM blogs ORDER BY id DESC LIMIT 3]. *)
Definition select_latest_blogs (tbl : gmap Z blog) : list (Z * blog) :=
  take 3 (merge_sort id_desc (map_to_list tbl)).

(** [SELECT * FROM blogs]. *)
Definition select_blogs (tbl : gmap Z blog) : list (Z * blog) := map_to_list tbl.

(** [SELECT id FROM blogs WHERE title = ?]. *)
Definition select_blog_ids_by_title (title' : string) (tbl : gmap Z blog) : list Z :=
  (filter (fun r : Z * blog => title r.2 = Some title') (map_to_list tbl)).*1.

(** A row of the LEFT JOIN of [blogs] with [blog_sections]. *)
Record join_row := mkJoinRow {
  blogId : Z;
  j_title : option string;
  j_image_url : option string;
  j_intro : option string;
  sectionId : option Z;         (* NULL when the blog has no section *)
  j_heading : option string;
  j_content : option string
}.

(** The sections of a blog, as rows with their ids. *)
Definition sections_of (id : Z) (tbl : gmap Z blog_section) : list (Z * blog_section) :=
  filter (fun r : Z * blog_section => blog_id r.2 = id) (map_to_list tbl).

(** [SELECT ... FROM blogs b LEFT JOIN blog_sections s ON b.id = s.blog_id
    WHERE b.id = ?]: one row per section of the blog, or one row with NULL
    section columns when the blog has none. *)
Definition select_blog_join (id : Z) (db : database) : list join_row :=
  match db_blogs db !! id with
  | None => []
  | Some b =>
      match sections_of id (db_sections db) with
      | [] => [mkJoinRow id (title b) (image_url b) (intro b) None None None]
      | ss =>
          (fun r : Z * blog_section =>
             mkJoinRow id (title b) (image_url b) (intro b)
               (Some r.1) (heading r.2) (content r.2)) <$> ss
      end
  end.

(** [DELETE FROM users WHERE id = ?]: the new table and [affectedRows]. *)
Definition delete_user_by_id (id : Z) (tbl : gmap Z user) : gmap Z user * Z :=
  (delete id tbl, match tbl !! id with Some _ => 1 | None => 0 end).

(** [DELETE FROM blog_sections WHERE blog_id = ?]. *)
Definition delete_sections_of (id : Z) (tbl : gmap Z blog_section) : gmap Z blog_section :=
  filter (fun r : Z * blog_section => blog_id r.2 <> id) tbl.

(** [DELETE FROM blog_sections WHERE blog_id = ? AND id NOT IN (?)]. *)
Definition delete_sections_not_in (id : Z) (keep : list Z) (tbl : gmap Z blog_section)
    : gmap Z blog_section :=
  filter (fun r : Z * blog_section => ~ (blog_id r.2 = id /\ r.1 ∉ keep)) tbl.

(** [UPDATE blogs SET title = ?, image_url = ?, intro = ? WHERE id = ?]. *)
Definition update_blog_row (id : Z) (b : blog) (tbl : gmap Z blog) : gmap Z blog :=
  alter (fun _ => b) id tbl.

(** A section in the body of a blog request; [None] is an absent
    property. *)
Record req_section := mkReqSection {
  rs_id : option Z;
  rs_heading : option string;
  rs_content : option string
}.

Section AutoIncrement.

(** The declarations of the tables are not part of the source.  The id
    that a table gives to a row inserted without one is a parameter: a
    function of the ids present.  The statements below that depend on it
    assume that it is not among them. *)
Variable auto_increment : gset Z -> Z.

(** [INSERT INTO t (...) VALUES (...)] of one row: the new table and
    [insertId]. *)
Definition insert_row {V} (v : V) (tbl : gmap Z V) : gmap Z V * Z :=
  let id := auto_increment (dom tbl) in (<[id := v]> tbl, id).

(** [INSERT INTO t (...) VALUES ?] of several rows, in order. *)
Fixpoint insert_rows {V} (vs : list V) (tbl : gmap Z V) : gmap Z V :=
  match vs with
  | [] => tbl
  | v :: vs' => insert_rows vs' (insert_row v tbl).1
  end.

(** Modelled from the spec: a subscriber is created with
    [statusChangedAt] equal to the creation time, so the row inserted by
    [INSERT INTO users (name, email, phone, plan, Price, invoice,
    invoice_status)] gets [updated_at = now]. *)
Definition insert_user (now : Z) (name' email' phone' plan' Price' invoice' status' : string)
    (tbl : gmap Z user) : gmap Z user * Z :=
  insert_row (mkUser name' email' phone' plan' Price' invoice' status' now) tbl.

End AutoIncrement.

(** [INSERT INTO blog_sections (blog_id, heading, content, id) VALUES ?
    ON DUPLICATE KEY UPDATE heading = VALUES(heading), content =
    VALUES(content)], one row: an existing id keeps its [blog_id]. *)
Definition upsert_section (blogId' : Z) (tbl : gmap Z blog_section)
    (v : Z * req_section) : gmap Z blog_section :=
  let '(id, s) := v in
  match tbl !! id with
  | Some old => <[id := mkSection (blog_id old) (rs_heading s) (rs_content s)]> tbl
  | None => <[id := mkSection blogId' (rs_heading s) (rs_content s)]> tbl
  end.

Definition upsert_sections (blogId' : Z) (vs : list (Z * req_section))
    (tbl : gmap Z blog_section) : gmap Z blog_section :=
  fold_left (upsert_section blogId') vs tbl.

(** ** The routes *)

Section Routes.

(** [process.env.EMAIL_USER]. *)
Variable EMAIL_USER : string.

(** Whether the [n]-th statement sent on the connection comes back with
    an error. *)
Variable db_fails : nat -> bool.

(** The mail transport, as for the routes above. *)
Variable smtp : list account_mail -> account_mail -> string + string.

Variable auto_increment : gset Z -> Z.

(** [await bcrypt.compare(password, hash)]. *)
Variable bcrypt_compare : string -> string -> bool.

(** [jwt.sign({ id, email }, process.env.JWT_SECRET, { expiresIn: "1h" })]. *)
Variable jwt_sign : Z -> string -> string.

(** [connection.query] with a SELECT: [None] is a non-null [err]. *)
Definition site_query {A} (select : database -> A) : Site (option A) :=
  fun w =>
    let w' := mkSite (site_db w) (S (site_queries w)) (site_outbox w) (site_console w) in
    if db_fails (site_queries w) then (Ret None, w')
    else (Ret (Some (select (site_db w))), w').

(** [connection.query] with a statement that writes: [None] is a non-null
    [err]; a failed statement writes nothing. *)
Definition site_exec {A} (statement : database -> database * A) : Site (option A) :=
  fun w =>
    if db_fails (site_queries w)
    then (Ret None, mkSite (site_db w) (S (site_queries w)) (site_outbox w) (site_console w))
    else
      let '(db, a) := statement (site_db w) in
      (Ret (Some a), mkSite db (S (site_queries w)) (site_outbox w) (site_console w)).

(** [await transporter.sendMail(m)]. *)
Definition site_send (m : account_mail) : Site string :=
  fun w =>
    let w' := mkSite (site_db w) (site_queries w) (site_outbox w ++ [m]) (site_console w) in
    match smtp (site_outbox w) m with
    | inr info => (Ret info, w')
    | inl err => (Throw err, w')
    end.

(** *** [POST /submit-user]

    [valid] is [validationResult(req).isEmpty()]; [now] is [Date.now()] and
    [random] is [Math.random()]. *)
Definition randomDigits (random : Q) : Z :=
  Qfloor (inject_Z 1000 + random * inject_Z 9000).

Definition invoiceNumber (timestamp : Z) (random : Q) : string :=
  String.append "INV-"
    (String.append (StrMore.decimal timestamp)
       (String.append "-" (StrMore.decimal (randomDigits random)))).

(** The answer for an address or number that is already registered, from
    [results[0]]; [None] when the route goes on. *)
Definition duplicate_answer (email' phone' : string) (results : list row)
    : option site_response :=
  match results with
  | [] => None
  | existing :: _ =>
      if (email existing.2 === email') && (phone existing.2 === phone') then
        Some (mkSiteResponse 400
                (SField "both" "Email and phone are already registered"))
      else if email existing.2 === email' then
        Some (mkSiteResponse 400 (SField "email" "Email already registered"))
      else if phone existing.2 === phone' then
        Some (mkSiteResponse 400 (SField "phone" "Phone number already registered"))
      else None
  end.

Definition submit_user (valid : bool) (Price' email' name' phone' plan' : string)
    (now : Z) (random : Q) : Site site_response :=
  if negb valid then respond 400 SInvalidData
  else
    site_log (LogSubmission Price' email' name' phone' plan') ;;;
    let! r := site_query (fun db => select_email_or_phone email' phone' (db_users db)) in
    match r with
    | None => respond 500 (SMessage "Database error")
    | Some results =>
        match duplicate_answer email' phone' results with
        | Some answer => site_ret answer
        | None =>
            let invoiceNumber := invoiceNumber now random in
            let invoiceStatus := if plan' === "Free Trial" then "Free"%string
                                 else "pending"%string in
            let! r2 := site_exec (fun db =>
                         let '(tbl, insertId) :=
                           insert_user auto_increment now name' email' phone' plan' Price'
                             invoiceNumber invoiceStatus (db_users db) in
                         (with_db_users tbl db, insertId)) in
            site_log (ErrInsert (bool_decide (r2 = None))) ;;;
            match r2 with
            | None => respond 500 (SMessage "Insert failed")
            | Some _ =>
                site_try
                  (let! info :=
                     site_send (mkAccountMail EMAIL_USER email' PurchaseSubject
                                  (PurchaseHtml name' invoiceNumber plan' Price')) in
                   site_log (LogMailSent info))
                  (fun emailErr => site_log (ErrMailSending emailErr)) ;;;
                respond 200 (SInvoice invoiceNumber "Invoice generated and email sent")
            end
        end
    end.

(** *** [POST /admin-login] *)
Definition admin_login (email' password' : string) : Site site_response :=
  let! r := site_query (fun db => select_admin email' (db_admin db)) in
  site_log (LogLoginErr (bool_decide (r = None))) ;;;
  match r with
  | None => respond 500 (SError "DB error")
  | Some [] => respond 401 (SError "Invalid credentials")
  | Some (admin :: _) =>
      let isMatch := bcrypt_compare password' (admin_password admin.2) in
      if negb isMatch then respond 401 (SError "Invalid credentials")
      else
        let token := jwt_sign admin.1 (admin_email admin.2) in
        respond 200 (SToken "Login successful" token)
  end.

(** *** [DELETE /delete-user/:id] *)
Definition delete_user (userId : Z) : Site site_response :=
  let! r := site_query (fun db => select_by_id userId (db_users db)) in
  match r with
  | None => respond 500 (SError "Database error")
  | Some [] => respond 404 (SError "User not found")
  | Some (user :: _) =>
      let! r2 := site_exec (fun db =>
                   let '(tbl, affectedRows) := delete_user_by_id userId (db_users db) in
                   (with_db_users tbl db, affectedRows)) in
      match r2 with
      | None => respond 500 (SMessage "Delete failed")
      | Some affectedRows =>
          if affectedRows =? 0 then respond 404 (SMessage "User not found")
          else
            site_try
              (let! info :=
                 site_send (mkAccountMail EMAIL_USER (email user) CancelledSubject
                              (CancelledHtml (name user))) in
               site_log (LogCancellationSent info))
              (fun emailErr => site_log (ErrMailSending emailErr)) ;;;
            respond 200 (SMessage "User deleted and cancellation email sent")
      end
  end.

(** *** [GET /get-blogs] and [GET /blogs] *)
Definition get_blogs : Site site_response :=
  site_log LogHELLOP ;;;
  let! r := site_query (fun db => select_latest_blogs (db_blogs db)) in
  match r with
  | None => site_log ErrBlogFetch ;;; respond 500 (SError "Failed to fetch blogs")
  | Some results => respond 200 (SBlogs results)
  end.

Definition blogs : Site site_response :=
  site_log LogHELLOP ;;;
  let! r := site_query (fun db => select_blogs (db_blogs db)) in
  match r with
  | None => site_log ErrBlogFetch ;;; respond 500 (SError "Failed to fetch blogs")
  | Some results => respond 200 (SBlogs results)
  end.

(** *** [GET /blogs/:id] *)

(** [row.sectionId !== null]. *)
Definition has_section (r : join_row) : bool :=
  match sectionId r with Some _ => true | None => false end.

Definition blog_of_rows (first : join_row) (results : list join_row) : blog_view :=
  mkBlogView (blogId first) (j_title first) (j_image_url first) (j_intro first)
    ((fun r => mkSectionView (default 0 (sectionId r)) (j_heading r) (j_content r))
       <$> List.filter has_section results).

Definition blog_by_id (blogId' : Z) : Site site_response :=
  let! r := site_query (select_blog_join blogId') in
  match r with
  | None => respond 500 (SErrorDetails "Database query failed")
  | Some [] => respond 404 (SMessage "Blog not found")
  | Some (first :: rest) => respond 200 (SBlog (blog_of_rows first (first :: rest)))
  end.

(** *** [DELETE /delete-blog/:id] *)
Definition delete_blog (blogId' : Z) : Site site_response :=
  let! r := site_exec (fun db =>
              (with_db_sections (delete_sections_of blogId' (db_sections db)) db, tt)) in
  match r with
  | None => respond 500 (SErrorDetails "Failed to delete blog sections")
  | Some _ =>
      let! r2 := site_exec (fun db =>
                   (with_db_blogs (delete blogId' (db_blogs db)) db, tt)) in
      match r2 with
      | None => respond 500 (SErrorDetails "Failed to delete blog")
      | Some _ => respond 200 (SMessage "Blog and related sections deleted successfully")
      end
  end.

(** *** [POST /add-blog]

    [sections] is [None] when the property is absent or is not an array. *)
Definition truthyStr (s : option string) : bool :=
  match s with Some s => truthy s | None => false end.

Definition add_blog (title' image' intro' : option string)
    (sections : option (list req_section)) : Site site_response :=
  match (if truthyStr title' then sections else None) with
  | None => respond 400 (SError "Title and sections are required")
  | Some sections =>
      if (Z.of_nat (length sections) =? 0)
      then respond 400 (SError "At least one section is required")
      else
        let! r := site_query (fun db =>
                    select_blog_ids_by_title (default EmptyString title') (db_blogs db)) in
        match r with
        | None => site_log ErrStatement ;;;
                  respond 500 (SError "Database error while checking blog")
        | Some results =>
            if (0 <? Z.of_nat (length results))
            then respond 409 (SError "Blog with this title already exists")
            else
              let! r2 := site_exec (fun db =>
                           let '(tbl, insertId) :=
                             insert_row auto_increment (mkBlog title' image' intro')
                               (db_blogs db) in
                           (with_db_blogs tbl db, insertId)) in
              match r2 with
              | None => site_log ErrStatement ;;;
                        respond 500 (SError "Failed to insert blog")
              | Some blogId' =>
                  let sectionValues :=
                    (fun s => mkSection blogId' (rs_heading s) (rs_content s))
                      <$> sections in
                  let! r3 := site_exec (fun db =>
                               (with_db_sections
                                  (insert_rows auto_increment sectionValues (db_sections db))
                                  db, tt)) in
                  match r3 with
                  | None => site_log ErrStatement ;;;
                            respond 500 (SError "Failed to insert sections")
                  | Some _ =>
                      respond 200 (SBlogAdded "Blog and sections added successfully" blogId')
                  end
              end
        end
  end.

(** *** [PUT /update-blog/:id]

    [sections] is [None] when the property is absent or has no [filter]
    method: calling it throws a [TypeError]. *)
Definition update_blog (blogId' : Z) (title' image' intro' : option string)
    (sections : option (list req_section)) : Site site_response :=
  let! r := site_exec (fun db =>
              (with_db_blogs (update_blog_row blogId' (mkBlog title' image' intro')
                                (db_blogs db)) db, tt)) in
  match r with
  | None => respond 500 (SError "Failed to update blog")
  | Some _ =>
      match sections with
      | None => site_throw "TypeError"
      | Some sections =>
          let sectionIds :=
            (fun s => default 0 (rs_id s)) <$>
              List.filter (fun s => truthyNum (rs_id s)) sections in
          let! r2 := site_exec (fun db =>
                       (with_db_sections
                          (if (Z.of_nat (length sectionIds) =? 0)
                           then delete_sections_of blogId' (db_sections db)
                           else delete_sections_not_in blogId' sectionIds (db_sections db))
                          db, tt)) in
          match r2 with
          | None => respond 500 (SError "Failed to delete old sections")
          | Some _ =>
              let newSections :=
                List.filter (fun s => negb (truthyNum (rs_id s))) sections in
              let existingSections :=
                List.filter (fun s => truthyNum (rs_id s)) sections in
              let insertNew : Site (option unit) :=
                if (Z.of_nat (length newSections) =? 0) then site_ret (Some tt)
                else
                  let newValues :=
                    (fun s => mkSection blogId' (rs_heading s) (rs_content s))
                      <$> newSections in
                  site_exec (fun db =>
                    (with_db_sections
                       (insert_rows auto_increment newValues (db_sections db)) db, tt)) in
              let upsertExisting : Site (option unit) :=
                if (Z.of_nat (length existingSections) =? 0) then site_ret (Some tt)
                else
                  let existingValues :=
                    (fun s => (default 0 (rs_id s), s)) <$> existingSections in
                  site_exec (fun db =>
                    (with_db_sections
                       (upsert_sections blogId' existingValues (db_sections db)) db, tt)) in
              let! r3 := insertNew in
              match r3 with
              | None => site_log ErrStatement ;;;
                        respond 500 (SError "Failed to insert new sections")
              | Some _ =>
                  let! r4 := upsertExisting in
                  match r4 with
                  | None => site_log ErrStatement ;;;
                            respond 500 (SError "Failed to update existing sections")
                  | Some _ =>
                      respond 200 (SMessage "Blog and sections updated successfully")
                  end
              end
          end
      end
  end.

End Routes.

(** [res.status(code).json({ error })] of [verifyToken], in the answers of
    this part, and the four protected routes of this part behind the
    check. *)
Definition site_deny (code : Z) (error : string) : site_response :=
  mkSiteResponse code (SError error).

Definition delete_user_route (jwt_verify : string -> option string)
    (EMAIL_USER : string) (db_fails : nat -> bool)
    (smtp : list account_mail -> account_mail -> string + string)
    (authorization : option string) (userId : Z) : Site site_response :=
  verifyToken jwt_verify site_deny authorization
    (delete_user EMAIL_USER db_fails smtp userId).

Definition delete_blog_route (jwt_verify : string -> option string)
    (db_fails : nat -> bool) (authorization : option string) (blogId' : Z)
    : Site site_response :=
  verifyToken jwt_verify site_deny authorization (delete_blog db_fails blogId').

Definition update_blog_route (jwt_verify : string -> option string)
    (db_fails : nat -> bool) (auto_increment : gset Z -> Z)
    (authorization : option string) (blogId' : Z) (title' image' intro' : option string)
    (sections : option (list req_section)) : Site site_response :=
  verifyToken jwt_verify site_deny authorization
    (update_blog db_fails auto_increment blogId' title' image' intro' sections).

Definition add_blog_route (jwt_verify : string -> option string)
    (db_fails : nat -> bool) (auto_increment : gset Z -> Z)
    (authorization : option string) (title' image' intro' : option string)
    (sections : option (list req_section)) : Site site_response :=
  verifyToken jwt_verify site_deny authorization
    (add_blog db_fails auto_increment title' image' intro' sections).

(** The world after [n] more statements on the connection. *)
Definition site_bump (n : nat) (w : site) : site :=
  mkSite (site_db w) (n + site_queries w) (site_outbox w) (site_console w).

(** What a route shows to the outside: its answer, the tables and the
    messages handed to the transport. *)
Definition observe {A} (run : outcome A * site) : outcome A * database * list account_mail :=
  (run.1, site_db run.2, site_outbox run.2).

(** The row that [POST /submit-user] inserts. *)
Definition new_subscriber (Price' email' name' phone' plan' : string) (now : Z) (random : Q)
    : user :=
  mkUser name' email' phone' plan' Price' (invoiceNumber now random)
    (if plan' === "Free Trial" then "Free"%string else "pending"%string) now.

(** The three lists that [PUT /update-blog/:id] derives from the sections
    of the request: the ids it names, the rows it inserts and the rows it
    writes under their ids. *)
Definition section_ids (sections : list req_section) : list Z :=
  (fun s => default 0 (rs_id s)) <$> List.filter (fun s => truthyNum (rs_id s)) sections.

Definition new_values (blogId' : Z) (sections : list req_section) : list blog_section :=
  (fun s => mkSection blogId' (rs_heading s) (rs_content s))
    <$> List.filter (fun s => negb (truthyNum (rs_id s))) sections.

Definition existing_values (sections : list req_section) : list (Z * req_section) :=
  (fun s => (default 0 (rs_id s), s)) <$> List.filter (fun s => truthyNum (rs_id s)) sections.

(** ** Conditions on the tables that the statements below speak about *)

(** No two rows of [users] share an address, and no two share a number. *)
Definition unique_contacts (tbl : gmap Z user) : Prop :=
  forall i j u v,
    tbl !! i = Some u -> tbl !! j = Some v ->
    email u = email v \/ phone u = phone v -> i = j.

(** No two rows of [blogs] share a title. *)
Definition unique_titles (tbl : gmap Z blog) : Prop :=
  forall i j b c t,
    tbl !! i = Some b -> tbl !! j = Some c ->
    title b = Some t -> title c = Some t -> i = j.

(** Every section belongs to a blog of the table. *)
Definition sections_attached (db : database) : Prop :=
  forall sid s, db_sections db !! sid = Some s -> is_Some (db_blogs db !! blog_id s).

(** The id handed out is not in use. *)
Definition fresh_ids (auto_increment : gset Z -> Z) : Prop :=
  forall ids, auto_increment ids ∉ ids.

(** ** More sample data *)

Module Sample2.
Import JsDate.
Local Open Scope string_scope.

(** An id above every id in use. *)
Definition next_id (ids : gset Z) : Z := 1 + foldr Z.max 0 (elements ids).

Definition jwt_verify : string -> option string :=
  fun token => if token === "good-token" then Some "admin" else None.
Definition bcrypt_compare : string -> string -> bool :=
  fun password hash => String.append "hash:" password === hash.
Definition jwt_sign : Z -> string -> string :=
  fun id email => String.append "token-for-" email.

Definition smtp_down : list account_mail -> account_mail -> string + string :=
  fun _ _ => inl "ECONNREFUSED".
Definition smtp_up : list account_mail -> account_mail -> string + string :=
  fun _ _ => inr "250 OK".

Definition root : admin := mkAdmin "root@example.org" "hash:secret".

Definition news : blog := mkBlog (Some "News") (Some "news.png") (Some "What is new").
Definition guide : blog := mkBlog (Some "Guide") None (Some "How to start").
Definition offers : blog := mkBlog (Some "Offers") (Some "offers.png") None.
Definition faq : blog := mkBlog (Some "FAQ") None None.

Definition database0 : database :=
  mkDatabase (<[1 := Sample.ann]> (<[2 := Sample.bob]> ∅))
             (<[1 := root]> ∅)
             (<[1 := news]> (<[2 := guide]> (<[3 := offers]> (<[4 := faq]> ∅))))
             (<[10 := mkSection 1 (Some "Today") (Some "Channels added")]>
                (<[11 := mkSection 1 (Some "Tomorrow") None]>
                   (<[12 := mkSection 2 (Some "Step 1") (Some "Sign up")]> ∅))).

Definition site0 : site := mkSite database0 0 [] [].

End Sample2.

(** * Properties *)

(** ** Calendar arithmetic *)

Module JsDateFacts.
Import JsDate.

Lemma msPerDay_pos : 0 < msPerDay.
Proof. reflexivity. Qed.

(** In a 400-year era the year of a day and the day within that year
    stay in range. *)
Lemma yoe_bounds (doe : Z) :
  0 <= doe < 146097 ->
  let yoe := (doe - doe / 1460 + doe / 36524 - doe / 146096) / 365 in
  0 <= yoe < 400 /\ 0 <= doe - (365 * yoe + yoe / 4 - yoe / 100) < 366.
Proof.
  intros H yoe. subst yoe.
  Z.div_mod_to_equations. lia.
Qed.

(** The calendar date of a day number is a real date, and it numbers
    back to the same day. *)
Lemma civil_roundtrip (z : Z) :
  let '(y, m, d) := civilFromDays z in
  0 <= m < 12 /\ 1 <= d <= 31 /\ daysFromCivil y m d = z.
Proof.
  unfold civilFromDays.
  set (z' := z + 719468).
  set (era := z' / 146097).
  set (doe := z' - era * 146097).
  assert (Hdoe : 0 <= doe < 146097)
    by (subst doe era; Z.div_mod_to_equations; lia).
  pose proof (yoe_bounds doe Hdoe) as Hy. cbv zeta in Hy.
  set (yoe := (doe - doe / 1460 + doe / 36524 - doe / 146096) / 365) in *.
  set (doy := doe - (365 * yoe + yoe / 4 - yoe / 100)) in *.
  destruct Hy as [Hyoe Hdoy].
  set (mp := (5 * doy + 2) / 153).
  assert (Hmp : 0 <= mp < 12) by (subst mp; Z.div_mod_to_equations; lia).
  set (d := doy - (153 * mp + 2) / 5 + 1).
  assert (Hd : 1 <= d <= 31) by (subst d mp; Z.div_mod_to_equations; lia).
  set (m := if mp <? 10 then mp + 2 else mp - 10).
  assert (Hm : 0 <= m < 12) by (subst m; destruct (Z.ltb_spec mp 10); lia).
  split; [exact Hm|]. split; [exact Hd|].
  unfold daysFromCivil.
  assert (Hmp' : (m + 10) mod 12 = mp).
  { subst m. destruct (Z.ltb_spec mp 10); Z.div_mod_to_equations; lia. }
  rewrite Hmp'.
  assert (Hy' : (if m <? 2 then yoe + era * 400 + (if m <? 2 then 1 else 0) - 1
                 else yoe + era * 400 + (if m <? 2 then 1 else 0))
                = yoe + era * 400)
    by (destruct (m <? 2); lia).
  rewrite Hy'.
  assert (He : (yoe + era * 400) / 400 = era) by (Z.div_mod_to_equations; lia).
  rewrite He.
  replace (yoe + era * 400 - era * 400) with yoe by lia.
  subst d doy doe z'. lia.
Qed.

Lemma getMonth_range (t : Z) : 0 <= getMonth t < 12.
Proof.
  unfold getMonth. pose proof (civil_roundtrip (Day t)) as H.
  destruct (civilFromDays (Day t)) as [[y m] d]. simpl. tauto.
Qed.

Lemma getDate_range (t : Z) : 1 <= getDate t <= 31.
Proof.
  unfold getDate. pose proof (civil_roundtrip (Day t)) as H.
  destruct (civilFromDays (Day t)) as [[y m] d]. simpl. tauto.
Qed.

(** The day number is linear in the day of the month. *)
Lemma daysFromCivil_date (y m d : Z) :
  daysFromCivil y m d = daysFromCivil y m 1 + d - 1.
Proof. unfold daysFromCivil. lia. Qed.

Lemma MakeDay_date (y m d k : Z) : MakeDay y m (d + k) = MakeDay y m d + k.
Proof. unfold MakeDay. lia. Qed.

(** Twelve months are a year. *)
Lemma MakeDay_year (y m d k : Z) : MakeDay y (m + 12 * k) d = MakeDay (y + k) m d.
Proof.
  unfold MakeDay.
  replace (m + 12 * k) with (m + k * 12) by lia.
  rewrite Z.div_add, Z_mod_plus_full by lia.
  f_equal. f_equal. f_equal. lia.
Qed.

(** Rebuilding a day from its own year, month and date gives it back. *)
Lemma MakeDay_civil (t : Z) : MakeDay (getFullYear t) (getMonth t) (getDate t) = Day t.
Proof.
  unfold MakeDay, getFullYear, getMonth, getDate.
  pose proof (civil_roundtrip (Day t)) as H.
  destruct (civilFromDays (Day t)) as [[y m] d]. simpl.
  destruct H as (Hm & _ & H).
  rewrite Z.div_small, Z.mod_small by lia.
  rewrite Z.add_0_r, <- daysFromCivil_date. exact H.
Qed.

Lemma Day_TimeWithinDay (t : Z) : MakeDate (Day t) (TimeWithinDay t) = t.
Proof.
  unfold MakeDate, Day, TimeWithinDay.
  pose proof (Z.div_mod t msPerDay). unfold msPerDay in *. lia.
Qed.

Lemma setDate_shift (t k : Z) : setDate t (getDate t + k) = t + k * msPerDay.
Proof.
  unfold setDate. rewrite MakeDay_date, MakeDay_civil.
  rewrite <- (Day_TimeWithinDay t) at 3. unfold MakeDate. lia.
Qed.

Lemma setHours0_le (t : Z) : setHours0 t <= t < setHours0 t + msPerDay.
Proof.
  unfold setHours0, MakeDate, Day, msPerDay.
  Z.div_mod_to_equations. lia.
Qed.

Lemma setHours0_mono (a b : Z) : a <= b -> setHours0 a <= setHours0 b.
Proof.
  intros H. unfold setHours0, MakeDate, Day.
  pose proof (Z.div_le_mono a b msPerDay msPerDay_pos H).
  unfold msPerDay in *. lia.
Qed.

Lemma Day_setHours0 (t : Z) : Day (setHours0 t) = Day t.
Proof.
  unfold setHours0, MakeDate, Day. rewrite Z.add_0_r.
  apply Z.div_mul. discriminate.
Qed.

Lemma TimeWithinDay_setHours0 (t : Z) : TimeWithinDay (setHours0 t) = 0.
Proof.
  unfold setHours0, MakeDate, TimeWithinDay. rewrite Z.add_0_r.
  apply Z.mod_mul. discriminate.
Qed.

Lemma setHours0_idem (t : Z) : setHours0 (setHours0 t) = setHours0 t.
Proof. unfold setHours0 at 1. rewrite Day_setHours0. reflexivity. Qed.

End JsDateFacts.

Module MomentFacts.
Import JsDate JsDateFacts Moment.

Lemma daysInMonth_ge_28 (y m : Z) : 28 <= daysInMonth y m.
Proof.
  unfold daysInMonth.
  destruct (m mod 12 =? 1); [destruct (isLeapYear _); lia|].
  pose proof (Z.mod_pos_bound ((m mod 12) mod 7) 2). lia.
Qed.

(** Up to the 28th, moment's month addition is plain [setMonth]. *)
Lemma addMonths_no_clamp (t n : Z) :
  getDate t <= 28 -> addMonths t n = setMonth t (getMonth t + n).
Proof.
  intros H. unfold addMonths, setMonth.
  pose proof (daysInMonth_ge_28 (getFullYear t) (getMonth t + n)).
  rewrite Z.min_l by lia. reflexivity.
Qed.

(** Up to the 28th, moment's year addition is plain [setFullYear]. *)
Lemma addYears_no_clamp (t n : Z) :
  getDate t <= 28 -> addYears t n = setFullYear t (getFullYear t + n).
Proof.
  intros H. unfold addYears. rewrite addMonths_no_clamp by exact H.
  unfold setMonth, setMonth2, setFullYear. rewrite MakeDay_year. reflexivity.
Qed.

Lemma addDays_shift (t n : Z) : addDays t n = t + n * msPerDay.
Proof. apply setDate_shift. Qed.

Lemma startOfDay_mono (a b : Z) : a <= b -> startOfDay a <= startOfDay b.
Proof. apply setHours0_mono. Qed.

Lemma isBefore_lt (a b : Z) : isBefore a b = true <-> a < b.
Proof. unfold isBefore. apply Z.ltb_lt. Qed.

End MomentFacts.

Module StrFacts.
Import Str.
Local Open Scope string_scope.

Lemma startsWith_spec (s pat : string) :
  startsWith s pat = true <-> exists rest, s = String.append pat rest.
Proof.
  revert s. induction pat as [|c pat IH]; intros s; cbn [startsWith].
  - split; [intros _; exists s; reflexivity | intros _; destruct s; reflexivity].
  - destruct s as [|c' s].
    + split; [discriminate | intros [rest H]; discriminate].
    + cbn [startsWith]. rewrite andb_true_iff, Ascii.eqb_eq, IH. split.
      * intros [-> [rest ->]]. exists rest. reflexivity.
      * intros [rest H]. injection H as -> ->. split; [reflexivity|]. exists rest. reflexivity.
Qed.

(** [includes] finds exactly the strings that have [pat] between some
    prefix and some suffix. *)
Lemma includes_spec (s pat : string) :
  includes s pat = true <->
  exists before after, s = String.append before (String.append pat after).
Proof.
  induction s as [|c s IH].
  - cbn [includes]. rewrite orb_false_r, startsWith_spec. split.
    + intros [rest H]. exists EmptyString, rest. exact H.
    + intros [[|c before] [after H]]; [exists after; exact H | discriminate].
  - cbn [includes]. rewrite orb_true_iff, startsWith_spec, IH. split.
    + intros [[rest H] | (before & after & H)].
      * exists EmptyString, rest. exact H.
      * exists (String c before), after. simpl. rewrite H. reflexivity.
    + intros [[|c' before] [after H]].
      * left. exists after. exact H.
      * right. simpl in H. injection H as -> ->. exists before, after. reflexivity.
Qed.

Lemma strictEq_eq (a b : string) : (a === b) = true <-> a = b.
Proof. apply String.eqb_eq. Qed.

Lemma strictEq_neq (a b : string) : (a === b) = false <-> a <> b.
Proof. apply String.eqb_neq. Qed.

Lemma truthy_nonempty (s : string) : truthy s = true <-> s <> EmptyString.
Proof. unfold truthy. rewrite negb_true_iff. apply String.eqb_neq. Qed.

End StrFacts.

(** ** The due date of the listing handler *)

Section DueDate.
Import JsDate JsDateFacts Moment MomentFacts StrFacts.
Local Open Scope string_scope.

(** A status other than "paid" and "Free" has no due date. *)
Lemma computeDueDate_other (s p : string) (d : Z) :
  s <> "paid" -> s <> "Free" -> computeDueDate s p d = None.
Proof.
  intros Hp Hf. unfold computeDueDate.
  apply strictEq_neq in Hp. apply strictEq_neq in Hf.
  rewrite Hp, Hf. reflexivity.
Qed.

(** A due date exists only under "paid" or "Free". *)
Lemma computeDueDate_Some_status (s p : string) (d due : Z) :
  computeDueDate s p d = Some due -> s = "paid" \/ s = "Free".
Proof.
  intros H.
  destruct (String.eqb_spec s "paid") as [|Hp]; [left; assumption|].
  destruct (String.eqb_spec s "Free") as [|Hf]; [right; assumption|].
  rewrite computeDueDate_other in H by assumption. discriminate.
Qed.

Lemma hasLapsed_true (s p : string) (d currentDate : Z) :
  hasLapsed s p d currentDate = true <->
  exists dueDate, computeDueDate s p d = Some dueDate /\ dueDate < currentDate.
Proof.
  unfold hasLapsed. destruct (computeDueDate s p d) as [due|].
  - rewrite isBefore_lt. split.
    + intros H. exists due. split; [reflexivity | exact H].
    + intros (due' & [= <-] & H). exact H.
  - split; [discriminate | intros (due & [=] & _)].
Qed.

Lemma hasLapsed_other (s p : string) (d currentDate : Z) :
  s <> "paid" -> s <> "Free" -> hasLapsed s p d currentDate = false.
Proof.
  intros Hp Hf. unfold hasLapsed. rewrite computeDueDate_other by assumption.
  reflexivity.
Qed.

(** The ids pushed by [forEach] are those of the lapsed rows, in order. *)
Lemma lapsed_ids_fold (currentDate : Z) (results : list row) (acc : list Z) :
  fold_left (lapse_step currentDate) results acc =
  (acc ++ (filter (fun r : row =>
             hasLapsed (invoice_status r.2) (plan r.2) (updated_at r.2) currentDate = true)
             results).*1)%list.
Proof.
  revert acc. induction results as [|[id u] results IH]; intros acc.
  - simpl. rewrite app_nil_r. reflexivity.
  - cbn [fold_left lapse_step]. rewrite IH, filter_cons. cbn [snd].
    destruct (hasLapsed _ _ _ _) eqn:E.
    + rewrite decide_True by reflexivity.
      rewrite fmap_cons, <- app_assoc. reflexivity.
    + rewrite decide_False by discriminate. reflexivity.
Qed.

Lemma lapsed_ids_spec (currentDate : Z) (results : list row) (id : Z) :
  id ∈ lapsed_ids currentDate results <->
  exists u, (id, u) ∈ results /\
    hasLapsed (invoice_status u) (plan u) (updated_at u) currentDate = true.
Proof.
  unfold lapsed_ids. rewrite lapsed_ids_fold, app_nil_l, list_elem_of_fmap.
  split.
  - intros ([id' u] & -> & H). apply list_elem_of_filter in H as [H1 H2].
    exists u. split; assumption.
  - intros (u & H1 & H2). exists (id, u). split; [reflexivity|].
    apply list_elem_of_filter. split; assumption.
Qed.

End DueDate.

(** ** The table under the two UPDATE statements *)

Section Table.
Implicit Types (tbl : gmap Z user) (u : user) (id : Z).

Lemma lookup_update_status_in now status ids tbl id :
  (update_status_in now status ids tbl).1 !! id =
  (fun u => if bool_decide (id ∈ ids)
            then touch now (set_invoice_status status u) else u) <$> tbl !! id.
Proof.
  unfold update_status_in. cbn [fst]. rewrite map_lookup_imap.
  destruct (tbl !! id); reflexivity.
Qed.

Lemma lookup_update_status_by_id now status id tbl id' :
  (update_status_by_id now status id tbl).1 !! id' =
  if decide (id = id')
  then (fun u => touch now (set_invoice_status status u)) <$> tbl !! id'
  else tbl !! id'.
Proof.
  unfold update_status_by_id. cbn [fst]. rewrite lookup_alter.
  destruct (decide (id = id')) as [->|]; reflexivity.
Qed.

Lemma select_users_elem tbl id u : (id, u) ∈ select_users tbl <-> tbl !! id = Some u.
Proof. unfold select_users. apply elem_of_map_to_list. Qed.

Lemma select_by_id_Some tbl id u : tbl !! id = Some u -> select_by_id id tbl = [u].
Proof. intros H. unfold select_by_id. rewrite H. reflexivity. Qed.

End Table.

(** ** What each handler does to the world *)

Section Runs.
Import JsDate Moment.

Variable EMAIL_USER : string.
Variable db_fails : nat -> bool.
Variable smtp : list mail -> mail -> string + string.

(** The listing handler always answers; which answer, and which table it
    leaves, depends only on the failing statements and on whether some
    row has lapsed. *)
Lemma get_users_run (now : Z) (w : world) :
  let results := select_users (users w) in
  let updates := lapsed_ids (startOfDay now) results in
  let tbl := (update_status_in now "pending" updates (users w)).1 in
  get_users db_fails now w =
    if db_fails (queries w)
    then (Ret (mkResponse 500 (JError "Query error")), bump 1 w)
    else if 0 <? Z.of_nat (length updates) then
      if db_fails (S (queries w))
      then (Ret (mkResponse 500 (JError "Update error")), bump 2 w)
      else if db_fails (S (S (queries w)))
      then (Ret (mkResponse 500 (JError "Final query error")), bump 3 (with_users tbl w))
      else (Ret (mkResponse 200 (JUsers (select_users tbl))), bump 3 (with_users tbl w))
    else (Ret (mkResponse 200 (JUsers results)), bump 1 w).
Proof.
  cbv zeta. unfold get_users, bind, query, exec, ret, bump, with_users.
  destruct (db_fails (queries w)) eqn:E0; [reflexivity|].
  destruct (0 <? _) eqn:El; [|reflexivity].
  cbn [queries users outbox console].
  destruct (db_fails (S (queries w))) eqn:E1; [reflexivity|].
  unfold update_status_in at 1. cbn [queries users outbox console fst].
  destruct (db_fails (S (S (queries w)))) eqn:E2; reflexivity.
Qed.

(** The status-update handler on a supplied status, an existing row and a
    working connection: the row is rewritten, one message is handed to
    the transport, and the answer is 200 whatever the transport says. *)
Lemma update_status_run (now id : Z) (status : string) (u : user) (w : world) :
  truthy status = true ->
  users w !! id = Some u ->
  db_fails (queries w) = false ->
  db_fails (S (queries w)) = false ->
  let m := confirmation_mail EMAIL_USER status now u in
  let line := match smtp (outbox w) m with
              | inr info => LogEmailSent info
              | inl err => ErrEmailSending err
              end in
  update_status EMAIL_USER db_fails smtp now id (Some status) w =
    (Ret (mkResponse 200 (JMessage "Status updated and email sent")),
     mkWorld (<[id := touch now (set_invoice_status status u)]> (users w))
             (S (S (queries w))) (outbox w ++ [m]) (console w ++ [line])).
Proof.
  intros Ht Hu H0 H1. cbv zeta.
  unfold update_status. rewrite Ht. cbn [negb].
  unfold bind at 1. unfold query. rewrite H0.
  rewrite (select_by_id_Some _ _ _ Hu).
  unfold bind at 1. unfold exec. cbn [queries users outbox console].
  rewrite H1. unfold update_status_by_id. rewrite Hu.
  cbn [Z.eqb].
  assert (Halter : alter (fun u0 => touch now (set_invoice_status status u0)) id (users w)
                   = <[id := touch now (set_invoice_status status u)]> (users w)).
  { apply map_eq. intros i. rewrite lookup_alter, lookup_insert.
    destruct (decide (id = i)) as [->|]; [rewrite Hu|]; reflexivity. }
  rewrite Halter.
  unfold confirmation_mail.
  destruct (status === "paid");
    unfold bind, try_catch, sendMail, console_log, ret;
    cbn [queries users outbox console];
    destruct (smtp _ _); reflexivity.
Qed.

End Runs.

(** ** The reminder job *)

Section Sweep.
Import JsDate Moment.

Variable EMAIL_USER : string.
Variable db_fails : nat -> bool.
Variable smtp : list mail -> mail -> string + string.

(** The floating quotient is 2 exactly when the two midnights are two
    days apart. *)
Lemma isReminderDue_iff (plan : string) (updated_at today : Z) :
  isReminderDue plan updated_at today = true <->
  reminderEndDate plan updated_at - today = 2 * msPerDay.
Proof.
  unfold isReminderDue, diffInDays, getTime. rewrite Qeq_bool_iff.
  unfold Qeq, Qdiv, Qmult, Qinv, inject_Z, msPerDay. simpl. lia.
Qed.

(** One turn of the loop: a row that is not due leaves the world alone; a
    due row is recorded and its reminder handed to the transport, and
    the turn ends normally whether or not the transport accepts it. *)
Lemma reminder_step_run (today : Z) (acc : list upcoming) (r : row) (w : world) :
  reminder_step EMAIL_USER smtp today acc r w =
    if reminder_due today r then
      (Ret (acc ++ [upcoming_of r]),
       mkWorld (users w) (queries w) (outbox w ++ [reminder_mail EMAIL_USER r])
         (console w ++
            [match smtp (outbox w) (reminder_mail EMAIL_USER r) with
             | inr info => LogReminderSent (email r.2) info
             | inl err => ErrReminderFailed (email r.2) err
             end]))
    else (Ret acc, w).
Proof.
  unfold reminder_step, reminder_due, isReminderDue, reminder_mail, upcoming_of.
  cbv zeta.
  destruct (Qeq_bool _ _); [|reflexivity].
  unfold bind, try_catch, sendMail, console_log, ret.
  cbn [users queries outbox console].
  destruct (smtp _ _); reflexivity.
Qed.

(** The whole loop: every due row of the list gets its entry and its
    send attempt, in order, and the loop never throws. *)
Lemma for_of_reminder_step (today : Z) (l : list row) (acc : list upcoming) (w : world) :
  exists w',
    for_of l acc (reminder_step EMAIL_USER smtp today) w =
      (Ret (acc ++ map upcoming_of (List.filter (reminder_due today) l)), w') /\
    users w' = users w /\ queries w' = queries w /\
    outbox w' =
      outbox w ++ map (reminder_mail EMAIL_USER) (List.filter (reminder_due today) l).
Proof.
  revert acc w. induction l as [|r l IH]; intros acc w.
  - exists w. cbn. rewrite !app_nil_r. repeat split; reflexivity.
  - cbn [for_of List.filter]. unfold bind at 1. rewrite reminder_step_run.
    destruct (reminder_due today r).
    + edestruct IH as (w' & Hrun & Hu & Hq & Ho).
      exists w'. rewrite Hrun, Hu, Hq, Ho. cbn [users queries outbox map].
      rewrite <- !app_assoc. repeat split; reflexivity.
    + apply IH.
Qed.

(** The messages the job hands to the transport. *)
Lemma sendReminderEmails_run (now : Z) (w : world) :
  let due := List.filter (reminder_due (setHours0 now)) (select_paid (users w)) in
  exists w',
    sendReminderEmails EMAIL_USER db_fails smtp now w = (Ret tt, w') /\
    users w' = users w /\
    outbox w' =
      if db_fails (queries w) then outbox w
      else outbox w ++ map (reminder_mail EMAIL_USER) due ++
           match due with
           | [] => []
           | _ :: _ => [summary_mail EMAIL_USER (map upcoming_of due)]
           end.
Proof.
  cbv zeta. unfold sendReminderEmails.
  unfold bind at 1. unfold query.
  destruct (db_fails (queries w)).
  { eexists. split; [reflexivity|]. split; reflexivity. }
  unfold bind at 1.
  edestruct (for_of_reminder_step (setHours0 now) (select_paid (users w)) [])
    as (w' & -> & Hu & Hq & Ho).
  cbn [users queries outbox console] in Hu, Ho.
  rewrite app_nil_l, length_map.
  destruct (List.filter _ _) as [|r due] eqn:E.
  - exists w'. cbn. rewrite Hu, Ho. cbn. rewrite app_nil_r. repeat split; reflexivity.
  - change (0 <? Z.of_nat (length (r :: due))) with true. cbv iota.
    unfold try_catch, bind, sendMail, console_log, ret, summary_mail.
    destruct (smtp _ _); eexists; (split; [reflexivity|]);
      cbn [users outbox]; rewrite Hu, Ho, <- !app_assoc; split; reflexivity.
Qed.

End Sweep.

(** * The claims *)

Section Claims.
Import JsDate JsDateFacts Moment MomentFacts StrFacts.
Local Open Scope string_scope.

(** At the listing handler a "paid" row gets the duration that the
    specification's precedence selects, added by moment to the start of
    the day of [updated_at]. *)
Lemma computeDueDate_paid (plan : string) (d : Z) :
  computeDueDate "paid" plan d =
  match planDurationSpec plan with
  | Some (CalendarMonths n) => Some (addMonths (startOfDay d) n)
  | Some (CalendarYears n) => Some (addYears (startOfDay d) n)
  | None => None
  end.
Proof.
  unfold computeDueDate, planDurationSpec.
  change ("paid" === "paid") with true. change ("paid" === "Free") with false.
  cbn [andb].
  destruct (includes plan "Monthly"); [reflexivity|].
  destruct (includes plan "6-Month"); [reflexivity|].
  destruct (includes plan "Yearly"); reflexivity.
Qed.

(** The end date of the reminder job, against the same wording: the
    duration is added by [Date], and an unmatched plan keeps the start
    date. *)
Lemma reminderEndDate_spec (plan : string) (d : Z) :
  reminderEndDate plan d =
  match planDurationSpec plan with
  | Some (CalendarMonths n) => setMonth (setHours0 d) (getMonth (setHours0 d) + n)
  | Some (CalendarYears n) => setFullYear (setHours0 d) (getFullYear (setHours0 d) + n)
  | None => setHours0 d
  end.
Proof.
  unfold reminderEndDate, planDurationSpec.
  destruct (includes plan "Monthly"); [reflexivity|].
  destruct (includes plan "6-Month"); [reflexivity|].
  destruct (includes plan "Yearly"); reflexivity.
Qed.

Lemma getDate_setHours0 (t : Z) : getDate (setHours0 t) = getDate t.
Proof. unfold getDate. rewrite Day_setHours0. reflexivity. Qed.

(** Where the two call sites agree: a matched plan and a status change on
    a day of the month up to the 28th. *)
Lemma reminderEndDate_agrees (plan : string) (d : Z) :
  getDate d <= 28 ->
  planDurationSpec plan <> None ->
  computeDueDate "paid" plan d = Some (reminderEndDate plan d).
Proof.
  intros Hd Hplan. rewrite computeDueDate_paid, reminderEndDate_spec.
  unfold startOfDay.
  destruct (planDurationSpec plan) as [[n|n]|]; [| |congruence].
  - rewrite addMonths_no_clamp by (rewrite getDate_setHours0; exact Hd). reflexivity.
  - rewrite addYears_no_clamp by (rewrite getDate_setHours0; exact Hd). reflexivity.
Qed.

(** C1, at a failing input.  For a "Monthly" subscriber whose status
    changed on 31 January 2024 the listing handler computes the due date
    29 February 2024, while the reminder job and the status-update
    handler compute 2 March 2024; for a plan with none of the three
    keywords the listing handler has no due date, while the reminder job
    takes the start date itself as end date. *)
Theorem C1_call_sites_disagree :
  computeDueDate "paid" "Monthly" Sample.jan31 = Some (ymd 2024 1 29) /\
  reminderEndDate "Monthly" Sample.jan31 = ymd 2024 2 2 /\
  toDateString (statusUpdateEndDate "paid" "Monthly" Sample.jan31) = (2024, 2, 2) /\
  computeDueDate "paid" "Basic" Sample.jan31 = None /\
  reminderEndDate "Basic" Sample.jan31 = ymd 2024 0 31 /\
  toDateString (statusUpdateEndDate "paid" "Basic" Sample.jan31) = (2024, 0, 31).
Proof. vm_compute. repeat split; reflexivity. Qed.

(** C2.  [hasLapsed] holds exactly when the due date is defined and
    strictly before the start of today; on the boundary (a free trial
    that started on 1 May 2024, seen on 8 May 2024) the due date is
    8 May 2024 and the subscriber has not lapsed. *)
Theorem C2_hasLapsed_iff_due_before_today :
  (forall (s p : string) (d today : Z),
      hasLapsed s p d (startOfDay today) = true <->
      exists dueDate, computeDueDate s p d = Some dueDate /\ dueDate < startOfDay today) /\
  (forall (results : list row) (today id : Z),
      id ∈ lapsed_ids (startOfDay today) results <->
      exists u dueDate,
        (id, u) ∈ results /\
        computeDueDate (invoice_status u) (plan u) (updated_at u) = Some dueDate /\
        dueDate < startOfDay today) /\
  computeDueDate "Free" "Free Trial" (ymd 2024 4 1) = Some (ymd 2024 4 8) /\
  hasLapsed "Free" "Free Trial" (ymd 2024 4 1) (startOfDay (ymd 2024 4 8)) = false.
Proof.
  split; [intros; apply hasLapsed_true|].
  split.
  - intros results today id. rewrite lapsed_ids_spec. split.
    + intros (u & Hin & Hl). apply hasLapsed_true in Hl as (due & Hdue & Hlt).
      exists u, due. repeat split; assumption.
    + intros (u & due & Hin & Hdue & Hlt). exists u. split; [exact Hin|].
      apply hasLapsed_true. exists due. split; assumption.
  - vm_compute. split; reflexivity.
Qed.

(** C3, at a failing input.  A "Monthly" subscriber whose status changed
    on 31 January 2024 has the due date 29 February 2024, two days after
    27 February; the reminder job computes 2 March as end date, sends
    nothing on 27 February and sends the reminder on 29 February.  A
    "paid" subscriber whose plan has none of the three keywords has no
    due date, and the job sends a reminder (and the summary) two days
    before the day of [updated_at]. *)
Theorem C3_reminder_not_two_days_before_due :
  (exists dueDate,
      computeDueDate "paid" "Monthly" Sample.jan31 = Some dueDate /\
      dueDate - setHours0 (ymd 2024 1 27) = 2 * msPerDay) /\
  isReminderDue "Monthly" Sample.jan31 (setHours0 (ymd 2024 1 27)) = false /\
  outbox (sendReminderEmails "ops@example.org" Sample.db_up Sample.smtp_up
            (ymd 2024 1 27) Sample.world0).2 = [] /\
  isReminderDue "Monthly" Sample.jan31 (setHours0 (ymd 2024 1 29)) = true /\
  computeDueDate "paid" "Basic" (ymd 2024 5 3) = None /\
  isReminderDue "Basic" (ymd 2024 5 3) (setHours0 (ymd 2024 5 1)) = true /\
  map mail_to
    (outbox (sendReminderEmails "ops@example.org" Sample.db_up Sample.smtp_up
               (ymd 2024 5 1 + 32400000) Sample.world2).2)
  = ["erin@example.org"; "ops@example.org"]%list.
Proof.
  split.
  - exists (ymd 2024 1 29). vm_compute. split; reflexivity.
  - vm_compute. repeat split; reflexivity.
Qed.

(** C4.  Under the status "Free" the due date is the start of the day of
    [updated_at] plus seven days when the plan is exactly "Free Trial",
    and undefined for every other plan, "Monthly" among them. *)
Theorem C4_free_trial_seven_days (d : Z) (p : string) :
  computeDueDate "Free" "Free Trial" d = Some (startOfDay d + 7 * msPerDay) /\
  computeDueDate "Free" p d =
    (if p === "Free Trial" then Some (startOfDay d + 7 * msPerDay) else None) /\
  computeDueDate "Free" "Monthly" d = None.
Proof.
  assert (H : forall q, computeDueDate "Free" q d =
            if q === "Free Trial" then Some (startOfDay d + 7 * msPerDay) else None).
  { intros q. unfold computeDueDate.
    change ("Free" === "paid") with false. change ("Free" === "Free") with true.
    cbn [andb]. rewrite addDays_shift. reflexivity. }
  split; [|split].
  - rewrite H. reflexivity.
  - apply H.
  - rewrite H. reflexivity.
Qed.

(** C8.  Once lapsed, always lapsed: if [hasLapsed] holds on the day of
    [T], it holds on the day of every later [T']. *)
Theorem C8_hasLapsed_monotone (s p : string) (d T T' : Z) :
  hasLapsed s p d (startOfDay T) = true ->
  T < T' ->
  hasLapsed s p d (startOfDay T') = true.
Proof.
  rewrite !hasLapsed_true. intros (due & Hdue & Hlt) HT.
  exists due. split; [exact Hdue|].
  pose proof (startOfDay_mono T T'). lia.
Qed.

Lemma C8_hasLapsed_monotone_witness :
  hasLapsed "paid" "Monthly" Sample.jan31 (startOfDay (ymd 2024 2 2)) = true.
Proof.
  apply (C8_hasLapsed_monotone "paid" "Monthly" Sample.jan31 (ymd 2024 2 1) (ymd 2024 2 2)).
  - vm_compute. reflexivity.
  - vm_compute. reflexivity.
Defined.

(** C5.  On a supplied status, an existing id and a working connection
    the status-update handler leaves the row with the new
    [invoice_status] and with [updated_at] at the current time; every
    other column of the row, and every other row, is as before. *)
Theorem C5_update_status_frame
    (EMAIL_USER : string) (db_fails : nat -> bool)
    (smtp : list mail -> mail -> string + string)
    (now id : Z) (status : string) (u : user) (w : world) :
  truthy status = true ->
  users w !! id = Some u ->
  db_fails (queries w) = false ->
  db_fails (S (queries w)) = false ->
  let w' := (update_status EMAIL_USER db_fails smtp now id (Some status) w).2 in
  (exists u',
      users w' !! id = Some u' /\
      invoice_status u' = status /\ updated_at u' = now /\
      name u' = name u /\ email u' = email u /\ phone u' = phone u /\
      plan u' = plan u /\ Price u' = Price u /\ invoice u' = invoice u) /\
  (forall id', id' <> id -> users w' !! id' = users w !! id').
Proof.
  intros Ht Hu H0 H1. cbv zeta.
  rewrite (update_status_run EMAIL_USER db_fails smtp now id status u w Ht Hu H0 H1).
  cbn [snd users]. split.
  - exists (touch now (set_invoice_status status u)).
    rewrite lookup_insert_eq. repeat split; reflexivity.
  - intros id' Hne. apply lookup_insert_ne. congruence.
Qed.

Lemma C5_update_status_frame_witness :
  let w' := (update_status "ops@example.org" Sample.db_up Sample.smtp_down
               (ymd 2024 2 2) 2 (Some "paid") Sample.world0).2 in
  (exists u',
      users w' !! 2 = Some u' /\
      invoice_status u' = "paid" /\ updated_at u' = ymd 2024 2 2 /\
      name u' = name Sample.bob /\ email u' = email Sample.bob /\
      phone u' = phone Sample.bob /\ plan u' = plan Sample.bob /\
      Price u' = Price Sample.bob /\ invoice u' = invoice Sample.bob) /\
  (forall id', id' <> 2 -> users w' !! id' = users Sample.world0 !! id').
Proof.
  apply (C5_update_status_frame "ops@example.org" Sample.db_up Sample.smtp_down
           (ymd 2024 2 2) 2 "paid" Sample.bob Sample.world0).
  - reflexivity.
  - vm_compute. reflexivity.
  - reflexivity.
  - reflexivity.
Defined.

(** C6.  Whatever the table and the day, no row in a 200 answer of the
    listing handler has a due date before the start of today while still
    marked "paid" or "Free". *)
Theorem C6_listing_reflects_lapse
    (db_fails : nat -> bool) (now : Z) (w : world)
    (listed : list row) (id : Z) (u : user) :
  (get_users db_fails now w).1 = Ret (mkResponse 200 (JUsers listed)) ->
  (id, u) ∈ listed ->
  ~ (exists dueDate,
        computeDueDate (invoice_status u) (plan u) (updated_at u) = Some dueDate /\
        dueDate < startOfDay now /\
        (invoice_status u = "paid" \/ invoice_status u = "Free")).
Proof.
  intros Hresp Hin (due & Hdue & Hlt & _).
  assert (Hlapsed : hasLapsed (invoice_status u) (plan u) (updated_at u) (startOfDay now) = true)
    by (apply hasLapsed_true; exists due; split; assumption).
  clear due Hdue Hlt.
  rewrite get_users_run in Hresp. cbv zeta in Hresp.
  set (updates := lapsed_ids (startOfDay now) (select_users (users w))) in *.
  destruct (db_fails (queries w)); [discriminate|].
  destruct (0 <? Z.of_nat (length updates))%Z eqn:El.
  - destruct (db_fails (S (queries w))); [discriminate|].
    destruct (db_fails (S (S (queries w)))); [discriminate|].
    cbn [fst] in Hresp. injection Hresp as <-.
    apply select_users_elem in Hin.
    rewrite map_lookup_imap in Hin.
    destruct (users w !! id) as [u0|] eqn:Hu0; [|discriminate].
    cbn in Hin. injection Hin as <-.
    destruct (bool_decide (id ∈ updates)) eqn:Hd.
    + rewrite hasLapsed_other in Hlapsed by discriminate. discriminate.
    + apply bool_decide_eq_false in Hd. apply Hd.
      apply lapsed_ids_spec. exists u0. split; [|exact Hlapsed].
      apply select_users_elem. exact Hu0.
  - cbn [fst] in Hresp. injection Hresp as <-.
    assert (Hid : id ∈ updates) by (apply lapsed_ids_spec; exists u; split; assumption).
    destruct updates; [inversion Hid | discriminate].
Qed.

Lemma C6_listing_reflects_lapse_witness :
  ~ (exists dueDate,
        computeDueDate "pending" "Monthly" (ymd 2024 2 2) = Some dueDate /\
        dueDate < startOfDay (ymd 2024 2 2) /\
        ("pending" = "paid" \/ "pending" = "Free")).
Proof.
  apply (C6_listing_reflects_lapse Sample.db_up (ymd 2024 2 2) Sample.world0
           [(2, Sample.bob);
            (1, touch (ymd 2024 2 2) (set_invoice_status "pending" Sample.ann))]
           1 (touch (ymd 2024 2 2) (set_invoice_status "pending" Sample.ann))).
  - vm_compute. reflexivity.
  - right. left.
Defined.

(** C7.  A row whose status is neither "paid" nor "Free" has no due
    date, has not lapsed on any day, and is left as it is by the listing
    handler. *)
Theorem C7_other_status_never_lapses (u : user) :
  (invoice_status u === "paid") = false ->
  (invoice_status u === "Free") = false ->
  computeDueDate (invoice_status u) (plan u) (updated_at u) = None /\
  (forall today, hasLapsed (invoice_status u) (plan u) (updated_at u) today = false) /\
  (forall (db_fails : nat -> bool) (now : Z) (w : world) (id : Z),
      users w !! id = Some u ->
      users (get_users db_fails now w).2 !! id = Some u).
Proof.
  intros Hp Hf. apply strictEq_neq in Hp. apply strictEq_neq in Hf.
  split; [apply computeDueDate_other; assumption|].
  split; [intros today; apply hasLapsed_other; assumption|].
  intros db_fails now w id Hu.
  rewrite get_users_run. cbv zeta.
  set (updates := lapsed_ids (startOfDay now) (select_users (users w))).
  destruct (db_fails (queries w)); [exact Hu|].
  destruct (0 <? Z.of_nat (length updates))%Z; [|exact Hu].
  destruct (db_fails (S (queries w))); [exact Hu|].
  assert (Hkeep : (update_status_in now "pending" updates (users w)).1 !! id = Some u).
  { rewrite lookup_update_status_in, Hu. cbn.
    rewrite bool_decide_eq_false_2; [reflexivity|].
    intros Hin. apply lapsed_ids_spec in Hin as (u' & Hin & Hl).
    apply select_users_elem in Hin. rewrite Hu in Hin. injection Hin as <-.
    rewrite hasLapsed_other in Hl by assumption. discriminate. }
  destruct (db_fails (S (S (queries w)))); exact Hkeep.
Qed.

Lemma C7_other_status_never_lapses_witness :
  computeDueDate (invoice_status Sample.bob) (plan Sample.bob) (updated_at Sample.bob) = None /\
  (forall today,
      hasLapsed (invoice_status Sample.bob) (plan Sample.bob) (updated_at Sample.bob) today
      = false) /\
  (forall (db_fails : nat -> bool) (now : Z) (w : world) (id : Z),
      users w !! id = Some Sample.bob ->
      users (get_users db_fails now w).2 !! id = Some Sample.bob).
Proof.
  apply (C7_other_status_never_lapses Sample.bob).
  - reflexivity.
  - reflexivity.
Defined.

(** C9.  The reminder job ends normally, and the messages it hands to
    the transport are the reminders of all due rows, in order, followed
    by the summary: the same messages whichever of them the transport
    refuses. *)
Theorem C9_failed_send_does_not_stop_sweep
    (EMAIL_USER : string) (db_fails : nat -> bool)
    (smtp smtp' : list mail -> mail -> string + string) (now : Z) (w : world) :
  let due := List.filter (reminder_due (setHours0 now)) (select_paid (users w)) in
  let run := sendReminderEmails EMAIL_USER db_fails smtp now w in
  run.1 = Ret tt /\
  outbox run.2 =
    (if db_fails (queries w) then outbox w
     else outbox w ++ map (reminder_mail EMAIL_USER) due ++
          match due with
          | [] => []
          | _ :: _ => [summary_mail EMAIL_USER (map upcoming_of due)]
          end)%list /\
  outbox run.2 = outbox (sendReminderEmails EMAIL_USER db_fails smtp' now w).2.
Proof.
  cbv zeta.
  destruct (sendReminderEmails_run EMAIL_USER db_fails smtp now w) as (w1 & -> & _ & H1).
  destruct (sendReminderEmails_run EMAIL_USER db_fails smtp' now w) as (w2 & -> & _ & H2).
  cbn [fst snd]. rewrite H1, H2. repeat split; reflexivity.
Qed.

(** With a transport that refuses every message, both due subscribers
    of the sample table still get their send attempt on 8 February
    2024, and the summary is attempted as well. *)
Example sweep_with_transport_down :
  map mail_to
    (outbox (sendReminderEmails "ops@example.org" Sample.db_up Sample.smtp_down
               (ymd 2024 1 8 + 32400000) Sample.world1).2)
  = ["carol@example.org"; "dave@example.org"; "ops@example.org"].
Proof. vm_compute. reflexivity. Qed.

(** C10.  On a supplied status other than "paid" the status-update
    handler still hands a message to the transport, addressed to the
    subscriber, with neither subject nor body, and answers 200 "Status
    updated and email sent", the answer it gives for "paid". *)
Theorem C10_non_paid_status_still_mails
    (EMAIL_USER : string) (db_fails : nat -> bool)
    (smtp : list mail -> mail -> string + string)
    (now id : Z) (status : string) (u : user) (w : world) :
  (status === "paid") = false ->
  truthy status = true ->
  users w !! id = Some u ->
  db_fails (queries w) = false ->
  db_fails (S (queries w)) = false ->
  let run := update_status EMAIL_USER db_fails smtp now id (Some status) w in
  outbox run.2 = (outbox w ++ [mkMail EMAIL_USER (email u) None None])%list /\
  run.1 = Ret (mkResponse 200 (JMessage "Status updated and email sent")) /\
  (update_status EMAIL_USER db_fails smtp now id (Some "paid") w).1 = run.1.
Proof.
  intros Hs Ht Hu H0 H1. cbv zeta.
  rewrite (update_status_run EMAIL_USER db_fails smtp now id status u w Ht Hu H0 H1).
  rewrite (update_status_run EMAIL_USER db_fails smtp now id "paid" u w eq_refl Hu H0 H1).
  cbn [fst snd outbox]. unfold confirmation_mail at 1. rewrite Hs.
  repeat split; reflexivity.
Qed.

Lemma C10_non_paid_status_still_mails_witness :
  let run := update_status "ops@example.org" Sample.db_up Sample.smtp_up
               (ymd 2024 2 2) 2 (Some "cancelled") Sample.world0 in
  outbox run.2 =
    (outbox Sample.world0 ++ [mkMail "ops@example.org" (email Sample.bob) None None])%list /\
  run.1 = Ret (mkResponse 200 (JMessage "Status updated and email sent")) /\
  (update_status "ops@example.org" Sample.db_up Sample.smtp_up
     (ymd 2024 2 2) 2 (Some "paid") Sample.world0).1 = run.1.
Proof.
  apply (C10_non_paid_status_still_mails "ops@example.org" Sample.db_up Sample.smtp_up
           (ymd 2024 2 2) 2 "cancelled" Sample.bob Sample.world0).
  - reflexivity.
  - reflexivity.
  - vm_compute. reflexivity.
  - reflexivity.
  - reflexivity.
Defined.

End Claims.

(** * Further properties of the modelled code *)

(** ** Month lengths *)

Module CalendarFacts.
Import JsDate JsDateFacts Moment MomentFacts.

(** Folds the arithmetic on numerals that the goal contains. *)
Ltac numeral a :=
  lazymatch a with Z0 => idtac | Zpos _ => idtac | Zneg _ => idtac end.

Ltac fold_constants :=
  repeat first [ progress cbv iota | match goal with
    | |- context [Z.modulo ?a ?b] =>
        numeral a; numeral b;
        let v := eval vm_compute in (Z.modulo a b) in change (Z.modulo a b) with v
    | |- context [Z.div ?a ?b] =>
        numeral a; numeral b;
        let v := eval vm_compute in (Z.div a b) in change (Z.div a b) with v
    | |- context [Z.ltb ?a ?b] =>
        numeral a; numeral b;
        let v := eval vm_compute in (Z.ltb a b) in change (Z.ltb a b) with v
    | |- context [Z.add ?a ?b] =>
        numeral a; numeral b;
        let v := eval vm_compute in (Z.add a b) in change (Z.add a b) with v
    | |- context [Z.sub ?a ?b] =>
        numeral a; numeral b;
        let v := eval vm_compute in (Z.sub a b) in change (Z.sub a b) with v
    end ].

Ltac month_cases m :=
  let Hc := fresh "Hc" in
  assert (Hc : m = 0 \/ m = 1 \/ m = 2 \/ m = 3 \/ m = 4 \/ m = 5 \/ m = 6 \/ m = 7
               \/ m = 8 \/ m = 9 \/ m = 10 \/ m = 11) by lia;
  destruct Hc as [->|[->|[->|[->|[->|[->|[->|[->|[->|[->|[->| ->]]]]]]]]]]].

(** From the first of a month to the first of the next there are 28 to 31
    days; to the first of the sixth month after, 181 to 184; to the first
    of the twelfth, 365 or 366. *)
Lemma MakeDay_gap_1 (y m : Z) :
  0 <= m < 12 -> 28 <= MakeDay y (m + 1) 1 - MakeDay y m 1 <= 31.
Proof.
  intros Hm. unfold MakeDay, daysFromCivil. month_cases m; fold_constants;
    Z.div_mod_to_equations; lia.
Qed.

Lemma MakeDay_gap_6 (y m : Z) :
  0 <= m < 12 -> 181 <= MakeDay y (m + 6) 1 - MakeDay y m 1 <= 184.
Proof.
  intros Hm. unfold MakeDay, daysFromCivil. month_cases m; fold_constants;
    Z.div_mod_to_equations; lia.
Qed.

Lemma MakeDay_gap_12 (y m : Z) :
  0 <= m < 12 -> 365 <= MakeDay y (m + 12) 1 - MakeDay y m 1 <= 366.
Proof.
  intros Hm. unfold MakeDay, daysFromCivil. month_cases m; fold_constants;
    Z.div_mod_to_equations; lia.
Qed.

(** Within a 400-year era, a day lies before the start of the next
    March-based year. *)
Lemma yoe_next (doe : Z) :
  0 <= doe < 146097 ->
  let yoe := (doe - doe / 1460 + doe / 36524 - doe / 146096) / 365 in
  yoe < 399 -> doe < 365 * (yoe + 1) + (yoe + 1) / 4 - (yoe + 1) / 100.
Proof.
  intros H yoe. subst yoe. Z.div_mod_to_equations. lia.
Qed.

(** A day lies before the first of the month after its own. *)
Lemma date_within_month (z : Z) :
  let '(y, m, d) := civilFromDays z in z < MakeDay y (m + 1) 1.
Proof.
  unfold civilFromDays, MakeDay.
  set (z' := z + 719468).
  set (era := z' / 146097).
  set (doe := z' - era * 146097).
  assert (Hdoe : 0 <= doe < 146097)
    by (subst doe era; Z.div_mod_to_equations; lia).
  pose proof (yoe_bounds doe Hdoe) as Hy. cbv zeta in Hy.
  pose proof (yoe_next doe Hdoe) as Hn. cbv zeta in Hn.
  set (yoe := (doe - doe / 1460 + doe / 36524 - doe / 146096) / 365) in *.
  set (doy := doe - (365 * yoe + yoe / 4 - yoe / 100)) in *.
  destruct Hy as [Hyoe Hdoy].
  set (mp := (5 * doy + 2) / 153).
  assert (Hmp : 0 <= mp < 12) by (subst mp; Z.div_mod_to_equations; lia).
  assert (Hmpd : 153 * mp <= 5 * doy + 2 < 153 * mp + 153)
    by (subst mp; Z.div_mod_to_equations; lia).
  clearbody mp.
  assert (Hz : z = era * 146097 + doe - 719468) by (subst doe z'; lia).
  assert (Hdoe' : doe = doy + (365 * yoe + yoe / 4 - yoe / 100)) by (subst doy; lia).
  clearbody doy. clearbody yoe. clearbody doe. clearbody era. clear z'.
  unfold daysFromCivil.
  month_cases mp; fold_constants; Z.div_mod_to_equations; lia.
Qed.

Lemma getDate_le_month (t : Z) :
  MakeDay (getFullYear t) (getMonth t) 1 + getDate t - 1 = Day t /\
  Day t < MakeDay (getFullYear t) (getMonth t + 1) 1.
Proof.
  split.
  - pose proof (MakeDay_civil t) as H. unfold MakeDay in *. lia.
  - pose proof (date_within_month (Day t)) as H.
    unfold getFullYear, getMonth.
    destruct (civilFromDays (Day t)) as [[y m] d]. exact H.
Qed.

Lemma TimeWithinDay_range (t : Z) : 0 <= TimeWithinDay t < msPerDay.
Proof. unfold TimeWithinDay. apply Z.mod_pos_bound. reflexivity. Qed.

Lemma Day_MakeDate (d tm : Z) : 0 <= tm < msPerDay -> Day (MakeDate d tm) = d.
Proof.
  intros H. unfold Day, MakeDate, msPerDay in *. Z.div_mod_to_equations. lia.
Qed.

Lemma setHours0_MakeDate (d tm : Z) :
  0 <= tm < msPerDay -> setHours0 (MakeDate d tm) = MakeDate d 0.
Proof. intros H. unfold setHours0. rewrite Day_MakeDate by exact H. reflexivity. Qed.

Lemma getFullYear_setHours0 (t : Z) : getFullYear (setHours0 t) = getFullYear t.
Proof. unfold getFullYear. rewrite Day_setHours0. reflexivity. Qed.

Lemma getMonth_setHours0 (t : Z) : getMonth (setHours0 t) = getMonth t.
Proof. unfold getMonth. rewrite Day_setHours0. reflexivity. Qed.

(** Setting the month or the year commutes with dropping the time of
    day. *)
Lemma setHours0_setMonth (t m : Z) :
  setHours0 (setMonth t m) = setMonth (setHours0 t) m.
Proof.
  unfold setMonth, setMonth2.
  rewrite setHours0_MakeDate by apply TimeWithinDay_range.
  rewrite getFullYear_setHours0, getDate_setHours0, TimeWithinDay_setHours0.
  reflexivity.
Qed.

Lemma setHours0_setFullYear (t y : Z) :
  setHours0 (setFullYear t y) = setFullYear (setHours0 t) y.
Proof.
  unfold setFullYear.
  rewrite setHours0_MakeDate by apply TimeWithinDay_range.
  rewrite getMonth_setHours0, getDate_setHours0, TimeWithinDay_setHours0.
  reflexivity.
Qed.

(** Moment's month addition from a midnight, in days: the day of the
    month is kept or clamped, never pushed forward. *)
Lemma addMonths_days (t n : Z) :
  addMonths (setHours0 t) n =
  MakeDate (MakeDay (getFullYear t) (getMonth t + n) 1
            + Z.min (getDate t) (daysInMonth (getFullYear t) (getMonth t + n)) - 1) 0.
Proof.
  unfold addMonths, setMonth2.
  rewrite getFullYear_setHours0, getMonth_setHours0, getDate_setHours0,
    TimeWithinDay_setHours0.
  unfold MakeDay. f_equal. lia.
Qed.

End CalendarFacts.

(** ** The validity period bought by a payment *)

Section Validity.
Import JsDate JsDateFacts Moment MomentFacts StrFacts CalendarFacts.
Local Open Scope string_scope.

(** Days between a midnight and the date moment reaches by adding [n]
    months to it. *)
Lemma addMonths_gap (t n : Z) :
  addMonths (setHours0 t) n - setHours0 t =
  (MakeDay (getFullYear t) (getMonth t + n) 1 - MakeDay (getFullYear t) (getMonth t) 1
   + Z.min (getDate t) (daysInMonth (getFullYear t) (getMonth t + n)) - getDate t)
  * msPerDay.
Proof.
  rewrite addMonths_days. unfold setHours0 at 1.
  destruct (getDate_le_month t) as [<- _]. unfold MakeDate. lia.
Qed.

(** In the listing handler a "paid" row on a plan with one of the three
    keywords has a due date, 28 days or more after the day of
    [updated_at], and 31 days at most under "Monthly". *)
Lemma paid_due_date_bounds (plan : string) (d : Z) :
  includes plan "Monthly" || includes plan "6-Month" || includes plan "Yearly" = true ->
  exists dueDate,
    computeDueDate "paid" plan d = Some dueDate /\
    (28 * msPerDay <= dueDate - startOfDay d)%Z /\
    (includes plan "Monthly" = true -> (dueDate - startOfDay d <= 31 * msPerDay)%Z).
Proof.
  intros Hplan. unfold computeDueDate, startOfDay.
  change ("paid" === "paid") with true. change ("paid" === "Free") with false.
  cbn [andb].
  pose proof (getMonth_range d) as Hm.
  pose proof (getDate_range d) as Hd.
  pose proof (getDate_le_month d) as [Hday Hnext].
  pose proof (MakeDay_gap_1 (getFullYear d) (getMonth d) Hm) as G1.
  pose proof (MakeDay_gap_6 (getFullYear d) (getMonth d) Hm) as G6.
  pose proof (MakeDay_gap_12 (getFullYear d) (getMonth d) Hm) as G12.
  destruct (includes plan "Monthly") eqn:E1.
  { eexists. split; [reflexivity|]. rewrite addMonths_gap.
    pose proof (daysInMonth_ge_28 (getFullYear d) (getMonth d + 1)).
    unfold msPerDay. split; [|intros _]; lia. }
  destruct (includes plan "6-Month") eqn:E2.
  { eexists. split; [reflexivity|]. rewrite addMonths_gap.
    pose proof (daysInMonth_ge_28 (getFullYear d) (getMonth d + 6)).
    unfold msPerDay. split; [lia | discriminate]. }
  destruct (includes plan "Yearly") eqn:E3; [|discriminate].
  eexists. split; [reflexivity|]. unfold addYears. rewrite addMonths_gap.
  change (12 * 1)%Z with 12%Z.
  pose proof (daysInMonth_ge_28 (getFullYear d) (getMonth d + 12)).
  unfold msPerDay. split; [lia | discriminate].
Qed.

(** X1.  In the listing handler a "paid" row on a plan with one of the
    three keywords gets a due date at least 28 days after the day of
    [updated_at], and at most 31 days after it when the plan contains
    "Monthly". *)
Theorem paid_due_date_at_least_28_days (plan : string) (d : Z) :
  includes plan "Monthly" || includes plan "6-Month" || includes plan "Yearly" = true ->
  exists dueDate,
    computeDueDate "paid" plan d = Some dueDate /\
    (28 * msPerDay <= dueDate - startOfDay d)%Z /\
    (includes plan "Monthly" = true -> (dueDate - startOfDay d <= 31 * msPerDay)%Z).
Proof. apply paid_due_date_bounds. Qed.

Lemma paid_due_date_at_least_28_days_witness :
  exists dueDate,
    computeDueDate "paid" "6-Month Plan" Sample.jan31 = Some dueDate /\
    (28 * msPerDay <= dueDate - startOfDay Sample.jan31)%Z /\
    (includes "6-Month Plan" "Monthly" = true ->
     (dueDate - startOfDay Sample.jan31 <= 31 * msPerDay)%Z).
Proof.
  apply (paid_due_date_at_least_28_days "6-Month Plan" Sample.jan31).
  reflexivity.
Defined.

(** X2.  A row marked "paid" on a plan with one of the three keywords is
    not lapsed on any of the 28 days that follow the day of
    [updated_at]. *)
Theorem paid_not_lapsed_for_28_days (plan : string) (d now : Z) :
  includes plan "Monthly" || includes plan "6-Month" || includes plan "Yearly" = true ->
  (Day now <= Day d + 28)%Z ->
  hasLapsed "paid" plan d (startOfDay now) = false.
Proof.
  intros Hplan Hnow.
  destruct (paid_due_date_bounds plan d Hplan) as (due & Hdue & Hlo & _).
  unfold hasLapsed. rewrite Hdue. unfold isBefore. apply Z.ltb_ge.
  unfold startOfDay, setHours0, MakeDate, msPerDay in *. lia.
Qed.

Lemma paid_not_lapsed_for_28_days_witness :
  hasLapsed "paid" "Yearly" Sample.jan31 (startOfDay (ymd 2024 1 28)) = false.
Proof.
  apply (paid_not_lapsed_for_28_days "Yearly" Sample.jan31 (ymd 2024 1 28)).
  - reflexivity.
  - vm_compute. discriminate.
Defined.

(** The end date of the status-update handler, without its time of day, is
    the end date that the reminder job computes from the same instant. *)
Lemma statusUpdateEndDate_reminderEndDate (plan : string) (now : Z) :
  setHours0 (statusUpdateEndDate "paid" plan now) = reminderEndDate plan now.
Proof.
  unfold statusUpdateEndDate, reminderEndDate, getPlanDuration.
  change ("paid" === "paid") with true. cbv iota.
  destruct (includes plan "Monthly").
  { cbn [months years truthyNum default negb Z.eqb from_option].
    rewrite setHours0_setMonth, getMonth_setHours0. reflexivity. }
  destruct (includes plan "6-Month").
  { cbn [months years truthyNum default negb Z.eqb from_option].
    rewrite setHours0_setMonth, getMonth_setHours0. reflexivity. }
  destruct (includes plan "Yearly").
  { cbn [months years truthyNum default negb Z.eqb from_option].
    rewrite setHours0_setFullYear, getFullYear_setHours0. reflexivity. }
  reflexivity.
Qed.

(** X3.  The date up to which the confirmation mail promises validity is,
    for every plan and every instant, the end date towards which the
    reminder job counts for a row whose [updated_at] is that instant. *)
Theorem confirmation_date_is_reminder_end_date (plan : string) (now : Z) :
  toDateString (statusUpdateEndDate "paid" plan now) =
  toDateString (reminderEndDate plan now).
Proof.
  rewrite <- statusUpdateEndDate_reminderEndDate.
  unfold toDateString. rewrite Day_setHours0. reflexivity.
Qed.

End Validity.

(** ** The listing handler, beyond its answer *)

Section Listing.
Import JsDate JsDateFacts Moment MomentFacts StrFacts.
Local Open Scope string_scope.

(** The table that the listing handler leaves behind. *)
Lemma get_users_table (db_fails : nat -> bool) (now : Z) (w : world) :
  let updates := lapsed_ids (startOfDay now) (select_users (users w)) in
  users (get_users db_fails now w).2 =
    if negb (db_fails (queries w)) && (0 <? Z.of_nat (length updates))%Z
       && negb (db_fails (S (queries w)))
    then (update_status_in now "pending" updates (users w)).1
    else users w.
Proof.
  cbv zeta. rewrite get_users_run. cbv zeta.
  destruct (db_fails (queries w)); [reflexivity|].
  destruct (0 <? _)%Z; [|reflexivity].
  destruct (db_fails (S (queries w))); [reflexivity|].
  destruct (db_fails (S (S (queries w)))); reflexivity.
Qed.

(** X4.  The listing handler keeps the set of ids; a row it changes was
    lapsed, and ends up "pending" with [updated_at] at the current time
    and every other column as before.  It hands nothing to the mail
    transport. *)
Theorem get_users_frame (db_fails : nat -> bool) (now : Z) (w : world) (id : Z) :
  let w' := (get_users db_fails now w).2 in
  outbox w' = outbox w /\
  match users w !! id with
  | None => users w' !! id = None
  | Some u =>
      users w' !! id = Some u \/
      (hasLapsed (invoice_status u) (plan u) (updated_at u) (startOfDay now) = true /\
       users w' !! id =
         Some (mkUser (name u) (email u) (phone u) (plan u) (Price u) (invoice u)
                      "pending" now))
  end.
Proof.
  cbv zeta. split.
  - rewrite get_users_run. cbv zeta.
    destruct (db_fails (queries w)); [reflexivity|].
    destruct (0 <? _)%Z; [|reflexivity].
    destruct (db_fails (S (queries w))); [reflexivity|].
    destruct (db_fails (S (S (queries w)))); reflexivity.
  - rewrite get_users_table. cbv zeta.
    destruct (_ && _ && _).
    + rewrite lookup_update_status_in.
      destruct (users w !! id) as [u|] eqn:Hu; [|reflexivity].
      cbn. destruct (bool_decide _) eqn:Hd; [|left; reflexivity].
      right. apply bool_decide_eq_true in Hd.
      apply lapsed_ids_spec in Hd as (u' & Hin & Hl).
      apply select_users_elem in Hin. rewrite Hu in Hin. injection Hin as <-.
      split; [exact Hl | reflexivity].
    + destruct (users w !! id); [left|]; reflexivity.
Qed.

(** After a 200 answer no row of the table is lapsed. *)
Lemma get_users_200_none_lapsed (db_fails : nat -> bool) (now : Z) (w : world)
    (listed : list row) :
  (get_users db_fails now w).1 = Ret (mkResponse 200 (JUsers listed)) ->
  listed = select_users (users (get_users db_fails now w).2) /\
  lapsed_ids (startOfDay now) listed = [].
Proof.
  intros Hresp. rewrite get_users_table. rewrite get_users_run in Hresp.
  cbv zeta in *.
  set (updates := lapsed_ids (startOfDay now) (select_users (users w))) in *.
  destruct (db_fails (queries w)); [discriminate|].
  destruct (0 <? Z.of_nat (length updates))%Z eqn:El.
  - destruct (db_fails (S (queries w))); [discriminate|].
    destruct (db_fails (S (S (queries w)))); [discriminate|].
    injection Hresp as <-. split; [reflexivity|].
    apply elem_of_nil_inv. intros id Hid.
    apply lapsed_ids_spec in Hid as (u & Hin & Hl).
    apply select_users_elem in Hin.
    unfold update_status_in in Hin. cbn [fst] in Hin. rewrite map_lookup_imap in Hin.
    destruct (users w !! id) as [u0|] eqn:Hu0; [|discriminate].
    cbn in Hin. injection Hin as <-.
    destruct (bool_decide (id ∈ updates)) eqn:Hd.
    + rewrite hasLapsed_other in Hl by discriminate. discriminate.
    + apply bool_decide_eq_false in Hd. apply Hd.
      apply lapsed_ids_spec. exists u0. split; [|exact Hl].
      apply select_users_elem. exact Hu0.
  - injection Hresp as <-. split; [reflexivity|].
    change (updates = []). destruct updates; [reflexivity | discriminate].
Qed.

(** X5.  Listing twice on the same day changes nothing the second time:
    after a 200 answer, a second call whose first statement succeeds
    answers 200 with the same rows, sends a single statement and leaves
    the table as it is. *)
Theorem get_users_twice (db_fails db_fails' : nat -> bool) (now now' : Z) (w : world)
    (listed : list row) :
  (get_users db_fails now w).1 = Ret (mkResponse 200 (JUsers listed)) ->
  startOfDay now' = startOfDay now ->
  db_fails' (queries (get_users db_fails now w).2) = false ->
  let w1 := (get_users db_fails now w).2 in
  get_users db_fails' now' w1 = (Ret (mkResponse 200 (JUsers listed)), bump 1 w1).
Proof.
  intros Hresp Hday Hq. cbv zeta.
  destruct (get_users_200_none_lapsed db_fails now w listed Hresp) as [Hl Hnone].
  rewrite get_users_run. cbv zeta. rewrite Hq, Hday, <- Hl, Hnone.
  reflexivity.
Qed.

Lemma get_users_twice_witness :
  let w1 := (get_users Sample.db_up (ymd 2024 2 2) Sample.world0).2 in
  get_users Sample.db_up (ymd 2024 2 2 + 3600000) w1 =
    (Ret (mkResponse 200
       (JUsers [(2, Sample.bob);
                (1, touch (ymd 2024 2 2) (set_invoice_status "pending" Sample.ann))])),
     bump 1 w1).
Proof.
  apply (get_users_twice Sample.db_up Sample.db_up (ymd 2024 2 2) (ymd 2024 2 2 + 3600000)
           Sample.world0).
  - vm_compute. reflexivity.
  - vm_compute. reflexivity.
  - reflexivity.
Defined.

(** X6.  A 500 answer of the listing handler does not mean that nothing
    was written: when the UPDATE succeeds and the re-fetch fails, the
    answer is "Final query error" and every lapsed row is already
    "pending". *)
Theorem get_users_refetch_failure (db_fails : nat -> bool) (now : Z) (w : world)
    (id : Z) (u : user) :
  users w !! id = Some u ->
  hasLapsed (invoice_status u) (plan u) (updated_at u) (startOfDay now) = true ->
  db_fails (queries w) = false ->
  db_fails (S (queries w)) = false ->
  db_fails (S (S (queries w))) = true ->
  let run := get_users db_fails now w in
  run.1 = Ret (mkResponse 500 (JError "Final query error")) /\
  invoice_status <$> users run.2 !! id = Some "pending".
Proof.
  intros Hu Hl H0 H1 H2. cbv zeta.
  assert (Hid : id ∈ lapsed_ids (startOfDay now) (select_users (users w))).
  { apply lapsed_ids_spec. exists u. split; [|exact Hl].
    apply select_users_elem. exact Hu. }
  rewrite get_users_run. cbv zeta. rewrite H0, H1, H2.
  destruct (lapsed_ids _ _) as [|i l] eqn:E; [inversion Hid|].
  change (0 <? Z.of_nat (length (i :: l)))%Z with true. cbv iota.
  split; [reflexivity|].
  cbn [snd bump with_users users]. rewrite lookup_update_status_in, Hu. cbn.
  rewrite bool_decide_eq_true_2 by exact Hid. reflexivity.
Qed.

Lemma get_users_refetch_failure_witness :
  let run := get_users (fun n => Nat.eqb n 2) (ymd 2024 2 2) Sample.world0 in
  run.1 = Ret (mkResponse 500 (JError "Final query error")) /\
  invoice_status <$> users run.2 !! 1 = Some "pending".
Proof.
  apply (get_users_refetch_failure (fun n => Nat.eqb n 2) (ymd 2024 2 2) Sample.world0
           1 Sample.ann).
  - vm_compute. reflexivity.
  - vm_compute. reflexivity.
  - reflexivity.
  - reflexivity.
  - reflexivity.
Defined.

End Listing.

(** ** The status-update handler on every path *)

Section StatusUpdate.
Import JsDate JsDateFacts Moment MomentFacts StrFacts CalendarFacts.
Local Open Scope string_scope.

Variable EMAIL_USER : string.
Variable db_fails : nat -> bool.

(** Every path of the handler, with the world it leaves. *)
Lemma update_status_cases (smtp : list mail -> mail -> string + string)
    (now id : Z) (status : option string) (w : world) :
  update_status EMAIL_USER db_fails smtp now id status w =
    match status with
    | None => (Ret (mkResponse 400 (JError "Invoice status required")), w)
    | Some s =>
        if negb (truthy s)
        then (Ret (mkResponse 400 (JError "Invoice status required")), w)
        else if db_fails (queries w)
        then (Ret (mkResponse 500 (JError "Database error")), bump 1 w)
        else match users w !! id with
             | None => (Ret (mkResponse 404 (JError "User not found")), bump 1 w)
             | Some u =>
                 if db_fails (S (queries w))
                 then (Ret (mkResponse 500 (JError "Update failed")), bump 2 w)
                 else
                   let m := confirmation_mail EMAIL_USER s now u in
                   (Ret (mkResponse 200 (JMessage "Status updated and email sent")),
                    mkWorld (<[id := touch now (set_invoice_status s u)]> (users w))
                      (S (S (queries w))) (outbox w ++ [m])%list
                      (console w ++
                         [match smtp (outbox w) m with
                          | inr info => LogEmailSent info
                          | inl err => ErrEmailSending err
                          end])%list)
             end
    end.
Proof.
  destruct status as [s|]; [|reflexivity].
  destruct (truthy s) eqn:Ht; [|unfold update_status; rewrite Ht; reflexivity].
  cbn [negb].
  destruct (db_fails (queries w)) eqn:H0.
  { unfold update_status. rewrite Ht. cbn [negb]. unfold bind, query. rewrite H0.
    reflexivity. }
  destruct (users w !! id) as [u|] eqn:Hu.
  - destruct (db_fails (S (queries w))) eqn:H1.
    + unfold update_status. rewrite Ht. cbn [negb]. unfold bind at 1. unfold query.
      rewrite H0. rewrite (select_by_id_Some _ _ _ Hu).
      unfold bind, exec. cbn [queries]. rewrite H1. reflexivity.
    + apply update_status_run; assumption.
  - unfold update_status. rewrite Ht. cbn [negb]. unfold bind, query. rewrite H0.
    unfold select_by_id. rewrite Hu. reflexivity.
Qed.

(** X7.  Unless the answer is 200, the status-update handler has written
    nothing and handed nothing to the mail transport; a missing or empty
    status is refused before any statement is sent. *)
Theorem update_status_errors_are_clean (smtp : list mail -> mail -> string + string)
    (now id : Z) (status : option string) (w : world) (r : response) :
  (update_status EMAIL_USER db_fails smtp now id status w).1 = Ret r ->
  status_code r <> 200%Z ->
  let w' := (update_status EMAIL_USER db_fails smtp now id status w).2 in
  users w' = users w /\ outbox w' = outbox w /\
  (default EmptyString status = EmptyString ->
   status_code r = 400%Z /\ queries w' = queries w).
Proof.
  rewrite update_status_cases. intros Hr Hcode. cbv zeta.
  destruct status as [s|].
  - destruct (truthy s) eqn:Ht; cbn [negb] in *.
    + assert (Hs : s <> EmptyString) by (apply truthy_nonempty; exact Ht).
      destruct (db_fails (queries w)); [repeat split; try reflexivity; intros; contradiction|].
      destruct (users w !! id); [|repeat split; try reflexivity; intros; contradiction].
      destruct (db_fails (S (queries w))); [repeat split; try reflexivity; intros; contradiction|].
      cbn in Hr. injection Hr as <-. cbn in Hcode. contradiction.
    + cbn in Hr. injection Hr as <-. repeat split; reflexivity.
  - cbn in Hr. injection Hr as <-. repeat split; reflexivity.
Qed.

End StatusUpdate.

Lemma update_status_errors_are_clean_witness :
  let w' := (update_status "ops@example.org" Sample.db_up Sample.smtp_up
               (JsDate.ymd 2024 2 2) 7 (Some "paid"%string) Sample.world0).2 in
  users w' = users Sample.world0 /\ outbox w' = outbox Sample.world0 /\
  (default EmptyString (Some "paid"%string) = EmptyString ->
   status_code (mkResponse 404 (JError "User not found")) = 400%Z /\
   queries w' = queries Sample.world0).
Proof.
  apply (update_status_errors_are_clean "ops@example.org" Sample.db_up Sample.smtp_up
           (JsDate.ymd 2024 2 2) 7 (Some "paid"%string) Sample.world0
           (mkResponse 404 (JError "User not found"))).
  - vm_compute. reflexivity.
  - vm_compute. discriminate.
Defined.

Section StatusUpdate2.
Import JsDate JsDateFacts Moment MomentFacts StrFacts CalendarFacts.
Local Open Scope string_scope.

(** X8.  What the mail transport answers is invisible outside the console:
    the answer of the status-update handler, the table, the statements
    sent and the messages handed over are the same for any two
    transports. *)
Theorem update_status_ignores_transport
    (EMAIL_USER : string) (db_fails : nat -> bool)
    (smtp smtp' : list mail -> mail -> string + string)
    (now id : Z) (status : option string) (w : world) :
  let run := update_status EMAIL_USER db_fails smtp now id status w in
  let run' := update_status EMAIL_USER db_fails smtp' now id status w in
  run.1 = run'.1 /\ users run.2 = users run'.2 /\
  queries run.2 = queries run'.2 /\ outbox run.2 = outbox run'.2.
Proof.
  cbv zeta. rewrite !update_status_cases.
  destruct status as [s|]; [|repeat split; reflexivity].
  destruct (negb (truthy s)); [repeat split; reflexivity|].
  destruct (db_fails (queries w)); [repeat split; reflexivity|].
  destruct (users w !! id); [|repeat split; reflexivity].
  destruct (db_fails (S (queries w))); repeat split; reflexivity.
Qed.

(** X9.  When a row is marked "paid" on a day of the month up to the 28th
    and its plan has one of the three keywords, the confirmation mail
    promises validity up to the very date that the listing handler will
    use as due date of the rewritten row. *)
Theorem confirmation_promises_listing_due_date
    (EMAIL_USER : string) (db_fails : nat -> bool)
    (smtp : list mail -> mail -> string + string)
    (now id : Z) (u : user) (w : world) :
  users w !! id = Some u ->
  db_fails (queries w) = false ->
  db_fails (S (queries w)) = false ->
  (getDate now <= 28)%Z ->
  includes (plan u) "Monthly" || includes (plan u) "6-Month" || includes (plan u) "Yearly"
    = true ->
  let w' := (update_status EMAIL_USER db_fails smtp now id (Some "paid") w).2 in
  exists u' dueDate,
    users w' !! id = Some u' /\
    computeDueDate (invoice_status u') (plan u') (updated_at u') = Some dueDate /\
    outbox w' =
      (outbox w ++
       [mkMail EMAIL_USER (email u) (Some PaymentConfirmedSubject)
          (Some (PaymentConfirmedHtml (name u) (toDateString now)
                   (toDateString dueDate)))])%list.
Proof.
  intros Hu H0 H1 Hd Hplan. cbv zeta.
  rewrite update_status_cases. change (negb (truthy "paid")) with false.
  cbv iota. rewrite H0, Hu, H1. cbn [snd users outbox].
  exists (touch now (set_invoice_status "paid" u)).
  exists (reminderEndDate (plan u) now).
  split; [apply lookup_insert_eq|].
  assert (Hspec : planDurationSpec (plan u) <> None).
  { unfold planDurationSpec.
    destruct (includes (plan u) "Monthly"); [discriminate|].
    destruct (includes (plan u) "6-Month"); [discriminate|].
    destruct (includes (plan u) "Yearly"); [discriminate|].
    discriminate Hplan. }
  split.
  - cbn [touch set_invoice_status invoice_status plan updated_at].
    apply reminderEndDate_agrees; assumption.
  - unfold confirmation_mail. change ("paid" === "paid") with true. cbv iota.
    rewrite <- statusUpdateEndDate_reminderEndDate.
    unfold toDateString. rewrite Day_setHours0. reflexivity.
Qed.

Lemma confirmation_promises_listing_due_date_witness :
  let w' := (update_status "ops@example.org" Sample.db_up Sample.smtp_up
               (ymd 2024 2 2) 2 (Some "paid") Sample.world0).2 in
  exists u' dueDate,
    users w' !! 2 = Some u' /\
    computeDueDate (invoice_status u') (plan u') (updated_at u') = Some dueDate /\
    outbox w' =
      (outbox Sample.world0 ++
       [mkMail "ops@example.org" (email Sample.bob) (Some PaymentConfirmedSubject)
          (Some (PaymentConfirmedHtml (name Sample.bob) (toDateString (ymd 2024 2 2))
                   (toDateString dueDate)))])%list.
Proof.
  apply (confirmation_promises_listing_due_date "ops@example.org" Sample.db_up
           Sample.smtp_up (ymd 2024 2 2) 2 Sample.bob Sample.world0).
  - vm_compute. reflexivity.
  - reflexivity.
  - reflexivity.
  - vm_compute. discriminate.
  - reflexivity.
Defined.

End StatusUpdate2.

(** ** The reminder job, day by day *)

Section Reminders.
Import JsDate JsDateFacts Moment MomentFacts StrFacts CalendarFacts.
Local Open Scope string_scope.

(** X10.  A row is due for a reminder on one day at most: two runs of the
    job that both take the branch [diffInDays === 2] for the same row
    happen on the same day. *)
Theorem reminder_due_on_one_day (r : row) (now1 now2 : Z) :
  reminder_due (setHours0 now1) r = true ->
  reminder_due (setHours0 now2) r = true ->
  Day now1 = Day now2.
Proof.
  unfold reminder_due. rewrite !isReminderDue_iff. intros H1 H2.
  unfold setHours0, MakeDate, msPerDay in *. lia.
Qed.

Lemma reminder_due_on_one_day_witness :
  Day (ymd 2024 1 8 + 32400000) = Day (ymd 2024 1 8 + 75600000).
Proof.
  apply (reminder_due_on_one_day (3, Sample.carol)
           (ymd 2024 1 8 + 32400000) (ymd 2024 1 8 + 75600000)).
  - vm_compute. reflexivity.
  - vm_compute. reflexivity.
Defined.

(** X11.  For a plan with none of the three keywords the job takes the
    day of [updated_at] as end date, so it sends no reminder for a row
    whose [updated_at] is not in the future. *)
Theorem unmatched_plan_no_reminder (r : row) (now : Z) :
  includes (plan r.2) "Monthly" || includes (plan r.2) "6-Month"
    || includes (plan r.2) "Yearly" = false ->
  (updated_at r.2 <= now)%Z ->
  reminder_due (setHours0 now) r = false.
Proof.
  intros Hplan Hpast. apply not_true_is_false. unfold reminder_due.
  rewrite isReminderDue_iff. unfold reminderEndDate.
  apply orb_false_iff in Hplan as [Hplan H3]. apply orb_false_iff in Hplan as [H1 H2].
  rewrite H1, H2, H3.
  pose proof (setHours0_mono _ _ Hpast). unfold msPerDay. lia.
Qed.

Lemma unmatched_plan_no_reminder_witness :
  reminder_due (setHours0 (ymd 2024 5 3)) (5, Sample.erin) = false.
Proof.
  apply (unmatched_plan_no_reminder (5, Sample.erin) (ymd 2024 5 3)).
  - reflexivity.
  - vm_compute. discriminate.
Defined.

(** X12.  The reminder job only reads the table: whatever the connection
    and the transport do, it ends normally, the table is as before and
    one statement was sent. *)
Theorem sendReminderEmails_reads_only
    (EMAIL_USER : string) (db_fails : nat -> bool)
    (smtp : list mail -> mail -> string + string) (now : Z) (w : world) :
  let run := sendReminderEmails EMAIL_USER db_fails smtp now w in
  run.1 = Ret tt /\ users run.2 = users w /\ queries run.2 = S (queries w).
Proof.
  cbv zeta.
  assert (H : exists w',
             sendReminderEmails EMAIL_USER db_fails smtp now w = (Ret tt, w') /\
             users w' = users w /\ queries w' = S (queries w)).
  { unfold sendReminderEmails.
    unfold bind at 1. unfold query.
    destruct (db_fails (queries w)).
    { eexists. split; [reflexivity|]. split; reflexivity. }
    unfold bind at 1.
    edestruct (for_of_reminder_step EMAIL_USER smtp (setHours0 now)
                 (select_paid (users w)) [])
      as (w' & -> & Hu & Hq & _).
    cbn [users queries] in Hu, Hq.
    destruct (0 <? _)%Z.
    - unfold try_catch, bind, sendMail, console_log, ret.
      destruct (smtp _ _); eexists; (split; [reflexivity|]);
        cbn [users queries]; split; assumption.
    - exists w'. split; [reflexivity|]. split; assumption. }
  destruct H as (w' & -> & Hu & Hq). repeat split; assumption.
Qed.

End Reminders.

(** ** The token check *)

Section Token.
Import StrFacts StrMore.
Local Open Scope string_scope.

Lemma slice_append (pat rest : string) :
  slice (String.length pat) (String.append pat rest) = rest.
Proof. induction pat as [|c pat IH]; [destruct rest; reflexivity | exact IH]. Qed.

Lemma replace_unfold (s pat rep : string) :
  replace s pat rep =
  if startsWith s pat then String.append rep (slice (String.length pat) s)
  else match s with
       | EmptyString => EmptyString
       | String c s' => String c (replace s' pat rep)
       end.
Proof. destruct s; reflexivity. Qed.

(** Replacing a pattern that opens the string leaves what follows it. *)
Lemma replace_prefix (pat rest rep : string) :
  replace (String.append pat rest) pat rep = String.append rep rest.
Proof.
  assert (H : startsWith (String.append pat rest) pat = true)
    by (apply startsWith_spec; exists rest; reflexivity).
  rewrite replace_unfold, H, slice_append. reflexivity.
Qed.

Lemma includes_cons_false (c : ascii) (s pat : string) :
  includes (String c s) pat = false ->
  startsWith (String c s) pat = false /\ includes s pat = false.
Proof. cbn [includes]. intros H. apply orb_false_iff in H. exact H. Qed.

(** A string without the pattern is left as it is. *)
Lemma replace_absent (s pat rep : string) :
  includes s pat = false -> replace s pat rep = s.
Proof.
  induction s as [|c s IH]; intros H.
  - cbn [includes] in H. apply orb_false_iff in H as [H _].
    rewrite replace_unfold, H. reflexivity.
  - apply includes_cons_false in H as [H1 H2].
    rewrite replace_unfold, H1, IH by exact H2. reflexivity.
Qed.

(** X13.  A request whose header carries no token that [jwt.verify]
    accepts never reaches the route: the answer is 401 or 400 and the
    world is as before. *)
Theorem verifyToken_blocks {W R : Type}
    (jwt_verify : string -> option string) (deny : Z -> string -> R)
    (authorization : option string) (next : W -> outcome R * W) (w : W) :
  bearer_token authorization ≫= jwt_verify = None ->
  exists code error,
    (code = 401%Z \/ code = 400%Z) /\
    verifyToken jwt_verify deny authorization next w = (Ret (deny code error), w).
Proof.
  intros H. unfold verifyToken.
  destruct (bearer_token authorization) as [token|]; cbn in H.
  - destruct (truthy token); cbn [negb].
    + rewrite H. exists 400%Z. eexists. split; [right; reflexivity | reflexivity].
    + exists 401%Z. eexists. split; [left; reflexivity | reflexivity].
  - exists 401%Z. eexists. split; [left; reflexivity | reflexivity].
Qed.

Lemma verifyToken_blocks_witness :
  exists code error,
    (code = 401%Z \/ code = 400%Z) /\
    update_status_route Sample2.jwt_verify "ops@example.org" Sample.db_up Sample.smtp_up
      (Some "Bearer stolen") (JsDate.ymd 2024 2 2) 1 (Some "paid") Sample.world0
    = (Ret (mkResponse code (JError error)), Sample.world0).
Proof.
  apply (verifyToken_blocks Sample2.jwt_verify
           (fun code error => mkResponse code (JError error))
           (Some "Bearer stolen")
           (update_status "ops@example.org" Sample.db_up Sample.smtp_up
              (JsDate.ymd 2024 2 2) 1 (Some "paid")) Sample.world0).
  vm_compute. reflexivity.
Defined.

(** X14.  The token is what follows "Bearer " at the start of the header,
    and the prefix is optional: a header that carries the bare token is
    treated like the header "Bearer " followed by that token. *)
Theorem verifyToken_bearer_optional {W R : Type}
    (jwt_verify : string -> option string) (deny : Z -> string -> R)
    (token : string) (next : W -> outcome R * W) :
  includes token "Bearer " = false ->
  bearer_token (Some (String.append "Bearer " token)) = Some token /\
  verifyToken jwt_verify deny (Some token) next =
  verifyToken jwt_verify deny (Some (String.append "Bearer " token)) next.
Proof.
  intros H.
  assert (H1 : bearer_token (Some (String.append "Bearer " token)) = Some token).
  { unfold bearer_token. cbn [fmap option_fmap option_map].
    rewrite replace_prefix. reflexivity. }
  assert (H2 : bearer_token (Some token) = Some token).
  { unfold bearer_token. cbn [fmap option_fmap option_map].
    rewrite replace_absent by exact H. reflexivity. }
  split; [exact H1|]. unfold verifyToken. rewrite H1, H2. reflexivity.
Qed.

Lemma verifyToken_bearer_optional_witness :
  bearer_token (Some (String.append "Bearer " "good-token")) = Some "good-token" /\
  verifyToken Sample2.jwt_verify site_deny (Some "good-token")
    (get_blogs Sample.db_up) =
  verifyToken Sample2.jwt_verify site_deny (Some (String.append "Bearer " "good-token"))
    (get_blogs Sample.db_up).
Proof.
  apply (verifyToken_bearer_optional Sample2.jwt_verify site_deny "good-token"
           (get_blogs Sample.db_up)).
  reflexivity.
Defined.

End Token.

(** ** Deleting a subscriber *)

Section DeleteUser.
Import StrFacts.
Local Open Scope string_scope.

Variable EMAIL_USER : string.
Variable db_fails : nat -> bool.
Variable smtp : list account_mail -> account_mail -> string + string.

(** Every path of the route, with the world it leaves. *)
Lemma delete_user_cases (userId : Z) (w : site) :
  delete_user EMAIL_USER db_fails smtp userId w =
    if db_fails (site_queries w)
    then (Ret (mkSiteResponse 500 (SError "Database error")), site_bump 1 w)
    else match db_users (site_db w) !! userId with
         | None => (Ret (mkSiteResponse 404 (SError "User not found")), site_bump 1 w)
         | Some u =>
             if db_fails (S (site_queries w))
             then (Ret (mkSiteResponse 500 (SMessage "Delete failed")), site_bump 2 w)
             else
               let m := mkAccountMail EMAIL_USER (email u) CancelledSubject
                          (CancelledHtml (name u)) in
               (Ret (mkSiteResponse 200
                       (SMessage "User deleted and cancellation email sent")),
                mkSite (with_db_users (delete userId (db_users (site_db w))) (site_db w))
                  (S (S (site_queries w))) (site_outbox w ++ [m])%list
                  (site_console w ++
                     [match smtp (site_outbox w) m with
                      | inr info => LogCancellationSent info
                      | inl err => ErrMailSending err
                      end])%list)
         end.
Proof.
  unfold delete_user. unfold site_bind at 1. unfold site_query.
  destruct (db_fails (site_queries w)) eqn:H0; [reflexivity|].
  unfold select_by_id.
  destruct (db_users (site_db w) !! userId) as [u|] eqn:Hu; [|reflexivity].
  unfold site_bind at 1. unfold site_exec. cbn [site_queries site_db].
  destruct (db_fails (S (site_queries w))) eqn:H1; [reflexivity|].
  unfold delete_user_by_id. rewrite Hu. cbn [Z.eqb].
  unfold site_bind, site_try, site_send, site_log, respond, site_ret.
  cbn [site_queries site_db site_outbox site_console].
  destruct (smtp _ _); reflexivity.
Qed.

(** X15.  Deleting an existing subscriber over a working connection
    removes that row and no other, leaves the other tables alone, hands
    one cancellation message for the deleted address to the transport and
    answers 200, whether or not the transport accepts the message. *)
Theorem delete_user_removes_one_row (userId : Z) (u : user) (w : site) :
  db_users (site_db w) !! userId = Some u ->
  db_fails (site_queries w) = false ->
  db_fails (S (site_queries w)) = false ->
  let run := delete_user EMAIL_USER db_fails smtp userId w in
  run.1 = Ret (mkSiteResponse 200 (SMessage "User deleted and cancellation email sent")) /\
  site_db run.2 = with_db_users (delete userId (db_users (site_db w))) (site_db w) /\
  db_users (site_db run.2) !! userId = None /\
  (forall id, id <> userId ->
     db_users (site_db run.2) !! id = db_users (site_db w) !! id) /\
  site_outbox run.2 =
    (site_outbox w ++
     [mkAccountMail EMAIL_USER (email u) CancelledSubject (CancelledHtml (name u))])%list.
Proof.
  intros Hu H0 H1. cbv zeta. rewrite delete_user_cases, H0, Hu, H1.
  cbn [fst snd site_db site_outbox with_db_users db_users].
  repeat split.
  - apply lookup_delete_eq.
  - intros id Hne. apply lookup_delete_ne. congruence.
Qed.

(** X16.  Unless the answer is 200, the route has deleted nothing and
    handed nothing to the transport; an unknown id is answered 404. *)
Theorem delete_user_errors_are_clean (userId : Z) (w : site) (r : site_response) :
  (delete_user EMAIL_USER db_fails smtp userId w).1 = Ret r ->
  site_status r <> 200%Z ->
  let w' := (delete_user EMAIL_USER db_fails smtp userId w).2 in
  site_db w' = site_db w /\ site_outbox w' = site_outbox w /\
  (db_fails (site_queries w) = false ->
   db_users (site_db w) !! userId = None -> site_status r = 404%Z).
Proof.
  rewrite delete_user_cases. intros Hr Hcode. cbv zeta.
  destruct (db_fails (site_queries w)).
  { repeat split; try reflexivity. discriminate. }
  destruct (db_users (site_db w) !! userId).
  - destruct (db_fails (S (site_queries w))).
    + repeat split; try reflexivity. discriminate.
    + cbn in Hr. injection Hr as <-. cbn in Hcode. contradiction.
  - cbn in Hr. injection Hr as <-. repeat split; reflexivity.
Qed.

End DeleteUser.

Lemma delete_user_removes_one_row_witness :
  let run := delete_user "ops@example.org" Sample.db_up Sample2.smtp_down 2 Sample2.site0 in
  run.1 = Ret (mkSiteResponse 200
                 (SMessage "User deleted and cancellation email sent"%string)) /\
  site_db run.2 =
    with_db_users (delete 2 (db_users (site_db Sample2.site0))) (site_db Sample2.site0) /\
  db_users (site_db run.2) !! 2 = None /\
  (forall id, id <> 2 ->
     db_users (site_db run.2) !! id = db_users (site_db Sample2.site0) !! id) /\
  site_outbox run.2 =
    (site_outbox Sample2.site0 ++
     [mkAccountMail "ops@example.org" (email Sample.bob) CancelledSubject
        (CancelledHtml (name Sample.bob))])%list.
Proof.
  apply (delete_user_removes_one_row "ops@example.org" Sample.db_up Sample2.smtp_down
           2 Sample.bob Sample2.site0).
  - vm_compute. reflexivity.
  - reflexivity.
  - reflexivity.
Defined.

Lemma delete_user_errors_are_clean_witness :
  let w' := (delete_user "ops@example.org" Sample.db_up Sample2.smtp_up 9
               Sample2.site0).2 in
  site_db w' = site_db Sample2.site0 /\ site_outbox w' = site_outbox Sample2.site0 /\
  (Sample.db_up (site_queries Sample2.site0) = false ->
   db_users (site_db Sample2.site0) !! 9 = None ->
   site_status (mkSiteResponse 404 (SError "User not found"%string)) = 404%Z).
Proof.
  apply (delete_user_errors_are_clean "ops@example.org" Sample.db_up Sample2.smtp_up
           9 Sample2.site0 (mkSiteResponse 404 (SError "User not found"%string))).
  - vm_compute. reflexivity.
  - vm_compute. discriminate.
Defined.

(** ** Creating a subscriber *)

Section SubmitUser.
Import JsDate JsDateFacts Moment MomentFacts StrFacts.
Local Open Scope string_scope.

Variable EMAIL_USER : string.
Variable db_fails : nat -> bool.
Variable smtp : list account_mail -> account_mail -> string + string.
Variable auto_increment : gset Z -> Z.

(** Every path of the route, as seen from outside. *)
Lemma submit_user_observed (valid : bool) (Price' email' name' phone' plan' : string)
    (now : Z) (random : Q) (w : site) :
  let tbl := db_users (site_db w) in
  let u := new_subscriber Price' email' name' phone' plan' now random in
  observe (submit_user EMAIL_USER db_fails smtp auto_increment valid
             Price' email' name' phone' plan' now random w) =
    if negb valid
    then (Ret (mkSiteResponse 400 SInvalidData), site_db w, site_outbox w)
    else if db_fails (site_queries w)
    then (Ret (mkSiteResponse 500 (SMessage "Database error")), site_db w, site_outbox w)
    else match duplicate_answer email' phone' (select_email_or_phone email' phone' tbl) with
         | Some answer => (Ret answer, site_db w, site_outbox w)
         | None =>
             if db_fails (S (site_queries w))
             then (Ret (mkSiteResponse 500 (SMessage "Insert failed")),
                   site_db w, site_outbox w)
             else (Ret (mkSiteResponse 200
                          (SInvoice (invoice u) "Invoice generated and email sent")),
                   with_db_users (<[auto_increment (dom tbl) := u]> tbl) (site_db w),
                   (site_outbox w ++
                    [mkAccountMail EMAIL_USER email' PurchaseSubject
                       (PurchaseHtml name' (invoice u) plan' Price')])%list)
         end.
Proof.
  cbv zeta.
  match goal with |- observe ?run = ?obs =>
    assert (H : exists q c, run = (obs.1.1, mkSite obs.1.2 q obs.2 c))
  end.
  { unfold submit_user.
    destruct valid;
      [|exists (site_queries w), (site_console w); destruct w; reflexivity]. cbn [negb].
    unfold site_bind at 1. unfold site_log at 1.
    unfold site_bind at 1. unfold site_query. cbn [site_queries site_db site_outbox].
    destruct (db_fails (site_queries w)) eqn:H0; [do 2 eexists; reflexivity|].
    destruct (duplicate_answer _ _ _) as [answer|]; [do 2 eexists; reflexivity|].
    unfold site_bind at 1. unfold site_exec. cbn [site_queries site_db site_outbox].
    destruct (db_fails (S (site_queries w))) eqn:H1; [do 2 eexists; reflexivity|].
    unfold insert_user, insert_row. cbn [site_queries site_db site_outbox].
    unfold site_bind, site_try, site_send, site_log, respond, site_ret.
    cbn [site_queries site_db site_outbox site_console].
    destruct (smtp _ _); do 2 eexists; reflexivity. }
  destruct H as (q & c & ->). unfold observe. cbn [fst snd site_db site_outbox].
  match goal with |- (?a.1.1, ?a.1.2, ?a.2) = _ => destruct a as [[? ?] ?] end.
  reflexivity.
Qed.

(** With a row for the address or the number, the route stops at the
    duplicate check; without one, it goes on. *)
Lemma duplicate_answer_found (email' phone' : string) (tbl : gmap Z user) (i : Z) (u : user) :
  tbl !! i = Some u ->
  email u = email' \/ phone u = phone' ->
  exists field message,
    duplicate_answer email' phone' (select_email_or_phone email' phone' tbl) =
      Some (mkSiteResponse 400 (SField field message)) /\
    (field = "both" \/ field = "email" \/ field = "phone").
Proof.
  intros Hu Hdup.
  assert (Hin : (i, u) ∈ select_email_or_phone email' phone' tbl).
  { unfold select_email_or_phone. apply list_elem_of_filter. split; [exact Hdup|].
    apply elem_of_map_to_list. exact Hu. }
  destruct (select_email_or_phone email' phone' tbl) as [|existing rest] eqn:E;
    [inversion Hin|].
  assert (Hex : existing ∈ select_email_or_phone email' phone' tbl)
    by (rewrite E; left).
  unfold select_email_or_phone in Hex. apply list_elem_of_filter in Hex as [Hex _].
  cbn [duplicate_answer].
  destruct (String.eqb_spec (email existing.2) email') as [He|He];
    destruct (String.eqb_spec (phone existing.2) phone') as [Hp|Hp];
    unfold strictEq;
    rewrite ?(proj2 (String.eqb_eq _ _) He), ?(proj2 (String.eqb_neq _ _) He),
            ?(proj2 (String.eqb_eq _ _) Hp), ?(proj2 (String.eqb_neq _ _) Hp);
    cbn [andb].
  - do 2 eexists. split; [reflexivity | auto].
  - do 2 eexists. split; [reflexivity | auto].
  - do 2 eexists. split; [reflexivity | auto].
  - tauto.
Qed.

Lemma duplicate_answer_None (email' phone' : string) (tbl : gmap Z user) :
  duplicate_answer email' phone' (select_email_or_phone email' phone' tbl) = None ->
  forall i u, tbl !! i = Some u -> email u <> email' /\ phone u <> phone'.
Proof.
  intros Hnone i u Hu.
  destruct (String.eqb_spec (email u) email') as [He|He].
  { destruct (duplicate_answer_found email' phone' tbl i u Hu (or_introl He))
      as (f & m & H & _). congruence. }
  destruct (String.eqb_spec (phone u) phone') as [Hp|Hp].
  { destruct (duplicate_answer_found email' phone' tbl i u Hu (or_intror Hp))
      as (f & m & H & _). congruence. }
  split; assumption.
Qed.



(** X19.  An accepted submission creates one row under the id handed out:
    its status is "Free" exactly for the plan "Free Trial", otherwise
    "pending"; the invoice number of the answer is the one stored; and the
    listing handler will find the row lapsed exactly when the plan is
    "Free Trial" and the day is more than seven days after the
    submission. *)
Theorem submit_user_creates_subscriber
    (Price' email' name' phone' plan' : string) (now : Z) (random : Q) (w : site) :
  db_fails (site_queries w) = false ->
  db_fails (S (site_queries w)) = false ->
  select_email_or_phone email' phone' (db_users (site_db w)) = [] ->
  let run := submit_user EMAIL_USER db_fails smtp auto_increment true
               Price' email' name' phone' plan' now random w in
  let id := auto_increment (dom (db_users (site_db w))) in
  exists u,
    db_users (site_db run.2) !! id = Some u /\
    run.1 = Ret (mkSiteResponse 200
                   (SInvoice (invoice u) "Invoice generated and email sent")) /\
    invoice_status u = (if plan' === "Free Trial" then "Free" else "pending") /\
    (forall now',
        hasLapsed (invoice_status u) (plan u) (updated_at u) (startOfDay now') =
        (plan' === "Free Trial")
        && (startOfDay now + 7 * msPerDay <? startOfDay now')%Z).
Proof.
  intros H0 H1 Hnew. cbv zeta.
  pose proof (submit_user_observed true Price' email' name' phone' plan' now random w) as H.
  cbv zeta in H. cbn [negb] in H. rewrite H0, H1 in H.
  assert (Hd : duplicate_answer email' phone'
                 (select_email_or_phone email' phone' (db_users (site_db w))) = None)
    by (rewrite Hnew; reflexivity).
  rewrite Hd in H. unfold observe in H. injection H as Hr Hdb _.
  exists (new_subscriber Price' email' name' phone' plan' now random).
  split; [rewrite Hdb; apply lookup_insert_eq|].
  split; [exact Hr|]. split; [reflexivity|].
  intros now'. unfold hasLapsed, computeDueDate.
  cbn [new_subscriber invoice_status plan updated_at].
  destruct (plan' === "Free Trial") eqn:Ep.
  - change ("Free" === "paid") with false. change ("Free" === "Free") with true.
    cbn [andb]. rewrite addDays_shift. reflexivity.
  - change ("pending" === "paid") with false. change ("pending" === "Free") with false.
    reflexivity.
Qed.

End SubmitUser.


(** The two sample subscribers share neither address nor number. *)
Lemma sample_contacts_unique : unique_contacts (db_users (site_db Sample2.site0)).
Proof.
  intros i j u v Hi Hj Hsame. cbn in Hi, Hj.
  apply lookup_insert_Some in Hi as [[<- <-]|[Hi1 Hi]];
    apply lookup_insert_Some in Hj as [[<- <-]|[Hj1 Hj]]; try reflexivity.
  - apply lookup_insert_Some in Hj as [[<- <-]|[_ Hj]]; [|rewrite lookup_empty in Hj; discriminate].
    destruct Hsame; discriminate.
  - apply lookup_insert_Some in Hi as [[<- <-]|[_ Hi]]; [|rewrite lookup_empty in Hi; discriminate].
    destruct Hsame; discriminate.
  - apply lookup_insert_Some in Hi as [[<- <-]|[_ Hi]]; [|rewrite lookup_empty in Hi; discriminate].
    apply lookup_insert_Some in Hj as [[<- <-]|[_ Hj]]; [|rewrite lookup_empty in Hj; discriminate].
    reflexivity.
Qed.


Lemma submit_user_creates_subscriber_witness :
  let run := submit_user "ops@example.org" Sample.db_up Sample2.smtp_down Sample2.next_id
               true "$5" "zed@example.org" "Zed" "5550009" "Free Trial"
               (JsDate.ymd 2024 2 2) (1 # 2) Sample2.site0 in
  let id := Sample2.next_id (dom (db_users (site_db Sample2.site0))) in
  exists u,
    db_users (site_db run.2) !! id = Some u /\
    run.1 = Ret (mkSiteResponse 200
                   (SInvoice (invoice u) "Invoice generated and email sent")) /\
    invoice_status u = (if "Free Trial" === "Free Trial" then "Free" else "pending")%string /\
    (forall now',
        hasLapsed (invoice_status u) (plan u) (updated_at u) (Moment.startOfDay now') =
        ("Free Trial" === "Free Trial")
        && (Moment.startOfDay (JsDate.ymd 2024 2 2) + 7 * JsDate.msPerDay
            <? Moment.startOfDay now')%Z).
Proof.
  apply (submit_user_creates_subscriber "ops@example.org" Sample.db_up Sample2.smtp_down
           Sample2.next_id "$5" "zed@example.org" "Zed" "5550009" "Free Trial"
           (JsDate.ymd 2024 2 2) (1 # 2) Sample2.site0).
  - reflexivity.
  - reflexivity.
  - vm_compute. reflexivity.
Defined.



(** ** The administrator login *)

Section AdminLogin.
Local Open Scope string_scope.

(** X21.  The login route hands out a token only for an address that has
    a row in [admin] and a password that [bcrypt.compare] accepts against
    the stored hash of that row; it never writes to the tables and never
    sends mail. *)
Theorem admin_login_token_needs_password
    (db_fails : nat -> bool) (bcrypt_compare : string -> string -> bool)
    (jwt_sign : Z -> string -> string)
    (email' password' : string) (w : site) (message token : string) :
  (admin_login db_fails bcrypt_compare jwt_sign email' password' w).1 =
    Ret (mkSiteResponse 200 (SToken message token)) ->
  let w' := (admin_login db_fails bcrypt_compare jwt_sign email' password' w).2 in
  (exists id a,
      db_admin (site_db w) !! id = Some a /\
      admin_email a = email' /\
      bcrypt_compare password' (admin_password a) = true /\
      token = jwt_sign id (admin_email a)) /\
  site_db w' = site_db w /\ site_outbox w' = site_outbox w.
Proof.
  cbv zeta.
  assert (H : exists q c r,
             admin_login db_fails bcrypt_compare jwt_sign email' password' w =
               (Ret r, mkSite (site_db w) q (site_outbox w) c) /\
             (site_status r = 200%Z ->
              exists id a,
                db_admin (site_db w) !! id = Some a /\ admin_email a = email' /\
                bcrypt_compare password' (admin_password a) = true /\
                site_body r = SToken "Login successful" (jwt_sign id (admin_email a)))).
  { unfold admin_login. unfold site_bind at 1. unfold site_query.
    destruct (db_fails (site_queries w)).
    { do 3 eexists. split; [reflexivity|]. cbn. discriminate. }
    unfold site_bind at 1. unfold site_log.
    cbn [site_db site_queries site_outbox site_console].
    destruct (select_admin email' (db_admin (site_db w))) as [|[id a] rest] eqn:E.
    { do 3 eexists. split; [reflexivity|]. cbn. discriminate. }
    assert (Hin : (id, a) ∈ select_admin email' (db_admin (site_db w)))
      by (rewrite E; left).
    unfold select_admin in Hin. apply list_elem_of_filter in Hin as [Hm Hin].
    apply elem_of_map_to_list in Hin. cbn [fst snd] in *.
    destruct (bcrypt_compare password' (admin_password a)) eqn:Hb; cbn [negb].
    - do 3 eexists. split; [reflexivity|]. intros _. exists id, a.
      repeat split; assumption.
    - do 3 eexists. split; [reflexivity|]. cbn. discriminate. }
  destruct H as (q & c & r & -> & Hr). cbn [fst snd site_db site_outbox].
  intros [= ->]. destruct (Hr eq_refl) as (id & a & Ha & He & Hb & Hbody).
  cbn in Hbody. injection Hbody as _ ->.
  split; [|split; reflexivity]. exists id, a. repeat split; assumption.
Qed.

Lemma admin_login_token_needs_password_witness :
  let w' := (admin_login Sample.db_up Sample2.bcrypt_compare Sample2.jwt_sign
               "root@example.org" "secret" Sample2.site0).2 in
  (exists id a,
      db_admin (site_db Sample2.site0) !! id = Some a /\
      admin_email a = "root@example.org" /\
      Sample2.bcrypt_compare "secret" (admin_password a) = true /\
      "token-for-root@example.org" = Sample2.jwt_sign id (admin_email a)) /\
  site_db w' = site_db Sample2.site0 /\ site_outbox w' = site_outbox Sample2.site0.
Proof.
  apply (admin_login_token_needs_password Sample.db_up Sample2.bcrypt_compare
           Sample2.jwt_sign "root@example.org" "secret" Sample2.site0
           "Login successful" "token-for-root@example.org").
  vm_compute. reflexivity.
Defined.

End AdminLogin.

(** ** Reading blogs *)

Section ReadBlogs.

#[local] Instance id_desc_total {A} : Total (@id_desc A).
Proof. intros r1 r2. unfold id_desc. lia. Qed.

#[local] Instance id_desc_trans {A} : Transitive (@id_desc A).
Proof. intros r1 r2 r3. unfold id_desc. lia. Qed.

(** The rows of a table in descending order of id: the same rows, each
    before every row with a smaller id. *)
Lemma sorted_rows {A} (tbl : gmap Z A) :
  let sorted := merge_sort id_desc (map_to_list tbl) in
  sorted ≡ₚ map_to_list tbl /\ StronglySorted id_desc sorted /\ NoDup sorted.*1.
Proof.
  cbv zeta.
  pose proof (merge_sort_Permutation id_desc (map_to_list tbl)) as Hp.
  split; [exact Hp|]. split; [apply StronglySorted_merge_sort; apply _|].
  rewrite Hp. apply NoDup_fst_map_to_list.
Qed.

Lemma NoDup_fst_app_neq {A} (l1 l2 : list (Z * A)) (r1 r2 : Z * A) :
  NoDup (l1 ++ l2).*1 -> r1 ∈ l1 -> r2 ∈ l2 -> r1.1 <> r2.1.
Proof.
  rewrite fmap_app. intros Hnd H1 H2 Heq.
  apply NoDup_app in Hnd as (_ & Hdisj & _).
  apply (Hdisj r1.1).
  - apply list_elem_of_fmap. exists r1. split; [reflexivity | exact H1].
  - rewrite Heq. apply list_elem_of_fmap. exists r2. split; [reflexivity | exact H2].
Qed.



Lemma filter_has_section_joined (id : Z) (b : blog) (ss : list (Z * blog_section)) :
  List.filter has_section
    ((fun r : Z * blog_section =>
        mkJoinRow id (title b) (image_url b) (intro b)
          (Some r.1) (heading r.2) (content r.2)) <$> ss)
  = (fun r : Z * blog_section =>
       mkJoinRow id (title b) (image_url b) (intro b)
         (Some r.1) (heading r.2) (content r.2)) <$> ss.
Proof. induction ss as [|r ss IH]; [reflexivity|]. cbn. rewrite IH. reflexivity. Qed.

Lemma sections_of_elem (id : Z) (tbl : gmap Z blog_section) (sid : Z) (s : blog_section) :
  (sid, s) ∈ sections_of id tbl <-> tbl !! sid = Some s /\ blog_id s = id.
Proof.
  unfold sections_of. rewrite list_elem_of_filter, elem_of_map_to_list. cbn. tauto.
Qed.

(** The answer of [GET /blogs/:id] over a working connection. *)
Lemma blog_by_id_answer (db_fails : nat -> bool) (blogId' : Z) (w : site) :
  db_fails (site_queries w) = false ->
  (blog_by_id db_fails blogId' w).1 =
    match db_blogs (site_db w) !! blogId' with
    | None => Ret (mkSiteResponse 404 (SMessage "Blog not found"))
    | Some b =>
        Ret (mkSiteResponse 200
               (SBlog (mkBlogView blogId' (title b) (image_url b) (intro b)
                         ((fun r : Z * blog_section =>
                             mkSectionView r.1 (heading r.2) (content r.2))
                            <$> sections_of blogId' (db_sections (site_db w))))))
    end.
Proof.
  intros H0. unfold blog_by_id, site_bind, site_query. rewrite H0.
  unfold select_blog_join.
  destruct (db_blogs (site_db w) !! blogId') as [b|]; [|reflexivity].
  destruct (sections_of blogId' (db_sections (site_db w))) as [|s ss] eqn:E;
    [reflexivity|].
  pose proof (filter_has_section_joined blogId' b (s :: ss)) as Hf.
  rewrite fmap_cons in Hf |- *.
  unfold respond, site_ret. cbn [fst]. unfold blog_of_rows.
  rewrite Hf, !fmap_cons, <- list_fmap_compose.
  reflexivity.
Qed.

(** X23.  [GET /blogs/:id] regroups the rows of the join into the blog
    and its sections: for a blog of the table it answers with the id and
    the three columns of that blog and with exactly its sections, each
    with its id, heading and content; for an id without a blog it answers
    404. *)
Theorem blog_by_id_regroups (db_fails : nat -> bool) (blogId' : Z) (w : site) :
  db_fails (site_queries w) = false ->
  let views :=
    (fun r : Z * blog_section => mkSectionView r.1 (heading r.2) (content r.2))
      <$> sections_of blogId' (db_sections (site_db w)) in
  (blog_by_id db_fails blogId' w).1 =
    match db_blogs (site_db w) !! blogId' with
    | None => Ret (mkSiteResponse 404 (SMessage "Blog not found"))
    | Some b =>
        Ret (mkSiteResponse 200
               (SBlog (mkBlogView blogId' (title b) (image_url b) (intro b) views)))
    end /\
  (forall v, v ∈ views <->
     exists s, db_sections (site_db w) !! sv_id v = Some s /\ blog_id s = blogId' /\
               sv_heading v = heading s /\ sv_content v = content s).
Proof.
  intros H0. cbv zeta. split; [apply blog_by_id_answer; exact H0|].
  intros v. rewrite list_elem_of_fmap. split.
  - intros ([sid s] & -> & Hin). apply sections_of_elem in Hin as [Hs Hb].
    exists s. cbn. repeat split; assumption.
  - intros (s & Hs & Hb & Hh & Hc). exists (sv_id v, s). split.
    + destruct v. cbn in *. subst. reflexivity.
    + apply sections_of_elem. split; assumption.
Qed.

Lemma blog_by_id_regroups_witness :
  let views :=
    (fun r : Z * blog_section => mkSectionView r.1 (heading r.2) (content r.2))
      <$> sections_of 1 (db_sections (site_db Sample2.site0)) in
  (blog_by_id Sample.db_up 1 Sample2.site0).1 =
    match db_blogs (site_db Sample2.site0) !! 1 with
    | None => Ret (mkSiteResponse 404 (SMessage "Blog not found"))
    | Some b =>
        Ret (mkSiteResponse 200
               (SBlog (mkBlogView 1 (title b) (image_url b) (intro b) views)))
    end /\
  (forall v, v ∈ views <->
     exists s, db_sections (site_db Sample2.site0) !! sv_id v = Some s /\ blog_id s = 1 /\
               sv_heading v = heading s /\ sv_content v = content s).
Proof.
  apply (blog_by_id_regroups Sample.db_up 1 Sample2.site0). reflexivity.
Defined.

End ReadBlogs.

(** ** Deleting a blog *)

Section DeleteBlog.

Variable db_fails : nat -> bool.

Lemma lookup_delete_sections_of (id sid : Z) (tbl : gmap Z blog_section) :
  delete_sections_of id tbl !! sid =
  match tbl !! sid with
  | Some s => if decide (blog_id s = id) then None else Some s
  | None => None
  end.
Proof.
  unfold delete_sections_of. rewrite map_lookup_filter.
  destruct (tbl !! sid) as [s|]; [|reflexivity]. cbn.
  destruct (decide (blog_id s = id)) as [He|Hne].
  - rewrite option_guard_False; [reflexivity | cbn; tauto].
  - rewrite option_guard_True; [reflexivity | exact Hne].
Qed.

(** Every path of the route, as seen from outside. *)
Lemma delete_blog_observed (blogId' : Z) (w : site) :
  let db := site_db w in
  let db1 := with_db_sections (delete_sections_of blogId' (db_sections db)) db in
  observe (delete_blog db_fails blogId' w) =
    if db_fails (site_queries w)
    then (Ret (mkSiteResponse 500 (SErrorDetails "Failed to delete blog sections")),
          db, site_outbox w)
    else if db_fails (S (site_queries w))
    then (Ret (mkSiteResponse 500 (SErrorDetails "Failed to delete blog")),
          db1, site_outbox w)
    else (Ret (mkSiteResponse 200
                 (SMessage "Blog and related sections deleted successfully")),
          with_db_blogs (delete blogId' (db_blogs db)) db1, site_outbox w).
Proof.
  cbv zeta.
  match goal with |- observe ?run = ?obs =>
    assert (H : exists q c, run = (obs.1.1, mkSite obs.1.2 q obs.2 c))
  end.
  { unfold delete_blog. unfold site_bind at 1. unfold site_exec at 1.
    destruct (db_fails (site_queries w)); [do 2 eexists; reflexivity|].
    unfold site_bind, site_exec. cbn [site_db site_queries site_outbox site_console].
    destruct (db_fails (S (site_queries w))); do 2 eexists; reflexivity. }
  destruct H as (q & c & ->). unfold observe. cbn [fst snd site_db site_outbox].
  match goal with |- (?a.1.1, ?a.1.2, ?a.2) = _ => destruct a as [[? ?] ?] end.
  reflexivity.
Qed.

(** X24.  Sections are deleted before their blog, so the route never
    leaves a section without a blog: if every section belongs to a blog
    of the table before the call, the same holds after it, on every path,
    also when the second statement fails. *)
Theorem delete_blog_keeps_sections_attached (blogId' : Z) (w : site) :
  sections_attached (site_db w) ->
  sections_attached (site_db (delete_blog db_fails blogId' w).2).
Proof.
  intros Hatt.
  pose proof (delete_blog_observed blogId' w) as H. cbv zeta in H. unfold observe in H.
  destruct (db_fails (site_queries w)); [injection H as _ -> _; exact Hatt|].
  destruct (db_fails (S (site_queries w))); injection H as _ -> _;
    intros sid s Hs; cbn [db_sections db_blogs with_db_sections with_db_blogs] in *;
    rewrite lookup_delete_sections_of in Hs;
    destruct (db_sections (site_db w) !! sid) as [s0|] eqn:E; try discriminate;
    destruct (decide (blog_id s0 = blogId')); try discriminate;
    injection Hs as <-.
  - exact (Hatt sid s0 E).
  - rewrite lookup_delete_ne by congruence. exact (Hatt sid s0 E).
Qed.

(** X25.  Over a working connection the route answers 200 whether or not
    the blog exists; afterwards the blog and all its sections are gone,
    and every other blog, every section of another blog and the other
    tables are as before. *)
Theorem delete_blog_removes_blog_and_sections (blogId' : Z) (w : site) :
  db_fails (site_queries w) = false ->
  db_fails (S (site_queries w)) = false ->
  let run := delete_blog db_fails blogId' w in
  run.1 = Ret (mkSiteResponse 200
                 (SMessage "Blog and related sections deleted successfully")) /\
  db_blogs (site_db run.2) !! blogId' = None /\
  (forall id, id <> blogId' ->
     db_blogs (site_db run.2) !! id = db_blogs (site_db w) !! id) /\
  (forall sid,
     db_sections (site_db run.2) !! sid =
     match db_sections (site_db w) !! sid with
     | Some s => if decide (blog_id s = blogId') then None else Some s
     | None => None
     end) /\
  db_users (site_db run.2) = db_users (site_db w) /\
  db_admin (site_db run.2) = db_admin (site_db w).
Proof.
  intros H0 H1. cbv zeta.
  pose proof (delete_blog_observed blogId' w) as H. cbv zeta in H. unfold observe in H.
  rewrite H0, H1 in H. injection H as -> -> _.
  cbn [db_sections db_blogs db_users db_admin with_db_sections with_db_blogs].
  split; [reflexivity|]. split; [apply lookup_delete_eq|].
  split; [intros id Hne; apply lookup_delete_ne; congruence|].
  split; [intros sid; apply lookup_delete_sections_of|].
  split; reflexivity.
Qed.

End DeleteBlog.

(** In the sample tables every section belongs to a blog. *)
Lemma sample_sections_attached : sections_attached (site_db Sample2.site0).
Proof.
  intros sid s Hs. cbn in Hs.
  repeat (apply lookup_insert_Some in Hs as [[<- <-]|[_ Hs]];
          [cbn; eexists; vm_compute; reflexivity|]).
  rewrite lookup_empty in Hs. discriminate.
Qed.

Lemma delete_blog_keeps_sections_attached_witness :
  sections_attached
    (site_db (delete_blog (fun n => Nat.eqb n 1) 1 Sample2.site0).2).
Proof.
  apply (delete_blog_keeps_sections_attached (fun n => Nat.eqb n 1) 1 Sample2.site0).
  exact sample_sections_attached.
Defined.

Lemma delete_blog_removes_blog_and_sections_witness :
  let run := delete_blog Sample.db_up 1 Sample2.site0 in
  run.1 = Ret (mkSiteResponse 200
                 (SMessage "Blog and related sections deleted successfully")) /\
  db_blogs (site_db run.2) !! 1 = None /\
  (forall id, id <> 1 ->
     db_blogs (site_db run.2) !! id = db_blogs (site_db Sample2.site0) !! id) /\
  (forall sid,
     db_sections (site_db run.2) !! sid =
     match db_sections (site_db Sample2.site0) !! sid with
     | Some s => if decide (blog_id s = 1) then None else Some s
     | None => None
     end) /\
  db_users (site_db run.2) = db_users (site_db Sample2.site0) /\
  db_admin (site_db run.2) = db_admin (site_db Sample2.site0).
Proof.
  apply (delete_blog_removes_blog_and_sections Sample.db_up 1 Sample2.site0);
    reflexivity.
Defined.

(** ** Adding a blog *)

Section AddBlog.
Import StrFacts.

Variable db_fails : nat -> bool.
Variable auto_increment : gset Z -> Z.

(** Every path of the route, as seen from outside. *)
Lemma add_blog_observed (title' image' intro' : option string)
    (sections : option (list req_section)) (w : site) :
  let db := site_db w in
  let bid := auto_increment (dom (db_blogs db)) in
  let db1 := with_db_blogs (<[bid := mkBlog title' image' intro']> (db_blogs db)) db in
  observe (add_blog db_fails auto_increment title' image' intro' sections w) =
    match (if truthyStr title' then sections else None) with
    | None => (Ret (mkSiteResponse 400 (SError "Title and sections are required")),
               db, site_outbox w)
    | Some ss =>
        if (Z.of_nat (length ss) =? 0)
        then (Ret (mkSiteResponse 400 (SError "At least one section is required")),
              db, site_outbox w)
        else if db_fails (site_queries w)
        then (Ret (mkSiteResponse 500 (SError "Database error while checking blog")),
              db, site_outbox w)
        else if (0 <? Z.of_nat (length (select_blog_ids_by_title
                                          (default EmptyString title') (db_blogs db))))
        then (Ret (mkSiteResponse 409 (SError "Blog with this title already exists")),
              db, site_outbox w)
        else if db_fails (S (site_queries w))
        then (Ret (mkSiteResponse 500 (SError "Failed to insert blog")), db, site_outbox w)
        else if db_fails (S (S (site_queries w)))
        then (Ret (mkSiteResponse 500 (SError "Failed to insert sections")),
              db1, site_outbox w)
        else (Ret (mkSiteResponse 200
                     (SBlogAdded "Blog and sections added successfully" bid)),
              with_db_sections
                (insert_rows auto_increment
                   ((fun s => mkSection bid (rs_heading s) (rs_content s)) <$> ss)
                   (db_sections db)) db1,
              site_outbox w)
    end.
Proof.
  cbv zeta.
  match goal with |- observe ?run = ?obs =>
    assert (H : exists q c, run = (obs.1.1, mkSite obs.1.2 q obs.2 c))
  end.
  { unfold add_blog.
    destruct (if truthyStr title' then sections else None) as [ss|];
      [|exists (site_queries w), (site_console w); destruct w; reflexivity].
    destruct (Z.of_nat (length ss) =? 0);
      [exists (site_queries w), (site_console w); destruct w; reflexivity|].
    unfold site_bind at 1. unfold site_query.
    destruct (db_fails (site_queries w)); [do 2 eexists; reflexivity|].
    destruct (0 <? _); [do 2 eexists; reflexivity|].
    unfold site_bind at 1. unfold site_exec at 1.
    cbn [site_db site_queries site_outbox site_console].
    destruct (db_fails (S (site_queries w))); [do 2 eexists; reflexivity|].
    unfold insert_row. unfold site_bind, site_exec.
    cbn [site_db site_queries site_outbox site_console].
    destruct (db_fails (S (S (site_queries w)))); do 2 eexists; reflexivity. }
  destruct H as (q & c & ->). unfold observe. cbn [fst snd site_db site_outbox].
  match goal with |- (?a.1.1, ?a.1.2, ?a.2) = _ => destruct a as [[? ?] ?] end.
  reflexivity.
Qed.

(** X26.  A request that is answered 400 or 409 writes nothing; a request
    without a title, with an empty title or without an array of sections
    is answered 400. *)
Theorem add_blog_rejections_write_nothing (title' image' intro' : option string)
    (sections : option (list req_section)) (w : site) (r : site_response) :
  (add_blog db_fails auto_increment title' image' intro' sections w).1 = Ret r ->
  let w' := (add_blog db_fails auto_increment title' image' intro' sections w).2 in
  (site_status r = 400 \/ site_status r = 409 -> site_db w' = site_db w) /\
  (truthyStr title' = false \/ sections = None -> site_status r = 400).
Proof.
  intros Hr. cbv zeta.
  pose proof (add_blog_observed title' image' intro' sections w) as H.
  cbv zeta in H. unfold observe in H. rewrite Hr in H.
  destruct (truthyStr title') eqn:Ht; [destruct sections as [ss|]|].
  - destruct (Z.of_nat (length ss) =? 0).
    { injection H as -> -> _. split; [reflexivity|]. intros [|]; discriminate. }
    destruct (db_fails (site_queries w)).
    { injection H as -> -> _. split; [reflexivity|]. intros [|]; discriminate. }
    destruct (0 <? _).
    { injection H as -> -> _. split; [reflexivity|]. intros [|]; discriminate. }
    destruct (db_fails (S (site_queries w))).
    { injection H as -> -> _. split; [reflexivity|]. intros [|]; discriminate. }
    destruct (db_fails (S (S (site_queries w)))).
    { injection H as -> -> _. split; [cbn; intros [|]; discriminate|].
      intros [|]; discriminate. }
    injection H as -> -> _. split; [cbn; intros [|]; discriminate|].
    intros [|]; discriminate.
  - injection H as -> -> _. split; reflexivity.
  - injection H as -> -> _. split; reflexivity.
Qed.

(** X27.  If no two blogs share a title and the id handed out is not in
    use, the same holds after the route, whatever it was sent and
    whatever it answered. *)
Theorem add_blog_keeps_titles_unique (title' image' intro' : option string)
    (sections : option (list req_section)) (w : site) :
  unique_titles (db_blogs (site_db w)) ->
  auto_increment (dom (db_blogs (site_db w))) ∉ dom (db_blogs (site_db w)) ->
  unique_titles
    (db_blogs (site_db (add_blog db_fails auto_increment title' image' intro'
                          sections w).2)).
Proof.
  intros Huniq Hfresh.
  pose proof (add_blog_observed title' image' intro' sections w) as H.
  cbv zeta in H. unfold observe in H.
  destruct (truthyStr title') eqn:Ht; [|injection H as _ -> _; exact Huniq].
  destruct sections as [ss|]; [|injection H as _ -> _; exact Huniq].
  destruct (Z.of_nat (length ss) =? 0); [injection H as _ -> _; exact Huniq|].
  destruct (db_fails (site_queries w)); [injection H as _ -> _; exact Huniq|].
  destruct (0 <? _) eqn:Hsel; [injection H as _ -> _; exact Huniq|].
  destruct (db_fails (S (site_queries w))); [injection H as _ -> _; exact Huniq|].
  assert (Hdb : db_blogs (site_db (add_blog db_fails auto_increment title' image' intro'
                                     (Some ss) w).2)
                = <[auto_increment (dom (db_blogs (site_db w))) :=
                      mkBlog title' image' intro']> (db_blogs (site_db w))).
  { destruct (db_fails (S (S (site_queries w)))); injection H as _ -> _; reflexivity. }
  rewrite Hdb. clear H Hdb.
  destruct title' as [t|]; [|discriminate Ht]. cbn [default from_option] in Hsel. unfold id in Hsel.
  assert (Hnone : forall i b, db_blogs (site_db w) !! i = Some b -> title b <> Some t).
  { intros i b Hb Htitle.
    assert (Hin : i ∈ select_blog_ids_by_title t (db_blogs (site_db w))).
    { unfold select_blog_ids_by_title. apply list_elem_of_fmap. exists (i, b).
      split; [reflexivity|]. apply list_elem_of_filter. split; [exact Htitle|].
      apply elem_of_map_to_list. exact Hb. }
    destruct (select_blog_ids_by_title t (db_blogs (site_db w)));
      [inversion Hin | apply Z.ltb_ge in Hsel; cbn [length] in Hsel; lia]. }
  set (k := auto_increment (dom (db_blogs (site_db w)))) in *.
  intros i j b c t' Hi Hj Hb Hc.
  destruct (decide (i = k)) as [->|Hik]; destruct (decide (j = k)) as [->|Hjk].
  - reflexivity.
  - rewrite lookup_insert_eq in Hi. rewrite lookup_insert_ne in Hj by congruence.
    injection Hi as <-. cbn in Hb. injection Hb as <-.
    destruct (Hnone j c Hj Hc).
  - rewrite lookup_insert_eq in Hj. rewrite lookup_insert_ne in Hi by congruence.
    injection Hj as <-. cbn in Hc. injection Hc as <-.
    destruct (Hnone i b Hi Hb).
  - rewrite lookup_insert_ne in Hi, Hj by congruence.
    exact (Huniq i j b c t' Hi Hj Hb Hc).
Qed.

Lemma filter_all {A} (P : A -> Prop) `{forall x, Decision (P x)} (l : list A) :
  (forall x, x ∈ l -> P x) -> filter P l = l.
Proof.
  induction l as [|x l IH]; intros Hall; [reflexivity|].
  rewrite filter_cons_True by (apply Hall; left).
  rewrite IH; [reflexivity|]. intros y Hy. apply Hall. right. exact Hy.
Qed.

(** Rows inserted under ids that are not in use join the table without
    touching what it holds. *)
Lemma insert_rows_fresh {V} (vs : list V) (tbl : gmap Z V) :
  fresh_ids auto_increment ->
  exists ids,
    length ids = length vs /\
    map_to_list (insert_rows auto_increment vs tbl) ≡ₚ zip ids vs ++ map_to_list tbl /\
    (forall k v, tbl !! k = Some v -> insert_rows auto_increment vs tbl !! k = Some v).
Proof.
  intros Hfresh. revert tbl. induction vs as [|v vs IH]; intros tbl.
  - exists []. split; [reflexivity|]. split; [reflexivity|]. intros k v H. exact H.
  - cbn [insert_rows]. unfold insert_row at 1. cbn [fst].
    set (k := auto_increment (dom tbl)).
    assert (Hk : tbl !! k = None) by (apply not_elem_of_dom; apply Hfresh).
    destruct (IH (<[k := v]> tbl)) as (ids & Hlen & Hperm & Hold).
    exists (k :: ids). split; [cbn; rewrite Hlen; reflexivity|]. split.
    + rewrite Hperm, map_to_list_insert by exact Hk. cbn [zip zip_with].
      rewrite <- Permutation_middle. reflexivity.
    + intros k' v' H'. apply Hold. rewrite lookup_insert_ne; [exact H'|].
      intros ->. congruence.
Qed.

(** X28.  A blog that was just added can be read back: when the title is
    new, every section of the table belongs to a blog and ids are handed
    out fresh, [GET /blogs/:id] on the returned id answers with the
    title, image and introduction of the request and with sections whose
    headings and contents are those of the request, each once. *)
Theorem add_blog_then_read (title' image' intro' : option string)
    (ss : list req_section) (w : site) :
  fresh_ids auto_increment ->
  sections_attached (site_db w) ->
  truthyStr title' = true ->
  ss <> [] ->
  select_blog_ids_by_title (default EmptyString title') (db_blogs (site_db w)) = [] ->
  db_fails (site_queries w) = false ->
  db_fails (S (site_queries w)) = false ->
  db_fails (S (S (site_queries w))) = false ->
  db_fails (S (S (S (site_queries w)))) = false ->
  let run := add_blog db_fails auto_increment title' image' intro' (Some ss) w in
  exists blogId' views,
    run.1 = Ret (mkSiteResponse 200
                   (SBlogAdded "Blog and sections added successfully" blogId')) /\
    (blog_by_id db_fails blogId' run.2).1 =
      Ret (mkSiteResponse 200 (SBlog (mkBlogView blogId' title' image' intro' views))) /\
    (fun v => (sv_heading v, sv_content v)) <$> views
      ≡ₚ (fun s => (rs_heading s, rs_content s)) <$> ss.
Proof.
  intros Hfresh Hatt Ht Hne Hsel H0 H1 H2 H3. cbv zeta.
  assert (Hq : site_queries (add_blog db_fails auto_increment title' image' intro'
                               (Some ss) w).2 = S (S (S (site_queries w)))).
  { unfold add_blog. rewrite Ht.
    destruct ss as [|s0 ss0]; [contradiction|].
    change (Z.of_nat (length (s0 :: ss0)) =? 0) with false. cbv iota.
    unfold site_bind at 1. unfold site_query. rewrite H0, Hsel.
    change (0 <? Z.of_nat (length [])) with false. cbv iota.
    unfold site_bind at 1. unfold site_exec at 1.
    cbn [site_db site_queries site_outbox site_console]. rewrite H1.
    unfold insert_row. unfold site_bind, site_exec.
    cbn [site_db site_queries site_outbox site_console]. rewrite H2. reflexivity. }
  pose proof (add_blog_observed title' image' intro' (Some ss) w) as H.
  cbv zeta in H. unfold observe in H. rewrite Ht, H0, Hsel, H1, H2 in H.
  destruct ss as [|s0 ss0]; [contradiction|].
  change (Z.of_nat (length (s0 :: ss0)) =? 0) with false in H.
  change (0 <? Z.of_nat (length [])) with false in H. cbv iota in H.
  set (ss := s0 :: ss0) in *.
  set (bid := auto_increment (dom (db_blogs (site_db w)))) in *.
  injection H as Hr Hdb _.
  assert (Hbid : db_blogs (site_db w) !! bid = None)
    by (apply not_elem_of_dom; apply Hfresh).
  set (vs := (fun s => mkSection bid (rs_heading s) (rs_content s)) <$> ss) in *.
  destruct (insert_rows_fresh vs (db_sections (site_db w)) Hfresh)
    as (ids & Hlen & Hperm & _).
  exists bid.
  exists ((fun r : Z * blog_section => mkSectionView r.1 (heading r.2) (content r.2))
            <$> sections_of bid
                  (insert_rows auto_increment vs (db_sections (site_db w)))).
  split; [exact Hr|]. split.
  - rewrite blog_by_id_answer by (rewrite Hq; exact H3).
    rewrite Hdb. cbn [db_blogs db_sections with_db_sections with_db_blogs].
    rewrite lookup_insert_eq. reflexivity.
  - unfold sections_of. rewrite Hperm, filter_app.
    assert (Hold : filter (fun r : Z * blog_section => blog_id r.2 = bid)
                     (map_to_list (db_sections (site_db w))) = []).
    { apply elem_of_nil_inv. intros [sid s] Hin.
      apply list_elem_of_filter in Hin as [Hb Hin]. apply elem_of_map_to_list in Hin.
      destruct (Hatt sid s Hin) as [b Hblog]. cbn in Hb. rewrite Hb in Hblog. congruence. }
    rewrite Hold, app_nil_r.
    assert (Hnew : filter (fun r : Z * blog_section => blog_id r.2 = bid) (zip ids vs)
                   = zip ids vs).
    { apply filter_all. intros [sid s] Hin. apply elem_of_zip_r in Hin.
      unfold vs in Hin. apply list_elem_of_fmap in Hin as (rs & -> & _). reflexivity. }
    rewrite Hnew, <- !list_fmap_compose.
    change ((fun v => (sv_heading v, sv_content v)) ∘
            (fun r : Z * blog_section => mkSectionView r.1 (heading r.2) (content r.2)))
      with ((fun s : blog_section => (heading s, content s)) ∘ (snd : Z * blog_section -> _)).
    rewrite list_fmap_compose, snd_zip by lia.
    unfold vs. rewrite <- list_fmap_compose. reflexivity.
Qed.

End AddBlog.

Lemma add_blog_rejections_write_nothing_witness :
  let w' := (add_blog Sample.db_up Sample2.next_id (Some EmptyString) None None
               (Some [mkReqSection None (Some "Intro"%string) None]) Sample2.site0).2 in
  (site_status (mkSiteResponse 400 (SError "Title and sections are required")) = 400 \/
   site_status (mkSiteResponse 400 (SError "Title and sections are required")) = 409 ->
   site_db w' = site_db Sample2.site0) /\
  (truthyStr (Some EmptyString) = false \/
   Some [mkReqSection None (Some "Intro"%string) None] = None ->
   site_status (mkSiteResponse 400 (SError "Title and sections are required")) = 400).
Proof.
  apply (add_blog_rejections_write_nothing Sample.db_up Sample2.next_id
           (Some EmptyString) None None
           (Some [mkReqSection None (Some "Intro"%string) None]) Sample2.site0
           (mkSiteResponse 400 (SError "Title and sections are required"))).
  vm_compute. reflexivity.
Defined.

(** The sample allocator hands out an id above every id in use. *)
Lemma next_id_fresh : fresh_ids Sample2.next_id.
Proof.
  intros ids Hin. unfold Sample2.next_id in Hin.
  apply elem_of_elements in Hin.
  assert (Hle : forall (l : list Z) x, x ∈ l -> x <= foldr Z.max 0 l).
  { induction l as [|y l IH]; intros x Hx; [inversion Hx|].
    cbn [foldr]. apply elem_of_cons in Hx as [->|Hx]; [lia|].
    specialize (IH x Hx). lia. }
  specialize (Hle _ _ Hin). lia.
Qed.

(** The sample blogs have four different titles. *)
Lemma sample_titles_unique : unique_titles (db_blogs (site_db Sample2.site0)).
Proof.
  intros i j b c t Hi Hj Hb Hc. cbn in Hi, Hj.
  rewrite !lookup_insert_Some, lookup_empty in Hi, Hj.
  destruct Hi as [[<- <-]|[_ [[<- <-]|[_ [[<- <-]|[_ [[<- <-]|[_ Hi]]]]]]]];
    try discriminate Hi; cbn in Hb; injection Hb as <-;
    destruct Hj as [[<- <-]|[_ [[<- <-]|[_ [[<- <-]|[_ [[<- <-]|[_ Hj]]]]]]]];
    try discriminate Hj; cbn in Hc; try discriminate Hc; reflexivity.
Qed.

Lemma add_blog_keeps_titles_unique_witness :
  unique_titles
    (db_blogs (site_db (add_blog Sample.db_up Sample2.next_id (Some "Prices"%string)
                          None (Some "What it costs"%string)
                          (Some [mkReqSection None (Some "Monthly"%string) None])
                          Sample2.site0).2)).
Proof.
  apply (add_blog_keeps_titles_unique Sample.db_up Sample2.next_id (Some "Prices"%string)
           None (Some "What it costs"%string)
           (Some [mkReqSection None (Some "Monthly"%string) None]) Sample2.site0).
  - exact sample_titles_unique.
  - apply next_id_fresh.
Defined.

Lemma add_blog_then_read_witness :
  let ss := [mkReqSection None (Some "Monthly"%string) (Some "One month"%string);
             mkReqSection (Some 10) (Some "Yearly"%string) None] in
  let run := add_blog Sample.db_up Sample2.next_id (Some "Prices"%string) None
               (Some "What it costs"%string) (Some ss) Sample2.site0 in
  exists blogId' views,
    run.1 = Ret (mkSiteResponse 200
                   (SBlogAdded "Blog and sections added successfully" blogId')) /\
    (blog_by_id Sample.db_up blogId' run.2).1 =
      Ret (mkSiteResponse 200
             (SBlog (mkBlogView blogId' (Some "Prices"%string) None
                       (Some "What it costs"%string) views))) /\
    (fun v => (sv_heading v, sv_content v)) <$> views
      ≡ₚ (fun s => (rs_heading s, rs_content s)) <$> ss.
Proof.
  apply (add_blog_then_read Sample.db_up Sample2.next_id (Some "Prices"%string) None
           (Some "What it costs"%string)
           [mkReqSection None (Some "Monthly"%string) (Some "One month"%string);
            mkReqSection (Some 10) (Some "Yearly"%string) None] Sample2.site0).
  - exact next_id_fresh.
  - exact sample_sections_attached.
  - reflexivity.
  - discriminate.
  - vm_compute. reflexivity.
  - reflexivity.
  - reflexivity.
  - reflexivity.
  - reflexivity.
Defined.

(** ** Updating a blog *)

Section UpdateBlog.

Variable db_fails : nat -> bool.
Variable auto_increment : gset Z -> Z.

(** The sections table after a 200 answer: the old sections deleted, the
    new ones inserted, the named ones written. *)
Lemma update_blog_success (blogId' : Z) (title' image' intro' : option string)
    (ss : list req_section) (w : site) (r : site_response) :
  (update_blog db_fails auto_increment blogId' title' image' intro' (Some ss) w).1 = Ret r ->
  site_status r = 200 ->
  db_sections (site_db (update_blog db_fails auto_increment blogId' title' image' intro'
                          (Some ss) w).2) =
    upsert_sections blogId' (existing_values ss)
      (insert_rows auto_increment (new_values blogId' ss)
         (if (Z.of_nat (length (section_ids ss)) =? 0)
          then delete_sections_of blogId' (db_sections (site_db w))
          else delete_sections_not_in blogId' (section_ids ss) (db_sections (site_db w)))).
Proof.
  assert (H : exists q c r0 dbx,
             update_blog db_fails auto_increment blogId' title' image' intro' (Some ss) w =
               (Ret r0, mkSite dbx q (site_outbox w) c) /\
             (site_status r0 = 200 ->
              db_sections dbx =
                upsert_sections blogId' (existing_values ss)
                  (insert_rows auto_increment (new_values blogId' ss)
                     (if (Z.of_nat (length (section_ids ss)) =? 0)
                      then delete_sections_of blogId' (db_sections (site_db w))
                      else delete_sections_not_in blogId' (section_ids ss)
                             (db_sections (site_db w)))))).
  { unfold update_blog. fold (section_ids ss).
    unfold site_bind at 1. unfold site_exec at 1.
    destruct (db_fails (site_queries w));
      [do 4 eexists; split; [reflexivity | cbn; discriminate]|].
    unfold site_bind at 1. unfold site_exec at 1.
    cbn [site_db site_queries site_outbox site_console].
    destruct (db_fails (S (site_queries w)));
      [do 4 eexists; split; [reflexivity | cbn; discriminate]|].
    cbn [db_sections with_db_blogs with_db_sections].
    set (tbl1 := if (Z.of_nat (length (section_ids ss)) =? 0)
                 then delete_sections_of blogId' (db_sections (site_db w))
                 else delete_sections_not_in blogId' (section_ids ss)
                        (db_sections (site_db w))).
    unfold new_values, existing_values.
    destruct (List.filter (fun s => negb (truthyNum (rs_id s))) ss) as [|n0 ns] eqn:En;
      destruct (List.filter (fun s => truthyNum (rs_id s)) ss) as [|e0 es] eqn:Ee.
    - change (Z.of_nat (length (@nil req_section)) =? 0) with true. cbv iota.
      unfold site_bind, site_ret, respond.
      do 4 eexists. split; [reflexivity|]. intros _. reflexivity.
    - change (Z.of_nat (length (@nil req_section)) =? 0) with true.
      change (Z.of_nat (length (e0 :: es)) =? 0) with false. cbv iota.
      unfold site_bind at 1. unfold site_ret at 1.
      unfold site_bind at 1. unfold site_exec at 1.
      cbn [site_db site_queries site_outbox site_console].
      destruct (db_fails (S (S (site_queries w))));
        do 4 eexists; (split; [reflexivity|]); cbn; try discriminate.
      intros _. reflexivity.
    - change (Z.of_nat (length (@nil req_section)) =? 0) with true.
      change (Z.of_nat (length (n0 :: ns)) =? 0) with false. cbv iota.
      unfold site_bind at 1. unfold site_exec at 1.
      cbn [site_db site_queries site_outbox site_console].
      destruct (db_fails (S (S (site_queries w))));
        do 4 eexists; (split; [reflexivity|]); cbn; try discriminate.
      intros _. reflexivity.
    - change (Z.of_nat (length (n0 :: ns)) =? 0) with false.
      change (Z.of_nat (length (e0 :: es)) =? 0) with false. cbv iota.
      unfold site_bind at 1. unfold site_exec at 1.
      cbn [site_db site_queries site_outbox site_console].
      destruct (db_fails (S (S (site_queries w))));
        [do 4 eexists; split; [reflexivity | cbn; discriminate]|].
      unfold site_bind at 1. unfold site_exec at 1.
      cbn [site_db site_queries site_outbox site_console].
      destruct (db_fails (S (S (S (site_queries w)))));
        do 4 eexists; (split; [reflexivity|]); cbn; try discriminate.
      intros _. reflexivity. }
  destruct H as (q & c & r0 & dbx & -> & Hdb). cbn [fst snd site_db].
  intros [= ->]. exact Hdb.
Qed.

Lemma lookup_delete_sections_not_in (id : Z) (keep : list Z) (tbl : gmap Z blog_section)
    (sid : Z) (s : blog_section) :
  tbl !! sid = Some s -> blog_id s <> id ->
  delete_sections_not_in id keep tbl !! sid = Some s.
Proof.
  intros Hs Hne. unfold delete_sections_not_in.
  apply map_lookup_filter_Some. split; [exact Hs|]. cbn. tauto.
Qed.

(** Writing rows under their ids: a row that is already there keeps its
    blog, and takes heading and content from the request if the request
    names its id. *)
Lemma upsert_sections_lookup (blogId' : Z) (vs : list (Z * req_section))
    (tbl : gmap Z blog_section) (sid : Z) (s0 : blog_section) :
  tbl !! sid = Some s0 ->
  exists s1,
    upsert_sections blogId' vs tbl !! sid = Some s1 /\
    blog_id s1 = blog_id s0 /\
    (((sid ∉ vs.*1) /\ s1 = s0) \/
     (exists r, (sid, r) ∈ vs /\ heading s1 = rs_heading r /\ content s1 = rs_content r)).
Proof.
  revert tbl s0. induction vs as [|[id r] vs IH]; intros tbl s0 Hs.
  - exists s0. split; [exact Hs|]. split; [reflexivity|]. left.
    split; [apply not_elem_of_nil | reflexivity].
  - unfold upsert_sections. cbn [fold_left]. fold (upsert_sections blogId' vs).
    destruct (decide (id = sid)) as [->|Hne].
    + assert (Hstep : upsert_section blogId' tbl (sid, r) =
                      <[sid := mkSection (blog_id s0) (rs_heading r) (rs_content r)]> tbl)
        by (unfold upsert_section; rewrite Hs; reflexivity).
      rewrite Hstep.
      destruct (IH (<[sid := mkSection (blog_id s0) (rs_heading r) (rs_content r)]> tbl)
                  (mkSection (blog_id s0) (rs_heading r) (rs_content r)))
        as (s1 & H1 & Hb & Hcase); [apply lookup_insert_eq|].
      exists s1. split; [exact H1|]. split; [exact Hb|]. right.
      destruct Hcase as [[_ ->]|(r' & Hin & Hh & Hc)].
      * exists r. split; [left | split; reflexivity].
      * exists r'. split; [right; exact Hin | split; assumption].
    + assert (Hs' : upsert_section blogId' tbl (id, r) !! sid = Some s0).
      { unfold upsert_section. destruct (tbl !! id);
          rewrite lookup_insert_ne by exact Hne; exact Hs. }
      destruct (IH _ _ Hs') as (s1 & H1 & Hb & Hcase).
      exists s1. split; [exact H1|]. split; [exact Hb|].
      destruct Hcase as [[Hnot ->]|(r' & Hin & Hh & Hc)].
      * left. split; [|reflexivity]. rewrite fmap_cons. cbn [fst].
        apply not_elem_of_cons. split; [congruence | exact Hnot].
      * right. exists r'. split; [right; exact Hin | split; assumption].
Qed.

(** X29.  After a 200 answer a section of another blog still belongs to
    that blog.  It is as before unless the request names its id; if it
    does, its heading and content are now those of a section of the
    request with that id. *)
Theorem update_blog_sections_of_other_blogs (blogId' : Z)
    (title' image' intro' : option string) (ss : list req_section) (w : site)
    (r : site_response) (sid : Z) (s : blog_section) :
  fresh_ids auto_increment ->
  (update_blog db_fails auto_increment blogId' title' image' intro' (Some ss) w).1 = Ret r ->
  site_status r = 200 ->
  db_sections (site_db w) !! sid = Some s ->
  blog_id s <> blogId' ->
  let w' := (update_blog db_fails auto_increment blogId' title' image' intro'
               (Some ss) w).2 in
  exists s',
    db_sections (site_db w') !! sid = Some s' /\
    blog_id s' = blog_id s /\
    (((sid ∉ section_ids ss) /\ s' = s) \/
     (exists rs, rs ∈ ss /\ rs_id rs = Some sid /\
                 heading s' = rs_heading rs /\ content s' = rs_content rs)).
Proof.
  intros Hfresh Hr Hcode Hs Hne. cbv zeta.
  rewrite (update_blog_success _ _ _ _ _ _ _ Hr Hcode).
  set (tbl1 := if (Z.of_nat (length (section_ids ss)) =? 0)
               then delete_sections_of blogId' (db_sections (site_db w))
               else delete_sections_not_in blogId' (section_ids ss)
                      (db_sections (site_db w))).
  assert (H1 : tbl1 !! sid = Some s).
  { unfold tbl1. destruct (_ =? 0).
    - rewrite lookup_delete_sections_of, Hs. rewrite decide_False by exact Hne. reflexivity.
    - apply lookup_delete_sections_not_in; assumption. }
  destruct (insert_rows_fresh auto_increment (new_values blogId' ss) tbl1 Hfresh)
    as (ids & _ & _ & Hold).
  specialize (Hold sid s H1).
  destruct (upsert_sections_lookup blogId' (existing_values ss) _ sid s Hold)
    as (s' & Hs' & Hb & Hcase).
  exists s'. split; [exact Hs'|]. split; [exact Hb|].
  assert (Hids : (existing_values ss).*1 = section_ids ss).
  { unfold existing_values, section_ids. rewrite <- list_fmap_compose. reflexivity. }
  destruct Hcase as [[Hnot ->]|(rs & Hin & Hh & Hc)].
  - left. split; [rewrite <- Hids; exact Hnot | reflexivity].
  - right. exists rs. unfold existing_values in Hin.
    apply list_elem_of_fmap in Hin as (rs' & [= Hid <-] & Hin).
    apply list_elem_of_In, filter_In in Hin as [Hin Htruthy].
    split; [apply list_elem_of_In; exact Hin|].
    split; [|split; assumption].
    destruct (rs_id rs) as [k|]; [|discriminate Htruthy].
    cbn in Hid. rewrite Hid. reflexivity.
Qed.

(** X30.  A request without [sections] gets no answer: the route throws
    when it calls [sections.filter], after the blog row has been
    rewritten with the title, image and introduction of the request. *)
Theorem update_blog_without_sections (blogId' : Z)
    (title' image' intro' : option string) (w : site) :
  db_fails (site_queries w) = false ->
  let run := update_blog db_fails auto_increment blogId' title' image' intro' None w in
  run.1 = Throw "TypeError" /\
  db_blogs (site_db run.2) !! blogId' =
    (fun _ => mkBlog title' image' intro') <$> db_blogs (site_db w) !! blogId' /\
  db_sections (site_db run.2) = db_sections (site_db w).
Proof.
  intros H0. cbv zeta.
  assert (H : update_blog db_fails auto_increment blogId' title' image' intro' None w =
              (Throw "TypeError",
               mkSite (with_db_blogs (update_blog_row blogId' (mkBlog title' image' intro')
                                        (db_blogs (site_db w))) (site_db w))
                 (S (site_queries w)) (site_outbox w) (site_console w))).
  { unfold update_blog, site_bind, site_exec. rewrite H0. reflexivity. }
  rewrite H. cbn [fst snd site_db db_blogs db_sections with_db_blogs].
  split; [reflexivity|]. split; [|reflexivity].
  unfold update_blog_row. rewrite lookup_alter. rewrite decide_True by reflexivity.
  reflexivity.
Qed.

End UpdateBlog.

Lemma update_blog_sections_of_other_blogs_witness :
  let ss := [mkReqSection None (Some "Fresh"%string) None;
             mkReqSection (Some 12) (Some "Taken over"%string) None] in
  let w' := (update_blog Sample.db_up Sample2.next_id 1 (Some "News"%string) None None
               (Some ss) Sample2.site0).2 in
  exists s',
    db_sections (site_db w') !! 12 = Some s' /\
    blog_id s' = blog_id (mkSection 2 (Some "Step 1"%string) (Some "Sign up"%string)) /\
    (((12 ∉ section_ids ss) /\
      s' = mkSection 2 (Some "Step 1"%string) (Some "Sign up"%string)) \/
     (exists rs, rs ∈ ss /\ rs_id rs = Some 12 /\
                 heading s' = rs_heading rs /\ content s' = rs_content rs)).
Proof.
  apply (update_blog_sections_of_other_blogs Sample.db_up Sample2.next_id 1
           (Some "News"%string) None None
           [mkReqSection None (Some "Fresh"%string) None;
            mkReqSection (Some 12) (Some "Taken over"%string) None]
           Sample2.site0
           (mkSiteResponse 200 (SMessage "Blog and sections updated successfully"))
           12 (mkSection 2 (Some "Step 1"%string) (Some "Sign up"%string))).
  - exact next_id_fresh.
  - vm_compute. reflexivity.
  - reflexivity.
  - vm_compute. reflexivity.
  - vm_compute. discriminate.
Defined.

Lemma update_blog_without_sections_witness :
  let run := update_blog Sample.db_up Sample2.next_id 1 (Some "Renamed"%string) None None
               None Sample2.site0 in
  run.1 = Throw "TypeError" /\
  db_blogs (site_db run.2) !! 1 =
    (fun _ => mkBlog (Some "Renamed"%string) None None)
      <$> db_blogs (site_db Sample2.site0) !! 1 /\
  db_sections (site_db run.2) = db_sections (site_db Sample2.site0).
Proof.
  apply (update_blog_without_sections Sample.db_up Sample2.next_id 1
           (Some "Renamed"%string) None None Sample2.site0).
  reflexivity.
Defined.
